(** * PrepVista: a shallow embedding of the scoring heuristics and backend glue

    The development follows the layout of the repository:
    - [Py]        the fragments of Python's data model the code relies on
                  (exceptions, int/float numbers, [str] methods);
    - [Analysis]  [analysis.py]: video and audio heuristics;
    - [Resume]    [resume.py]: PDF text extraction;
    - [Interview] [interview.py] and [services/interview_service.py];
    - [Backend]   the Flask routes, models and utilities under [backend/].

    Python floats are IEEE binary64 numbers and are modelled by Rocq's
    primitive floats, so every comparison below rounds as CPython does. *)

From Stdlib Require Import ZArith List Bool Lia Floats Uint63.
From stdpp Require Import base option list gmap strings.
Import ListNotations.
Open Scope Z_scope.

(* ===================================================================== *)
(** * Python preliminaries *)
(* ===================================================================== *)

Module Py.

(** Exceptions that the modelled code can raise.  [Exception] stands for any
    other subclass of Python's [Exception] raised by a library call. *)
Inductive exn : Type :=
| ZeroDivisionError
| IndexError
| KeyError (key : string)
| TypeError
| ValueError
| PermissionError
| Exception (msg : string).

Inductive result (A : Type) : Type :=
| Ok (a : A)
| Raise (e : exn).
Arguments Ok {A} a.
Arguments Raise {A} e.

#[global] Instance result_ret : MRet result := fun A a => Ok a.
#[global] Instance result_bind : MBind result := fun A B k m =>
  match m with
  | Ok a => k a
  | Raise e => Raise e
  end.

(** [str(e)], as the error messages of the views interpolate it. *)
Definition exn_str (e : exn) : string :=
  match e with
  | ZeroDivisionError => "division by zero"
  | IndexError => "list index out of range"
  | KeyError key => key
  | TypeError => "TypeError"
  | ValueError => "ValueError"
  | PermissionError => "PermissionError"
  | Exception msg => msg
  end.

(** [l[i]] for a non-negative index. *)
Definition index {A : Type} (l : list A) (i : nat) : result A :=
  match l !! i with
  | Some a => Ok a
  | None => Raise IndexError
  end.

(** ** Numbers *)

(** A Python number is an [int] or a [float]; [min], [max] and the
    arithmetic operators keep the distinction. *)
Inductive pynum : Type :=
| PInt (z : Z)
| PFloat (f : float).

(** [float(z)], exact for [|z| < 2^53], which covers every counter of the
    code (frame, sample and word counts). *)
Definition float_of_Z (z : Z) : float :=
  if z <? 0 then PrimFloat.opp (PrimFloat.of_uint63 (Uint63.of_Z (- z)))
  else PrimFloat.of_uint63 (Uint63.of_Z z).

Definition to_float (n : pynum) : float :=
  match n with
  | PInt z => float_of_Z z
  | PFloat f => f
  end.

(** [a < b] *)
Definition lt (a b : pynum) : bool :=
  match a, b with
  | PInt x, PInt y => x <? y
  | _, _ => PrimFloat.ltb (to_float a) (to_float b)
  end.

(** [a > b] is [b < a]. *)
Definition gt (a b : pynum) : bool := lt b a.

(** [max(a, b)] keeps its first argument unless the second is greater;
    [min(a, b)] keeps its first argument unless the second is smaller. *)
Definition max (a b : pynum) : pynum := if gt b a then b else a.
Definition min (a b : pynum) : pynum := if lt b a then b else a.

Definition is_zero (n : pynum) : bool :=
  match n with
  | PInt z => z =? 0
  | PFloat f => PrimFloat.eqb f PrimFloat.zero
  end.

(** [a / b]: true division, always a float. *)
Definition truediv (a b : pynum) : result pynum :=
  if is_zero b then Raise ZeroDivisionError
  else Ok (PFloat (PrimFloat.div (to_float a) (to_float b))).

(** [a // b] on ints. *)
Definition floordiv (a b : Z) : result Z :=
  if b =? 0 then Raise ZeroDivisionError else Ok (a / b).

(** [a * b] *)
Definition mul (a b : pynum) : pynum :=
  match a, b with
  | PInt x, PInt y => PInt (x * y)
  | _, _ => PFloat (PrimFloat.mul (to_float a) (to_float b))
  end.

(** [a + b] *)
Definition add (a b : pynum) : pynum :=
  match a, b with
  | PInt x, PInt y => PInt (x + y)
  | _, _ => PFloat (PrimFloat.add (to_float a) (to_float b))
  end.

(** [range(0, stop, step)] for a positive [step]. *)
Definition range (stop step : Z) : list Z :=
  map (fun k : nat => Z.of_nat k * step) (seq 0 (Z.to_nat ((stop + step - 1) / step))).

(** [sum(samples)] over booleans counts the [True]s. *)
Fixpoint sum_bools (samples : list bool) : Z :=
  match samples with
  | [] => 0
  | b :: rest => (if b then 1 else 0) + sum_bools rest
  end.

(** Numeric order on values, used to state ranges: [lo <= v <= hi] for
    integer bounds [lo] and [hi]. *)
Definition between (lo hi : Z) (v : pynum) : Prop :=
  match v with
  | PInt z => lo ≤ z ≤ hi
  | PFloat f =>
      PrimFloat.leb (float_of_Z lo) f = true ∧ PrimFloat.leb f (float_of_Z hi) = true
  end.

(** ** Strings *)

(** A [str] is a sequence of Unicode code points. *)
Definition str : Type := list N.

(** The [str] written by an ASCII literal of the source. *)
Definition lit (s : string) : str := Ascii.N_of_ascii <$> String.list_ascii_of_string s.

(** [c.isspace()]: the code points CPython treats as whitespace in
    [str.strip()] and [str.split()]. *)
Definition is_space (c : N) : bool :=
  ((9 <=? c) && (c <=? 13) || (28 <=? c) && (c <=? 32) || (c =? 133) || (c =? 160)
   || (c =? 5760) || (8192 <=? c) && (c <=? 8202) || (c =? 8232) || (c =? 8233)
   || (c =? 8239) || (c =? 8287) || (c =? 12288))%N.

(** [s.lstrip()], [s.rstrip()] and [s.strip()] *)
Fixpoint lstrip (s : str) : str :=
  match s with
  | c :: rest => if is_space c then lstrip rest else s
  | [] => []
  end.
Definition rstrip (s : str) : str := rev (lstrip (rev s)).
Definition strip (s : str) : str := rstrip (lstrip s).

(** [s.split()]: the maximal runs of non-whitespace characters; [word] is
    the run being read. *)
Fixpoint split_from (word : str) (s : str) : list str :=
  match s with
  | [] => match word with [] => [] | _ => [word] end
  | c :: rest =>
      if is_space c
      then match word with
           | [] => split_from [] rest
           | _ => word :: split_from [] rest
           end
      else split_from (word ++ [c]) rest
  end.
Definition split (s : str) : list str := split_from [] s.

(** [s.startswith(sub)] *)
Fixpoint startswith (s sub : str) : bool :=
  match sub, s with
  | [], _ => true
  | a :: sub', b :: s' => (a =? b)%N && startswith s' sub'
  | _ :: _, [] => false
  end.

(** [s.count(sub)]: the scan of CPython, which resumes after the end of
    each match; [skip] characters of the last match are still to be passed. *)
Fixpoint count_from (sub : str) (skip : nat) (s : str) : Z :=
  match s with
  | [] => 0
  | _ :: rest =>
      match skip with
      | S k => count_from sub k rest
      | O =>
          if startswith s sub
          then 1 + count_from sub (length sub - 1) rest
          else count_from sub 0 rest
      end
  end.
Definition count (s sub : str) : Z :=
  match sub with
  | [] => Z.of_nat (length s) + 1
  | _ => count_from sub 0 s
  end.

(** [s.find(sub)] for a non-empty [sub]: the first position where it
    occurs, if any. *)
Fixpoint find (s sub : str) : option nat :=
  match s with
  | [] => None
  | _ :: rest => if startswith s sub then Some 0%nat else S <$> find rest sub
  end.

(** The number of positions of [s] at which [sub] occurs. *)
Fixpoint occurrences (s sub : str) : Z :=
  match s with
  | [] => 0
  | _ :: rest => (if startswith s sub then 1 else 0) + occurrences rest sub
  end.

(** [s.lower()] restricted to ASCII letters; it is [str.lower] on every
    string of ASCII characters. *)
Definition ascii_lower (s : str) : str :=
  (fun c => if (65 <=? c) && (c <=? 90) then c + 32 else c)%N <$> s.

(** [s.endswith(sub)] *)
Definition endswith (s sub : str) : bool := startswith (rev s) (rev sub).

(** [sub in s] *)
Definition contains (s sub : str) : bool :=
  match sub with
  | [] => true
  | _ => bool_decide (is_Some (find s sub))
  end.

(** [s.find(sub)] and [s.rfind(sub)] as Python returns them: -1 when [sub]
    does not occur. *)
Definition find_index (s sub : str) : Z :=
  match find s sub with
  | Some i => Z.of_nat i
  | None => -1
  end.
Fixpoint rfind_from (s sub : str) (i : nat) : option nat :=
  match s with
  | [] => None
  | _ :: rest =>
      match rfind_from rest sub (S i) with
      | Some j => Some j
      | None => if startswith s sub then Some i else None
      end
  end.
Definition rfind_index (s sub : str) : Z :=
  match rfind_from s sub 0 with
  | Some i => Z.of_nat i
  | None => -1
  end.

(** [s[start:stop]] for non-negative bounds. *)
Definition slice (s : str) (start stop : Z) : str :=
  take (Z.to_nat (stop - start)) (drop (Z.to_nat start) s).

(** [sep.join(parts)] *)
Fixpoint join (sep : str) (parts : list str) : str :=
  match parts with
  | [] => []
  | [p] => p
  | p :: rest => p ++ sep ++ join sep rest
  end.

(** ** Values *)

(** The values that travel through JSON bodies, API replies and MongoDB
    documents.  A dictionary is a finite map from its keys. *)
#[warnings="-register-all"]
Inductive value : Type :=
| VNone
| VBool (b : bool)
| VInt (z : Z)
| VFloat (f : float)
| VStr (s : str)
| VBytes (b : list N)
| VList (l : list value)
| VDict (d : gmap string value)
| VObjectId (oid : N)
| VDatetime (t : Z).

(** Truth value of an object, as [if v:] and [v or d] test it. *)
Definition truthy (v : value) : bool :=
  match v with
  | VNone => false
  | VBool b => b
  | VInt z => negb (z =? 0)
  | VFloat f => negb (PrimFloat.eqb f PrimFloat.zero)
  | VStr s => match s with [] => false | _ => true end
  | VBytes b => match b with [] => false | _ => true end
  | VList l => match l with [] => false | _ => true end
  | VDict d => negb (bool_decide (dom d = ∅))
  | VObjectId _ | VDatetime _ => true
  end.

(** [k in d] for a dictionary. *)
Definition has_key (d : gmap string value) (k : string) : bool :=
  bool_decide (is_Some (d !! k)).

(** ** The string methods on small inputs *)

Example strip_example : strip ([9; 10; 160]%N ++ lit " a b  ") = lit "a b".
Proof. reflexivity. Qed.

Example split_example :
  split (lit "  the quick   brown fox ") = [lit "the"; lit "quick"; lit "brown"; lit "fox"].
Proof. reflexivity. Qed.

Example count_example :
  count (lit "aaaa") (lit "aa") = 2 ∧ count (lit "abc") [] = 4
  ∧ count (lit " um um um ") (lit " um ") = 2
  ∧ occurrences (lit " um um um ") (lit " um ") = 3.
Proof. repeat split; reflexivity. Qed.

Example find_example :
  find_index (lit "xx{a}{b}yy") (lit "{") = 2 ∧ rfind_index (lit "xx{a}{b}yy") (lit "}") = 7
  ∧ find_index (lit "abc") (lit "{") = -1 ∧ rfind_index (lit "abc") (lit "}") = -1
  ∧ slice (lit "xx{a}{b}yy") 2 8 = lit "{a}{b}".
Proof. repeat split; reflexivity. Qed.

Example range_example :
  range 10 3 = [0; 3; 6; 9] ∧ range 3 1 = [0; 1; 2] ∧ range 0 1 = [] ∧ range (-1) 1 = [].
Proof. repeat split; reflexivity. Qed.

Example truediv_example :
  truediv (PInt 1) (PInt 4) = Ok (PFloat 0.25)
  ∧ truediv (PInt 1) (PInt 0) = Raise ZeroDivisionError.
Proof. split; vm_compute; reflexivity. Qed.

End Py.

(* ===================================================================== *)
(** * analysis.py: video heuristics *)
(* ===================================================================== *)

Module Analysis.
Import Py.

(** A MediaPipe normalized landmark (only the coordinates the code reads). *)
Record landmark : Type := { lm_x : float; lm_y : float }.

(** [mp.solutions.pose.PoseLandmark.*.value] *)
Definition LEFT_SHOULDER : nat := 11.
Definition RIGHT_SHOULDER : nat := 12.
Definition LEFT_HIP : nat := 23.
Definition RIGHT_HIP : nat := 24.

(** The float literals of the source, written in hexadecimal so that they
    denote the binary64 values CPython reads: 0.08, 0.8 and 0.1. *)
Definition f_0_08 : float := 0x1.47ae147ae147bp-4%float.
Definition f_0_8 : float := 0x1.999999999999ap-1%float.
Definition f_0_1 : float := 0x1.999999999999ap-4%float.

(** [abs(a - b)] on floats. *)
Definition abs_diff (a b : float) : float := PrimFloat.abs (PrimFloat.sub a b).

(** [calculate_smoothed_score(samples, baseline, variation)] *)
Definition calculate_smoothed_score (samples : list bool) (baseline variation : Z)
  : result pynum :=
  match samples with
  | [] => Ok (PInt baseline)
  | _ =>
      mean ← truediv (PInt (sum_bools samples)) (PInt (Z.of_nat (length samples)));
      let raw_score := mul mean (PInt 100) in
      Ok (Py.min (PInt 95) (Py.max (PInt 30) raw_score))
  end.

(** The raw score of a non-empty sample list: [(sum(samples) / len(samples)) * 100]. *)
Definition raw_score (samples : list bool) : pynum :=
  PFloat (PrimFloat.mul
            (PrimFloat.div (float_of_Z (sum_bools samples))
                           (float_of_Z (Z.of_nat (length samples))))
            (float_of_Z 100)).

(** [v] is [x] clamped to the interval [lo, hi]: [x] itself when it lies
    strictly inside, [lo] when [x] does not exceed [lo], and [hi] when [x]
    exceeds [lo] but is not below [hi]. *)
Definition clamped (lo hi : Z) (x v : pynum) : Prop :=
  (lt (PInt lo) x = true ∧ lt x (PInt hi) = true ∧ v = x)
  ∨ (lt (PInt lo) x = false ∧ v = PInt lo)
  ∨ (lt (PInt lo) x = true ∧ lt x (PInt hi) = false ∧ v = PInt hi).

Section Video.

(** What OpenCV and MediaPipe contribute: the decoded frames of the file and
    the landmarks found on a frame. *)
Context {frame : Type}.

(** [cv2.VideoCapture(video_path)]: whether it opened, the frame count its
    container reports, and the frame [cap.read()] yields after seeking to a
    position ([None] when [ret] is false). *)
Record capture : Type := {
  isOpened : bool;
  frame_count_prop : Z;
  read_at : Z → option frame
}.

(** [pose.process(rgb).pose_landmarks]: [None] when no pose was detected. *)
Variable pose_process : frame → option (list landmark).
(** [face_mesh.process(rgb).multi_face_landmarks]: the landmark lists of the
    detected faces, empty when there is none. *)
Variable face_process : frame → list (list landmark).

(** The locals of the sampling loop of [analyze_video_ultrafast]. *)
Record samples : Type := {
  posture_samples : list bool;
  eye_contact_samples : list bool;
  confidence_samples : list bool;
  frame_count : Z
}.

Definition no_samples : samples :=
  {| posture_samples := []; eye_contact_samples := [];
     confidence_samples := []; frame_count := 0 |}.

(** The pose block of the loop body. *)
Definition pose_analysis (fr : frame) (st : samples) : result samples :=
  match pose_process fr with
  | Some landmarks =>
      left_shoulder ← index landmarks LEFT_SHOULDER;
      right_shoulder ← index landmarks RIGHT_SHOULDER;
      let shoulder_diff := abs_diff (lm_y left_shoulder) (lm_y right_shoulder) in
      let posture := posture_samples st ++ [PrimFloat.ltb shoulder_diff f_0_08] in
      left_hip ← index landmarks LEFT_HIP;
      right_hip ← index landmarks RIGHT_HIP;
      let shoulder_width := abs_diff (lm_x left_shoulder) (lm_x right_shoulder) in
      let hip_width := abs_diff (lm_x left_hip) (lm_x right_hip) in
      Ok {| posture_samples := posture;
            eye_contact_samples := eye_contact_samples st;
            confidence_samples :=
              confidence_samples st
                ++ [PrimFloat.ltb (PrimFloat.mul hip_width f_0_8) shoulder_width];
            frame_count := frame_count st |}
  | None => Ok st
  end.

(** The face block, run on every third frame read. *)
Definition face_analysis (fr : frame) (st : samples) : result samples :=
  if frame_count st mod 3 =? 0 then
    match face_process fr with
    | landmarks :: _ =>
        left_eye ← index landmarks 33;
        right_eye ← index landmarks 263;
        let eye_distance := abs_diff (lm_x left_eye) (lm_x right_eye) in
        Ok {| posture_samples := posture_samples st;
              eye_contact_samples :=
                eye_contact_samples st ++ [PrimFloat.ltb f_0_1 eye_distance];
              confidence_samples := confidence_samples st;
              frame_count := frame_count st |}
    | [] => Ok st
    end
  else Ok st.

(** One iteration, after [cap.read()] succeeded. *)
Definition ultrafast_frame (fr : frame) (st : samples) : result samples :=
  let st := {| posture_samples := posture_samples st;
               eye_contact_samples := eye_contact_samples st;
               confidence_samples := confidence_samples st;
               frame_count := frame_count st + 1 |} in
  st ← pose_analysis fr st;
  face_analysis fr st.

(** [for i in range(0, total_frames, frame_interval)] with its two [break]s. *)
Fixpoint ultrafast_loop (cap : capture) (target_samples : Z) (positions : list Z)
    (st : samples) : result samples :=
  match positions with
  | [] => Ok st
  | i :: rest =>
      if target_samples <=? frame_count st then Ok st
      else match read_at cap i with
           | None => Ok st
           | Some fr =>
               st ← ultrafast_frame fr st;
               ultrafast_loop cap target_samples rest st
           end
  end.

(** The sampling part of [analyze_video_ultrafast] on an opened capture. *)
Definition ultrafast_samples (cap : capture) : result samples :=
  let total_frames := frame_count_prop cap in
  let target_samples := Z.min 60 total_frames in
  q ← floordiv total_frames target_samples;
  let frame_interval := Z.max 1 q in
  ultrafast_loop cap target_samples (range total_frames frame_interval) no_samples.

(** The dictionary [analyze_video_ultrafast] returns; [{}] when the capture
    did not open. *)
Record video_results : Type := {
  posture_score : pynum;
  eye_contact_score : pynum;
  confidence_score : pynum;
  blinks_ok : bool;
  gestures_ok : bool;
  frames_analyzed : option Z
}.

Definition analyze_video_ultrafast (cap : capture) : result (option video_results) :=
  if negb (isOpened cap) then Ok None
  else
    st ← ultrafast_samples cap;
    posture ← calculate_smoothed_score (posture_samples st) 65 5;
    eye_contact ← calculate_smoothed_score (eye_contact_samples st) 60 5;
    confidence ← calculate_smoothed_score (confidence_samples st) 65 5;
    Ok (Some {| posture_score := posture;
                eye_contact_score := eye_contact;
                confidence_score := confidence;
                blinks_ok := true;
                gestures_ok := true;
                frames_analyzed := Some (frame_count st) |}).

(** The locals of the loop of [one_click_analysis]. *)
Record quick_counts : Type := {
  posture_count : Z;
  frontal_face_count : Z;
  frames_checked : Z
}.

Definition one_click_frame (fr : frame) (st : quick_counts) : result quick_counts :=
  posture ←
    match pose_process fr with
    | Some landmarks =>
        l ← index landmarks 11;
        r ← index landmarks 12;
        if PrimFloat.ltb (abs_diff (lm_y l) (lm_y r)) f_0_08
        then Ok (posture_count st + 1)
        else Ok (posture_count st)
    | None => Ok (posture_count st)
    end;
  let frontal :=
    match face_process fr with
    | _ :: _ => frontal_face_count st + 1
    | [] => frontal_face_count st
    end in
  Ok {| posture_count := posture;
        frontal_face_count := frontal;
        frames_checked := frames_checked st + 1 |}.

Fixpoint one_click_loop (cap : capture) (sample_frames : Z) (positions : list Z)
    (st : quick_counts) : result quick_counts :=
  match positions with
  | [] => Ok st
  | i :: rest =>
      if sample_frames <=? frames_checked st then Ok st
      else match read_at cap i with
           | None => Ok st
           | Some fr =>
               st ← one_click_frame fr st;
               one_click_loop cap sample_frames rest st
           end
  end.

Definition one_click_counts (cap : capture) : result quick_counts :=
  let total_frames := frame_count_prop cap in
  let sample_frames := Z.min 20 total_frames in
  q ← floordiv total_frames sample_frames;
  let interval := Z.max 1 q in
  one_click_loop cap sample_frames (range total_frames interval)
    {| posture_count := 0; frontal_face_count := 0; frames_checked := 0 |}.

(** [one_click_analysis] after the existence check of the file; the report
    it writes is not modelled. *)
Definition one_click_analysis (cap : capture) : result video_results :=
  st ← one_click_counts cap;
  p ← truediv (PInt (posture_count st)) (PInt (frames_checked st));
  let posture := mul p (PInt 100) in
  e ← truediv (PInt (frontal_face_count st)) (PInt (frames_checked st));
  let eye_contact := mul e (PInt 100) in
  half ← truediv (add posture eye_contact) (PInt 2);
  Ok {| posture_score := posture;
        eye_contact_score := eye_contact;
        confidence_score := Py.min (PInt 100) (add half (PInt 15));
        blinks_ok := true;
        gestures_ok := true;
        frames_analyzed := None |}.

(** ** Specification side: the frames a loop reads *)

(** The frames the sampling loop reads, in order: it walks the positions,
    stops once [target] frames were read or a read fails. *)
Fixpoint frames_read (cap : capture) (target : Z) (positions : list Z) (count : Z)
  : list frame :=
  match positions with
  | [] => []
  | i :: rest =>
      if target <=? count then []
      else match read_at cap i with
           | None => []
           | Some fr => fr :: frames_read cap target rest (count + 1)
           end
  end.

(** Good posture, in the words of the claim: the y-coordinates of the two
    shoulders differ by less than 0.08 in absolute value. *)
Definition good_posture (landmarks : list landmark) : bool :=
  match landmarks !! LEFT_SHOULDER, landmarks !! RIGHT_SHOULDER with
  | Some l, Some r => PrimFloat.ltb (abs_diff (lm_y l) (lm_y r)) f_0_08
  | _, _ => false
  end.

(** The verdicts on the frames with a detected pose, in reading order. *)
Definition posture_verdicts (frames : list frame) : list bool :=
  omap (fun fr => good_posture <$> pose_process fr) frames.

(** The frames [analyze_video_ultrafast] (limit 60) and
    [one_click_analysis] (limit 20) read from a capture. *)
Definition sampled_frames (limit : Z) (cap : capture) : list frame :=
  let total_frames := frame_count_prop cap in
  let target := Z.min limit total_frames in
  frames_read cap target (range total_frames (Z.max 1 (total_frames / target))) 0.

(** ** The sampling loops against their specification *)

Lemma index_Ok {A : Type} (l : list A) (i : nat) (a : A) :
  index l i = Ok a → l !! i = Some a.
Proof.
  unfold index. destruct (l !! i) as [x|]; [|discriminate].
  intros H. injection H as ->. reflexivity.
Qed.

Lemma bind_Ok {A B : Type} (m : result A) (k : A → result B) (b : B) :
  m ≫= k = Ok b → ∃ a, m = Ok a ∧ k a = Ok b.
Proof.
  destruct m as [a|e]; simpl; [|discriminate]. intros H. exists a. auto.
Qed.

Lemma pose_analysis_spec (fr : frame) (st st' : samples) :
  pose_analysis fr st = Ok st' →
  posture_samples st' = posture_samples st ++ posture_verdicts [fr]
  ∧ frame_count st' = frame_count st.
Proof.
  unfold pose_analysis, posture_verdicts. simpl.
  destruct (pose_process fr) as [lms|]; simpl.
  - intros H.
    apply bind_Ok in H as (l & Hl & H).
    apply bind_Ok in H as (r & Hr & H).
    apply bind_Ok in H as (lh & _ & H).
    apply bind_Ok in H as (rh & _ & H).
    injection H as <-. simpl.
    unfold good_posture.
    rewrite (index_Ok _ _ _ Hl), (index_Ok _ _ _ Hr). auto.
  - intros H. injection H as <-. rewrite app_nil_r. auto.
Qed.

Lemma face_analysis_spec (fr : frame) (st st' : samples) :
  face_analysis fr st = Ok st' →
  posture_samples st' = posture_samples st ∧ frame_count st' = frame_count st.
Proof.
  unfold face_analysis.
  destruct (frame_count st mod 3 =? 0); [|intros H; injection H as <-; auto].
  destruct (face_process fr) as [|face faces]; [intros H; injection H as <-; auto|].
  intros H.
  apply bind_Ok in H as (l & _ & H).
  apply bind_Ok in H as (r & _ & H).
  injection H as <-. auto.
Qed.

Lemma ultrafast_frame_spec (fr : frame) (st st' : samples) :
  ultrafast_frame fr st = Ok st' →
  posture_samples st' = posture_samples st ++ posture_verdicts [fr]
  ∧ frame_count st' = frame_count st + 1.
Proof.
  unfold ultrafast_frame. intros H.
  apply bind_Ok in H as (st1 & H1 & H2).
  apply pose_analysis_spec in H1 as [Hp Hc].
  apply face_analysis_spec in H2 as [Hp' Hc'].
  simpl in *. split; congruence.
Qed.

Lemma posture_verdicts_cons (fr : frame) (frames : list frame) :
  posture_verdicts (fr :: frames) = posture_verdicts [fr] ++ posture_verdicts frames.
Proof.
  unfold posture_verdicts. simpl.
  destruct (pose_process fr); reflexivity.
Qed.

Lemma ultrafast_loop_spec (cap : capture) (target : Z) (positions : list Z) :
  ∀ st st',
    ultrafast_loop cap target positions st = Ok st' →
    posture_samples st'
    = posture_samples st
        ++ posture_verdicts (frames_read cap target positions (frame_count st)).
Proof.
  induction positions as [|i rest IH]; intros st st'; cbn [ultrafast_loop frames_read].
  - intros H. injection H as <-. unfold posture_verdicts. simpl.
    by rewrite app_nil_r.
  - destruct (target <=? frame_count st).
    { intros H. injection H as <-. unfold posture_verdicts. simpl.
      by rewrite app_nil_r. }
    destruct (read_at cap i) as [fr|].
    2:{ intros H. injection H as <-. unfold posture_verdicts. simpl.
        by rewrite app_nil_r. }
    intros H. apply bind_Ok in H as (st1 & H1 & H2).
    apply ultrafast_frame_spec in H1 as [Hp Hc].
    apply IH in H2. rewrite H2, Hp, Hc, <- app_assoc.
    by rewrite <- posture_verdicts_cons.
Qed.

Lemma sum_bools_app (l1 l2 : list bool) :
  sum_bools (l1 ++ l2) = sum_bools l1 + sum_bools l2.
Proof.
  induction l1 as [|b l1 IH]; simpl; [reflexivity|]. rewrite IH. lia.
Qed.

Lemma one_click_frame_spec (fr : frame) (st st' : quick_counts) :
  one_click_frame fr st = Ok st' →
  posture_count st' = posture_count st + sum_bools (posture_verdicts [fr])
  ∧ frames_checked st' = frames_checked st + 1.
Proof.
  unfold one_click_frame, posture_verdicts. intros H.
  apply bind_Ok in H as (p & Hp & H). injection H as <-. simpl.
  split; [|reflexivity].
  destruct (pose_process fr) as [lms|]; simpl.
  - apply bind_Ok in Hp as (l & Hl & Hp).
    apply bind_Ok in Hp as (r & Hr & Hp).
    unfold good_posture, LEFT_SHOULDER, RIGHT_SHOULDER.
    rewrite (index_Ok _ _ _ Hl), (index_Ok _ _ _ Hr).
    destruct (PrimFloat.ltb _ _); injection Hp as <-; simpl; lia.
  - injection Hp as <-. simpl. lia.
Qed.

Lemma one_click_loop_spec (cap : capture) (target : Z) (positions : list Z) :
  ∀ st st',
    one_click_loop cap target positions st = Ok st' →
    posture_count st'
    = posture_count st
        + sum_bools (posture_verdicts (frames_read cap target positions (frames_checked st))).
Proof.
  induction positions as [|i rest IH]; intros st st'; cbn [one_click_loop frames_read].
  - intros H. injection H as <-. unfold posture_verdicts. simpl. lia.
  - destruct (target <=? frames_checked st).
    { intros H. injection H as <-. unfold posture_verdicts. simpl. lia. }
    destruct (read_at cap i) as [fr|].
    2:{ intros H. injection H as <-. unfold posture_verdicts. simpl. lia. }
    intros H. apply bind_Ok in H as (st1 & H1 & H2).
    apply one_click_frame_spec in H1 as [Hp Hc].
    apply IH in H2. rewrite H2, Hp, Hc.
    rewrite (posture_verdicts_cons fr (frames_read _ _ _ _)), sum_bools_app. lia.
Qed.

(** C1. In both analysis modes, the frames counted as good posture are
    exactly the sampled frames with detected pose landmarks whose left and
    right shoulder y-coordinates differ, in absolute value, by strictly less
    than 0.08: [analyze_video_ultrafast] records one verdict per such frame,
    in order, and [one_click_analysis] counts the positive verdicts. *)
Theorem posture_counted_iff_shoulder_delta_below_threshold (cap : capture) :
  (∀ st, ultrafast_samples cap = Ok st →
         posture_samples st = posture_verdicts (sampled_frames 60 cap))
  ∧ (∀ st, one_click_counts cap = Ok st →
           posture_count st = sum_bools (posture_verdicts (sampled_frames 20 cap)))
  ∧ (∀ landmarks,
       good_posture landmarks = true ↔
       ∃ l r, landmarks !! 11%nat = Some l ∧ landmarks !! 12%nat = Some r
              ∧ PrimFloat.ltb (PrimFloat.abs (PrimFloat.sub (lm_y l) (lm_y r)))
                              0x1.47ae147ae147bp-4 = true).
Proof.
  split; [|split].
  - intros st H. unfold ultrafast_samples in H.
    apply bind_Ok in H as (q & Hq & H).
    unfold floordiv in Hq.
    destruct (Z.min 60 (frame_count_prop cap) =? 0); [discriminate|].
    injection Hq as <-.
    apply ultrafast_loop_spec in H. exact H.
  - intros st H. unfold one_click_counts in H.
    apply bind_Ok in H as (q & Hq & H).
    unfold floordiv in Hq.
    destruct (Z.min 20 (frame_count_prop cap) =? 0); [discriminate|].
    injection Hq as <-.
    apply one_click_loop_spec in H. simpl in H. exact H.
  - intros lms. unfold good_posture, LEFT_SHOULDER, RIGHT_SHOULDER, abs_diff, f_0_08.
    split.
    + destruct (lms !! 11%nat) as [l|]; [|discriminate].
      destruct (lms !! 12%nat) as [r|]; [|discriminate].
      intros H. exists l, r. auto.
    + intros (l & r & -> & -> & H). exact H.
Qed.

(** ** The smoothed score *)

Lemma float_ltb_leb (x y : float) :
  PrimFloat.ltb x y = true → PrimFloat.leb x y = true.
Proof.
  rewrite FloatAxioms.ltb_spec, FloatAxioms.leb_spec.
  unfold SFltb, SFleb.
  destruct (SFcompare (Prim2SF x) (Prim2SF y)) as [[]|]; congruence.
Qed.

Lemma length_nonzero {A : Type} (l : list A) :
  l ≠ [] → is_zero (PInt (Z.of_nat (length l))) = false.
Proof.
  destruct l as [|a l]; [congruence|]. intros _. reflexivity.
Qed.

Lemma calculate_smoothed_score_nonempty (samples : list bool) (baseline variation : Z) :
  samples ≠ [] →
  calculate_smoothed_score samples baseline variation
  = Ok (Py.min (PInt 95) (Py.max (PInt 30) (raw_score samples))).
Proof.
  intros Hne. unfold calculate_smoothed_score, truediv.
  rewrite (length_nonzero samples Hne).
  destruct samples as [|b rest]; [congruence|]. reflexivity.
Qed.

Lemma min_max_clamped (x : float) :
  clamped 30 95 (PFloat x) (Py.min (PInt 95) (Py.max (PInt 30) (PFloat x)))
  ∧ between 30 95 (Py.min (PInt 95) (Py.max (PInt 30) (PFloat x))).
Proof.
  unfold clamped, Py.min, Py.max, gt.
  destruct (lt (PInt 30) (PFloat x)) eqn:Hlo.
  - destruct (lt (PFloat x) (PInt 95)) eqn:Hhi.
    + split; [left; auto|]. simpl in *.
      split; apply float_ltb_leb; assumption.
    + split; [right; right; auto|]. simpl. lia.
  - change (lt (PInt 30) (PInt 95)) with true. cbn iota.
    split; [right; left; auto|]. simpl. lia.
Qed.

Lemma calculate_smoothed_score_between (samples : list bool) (baseline variation : Z) (v : pynum) :
  30 ≤ baseline ≤ 95 →
  calculate_smoothed_score samples baseline variation = Ok v →
  between 30 95 v.
Proof.
  intros Hb. destruct samples as [|b rest] eqn:E.
  - simpl. intros H. injection H as <-. exact Hb.
  - rewrite calculate_smoothed_score_nonempty by congruence.
    intros H. injection H as <-. apply min_max_clamped.
Qed.

(** C9. [calculate_smoothed_score] returns the baseline on an empty list and
    otherwise the sample mean times 100 clamped to [30, 95], whatever the
    [variation] argument is; hence the posture, eye-contact and confidence
    scores reported by [analyze_video_ultrafast] lie in [30, 95]. *)
Theorem smoothed_score_is_baseline_or_clamped_mean :
  (∀ (samples : list bool) (baseline variation : Z),
     ∃ v, calculate_smoothed_score samples baseline variation = Ok v
          ∧ (samples = [] → v = PInt baseline)
          ∧ (samples ≠ [] → clamped 30 95 (raw_score samples) v ∧ between 30 95 v)
          ∧ (∀ variation', calculate_smoothed_score samples baseline variation' = Ok v))
  ∧ (∀ (cap : capture) (r : video_results),
       analyze_video_ultrafast cap = Ok (Some r) →
       between 30 95 (posture_score r)
       ∧ between 30 95 (eye_contact_score r)
       ∧ between 30 95 (confidence_score r)).
Proof.
  split.
  - intros samples baseline variation.
    destruct samples as [|b rest] eqn:E.
    + exists (PInt baseline). simpl. repeat split; congruence.
    + rewrite <- E.
      assert (Hne : samples ≠ []) by (rewrite E; congruence).
      exists (Py.min (PInt 95) (Py.max (PInt 30) (raw_score samples))).
      split; [apply calculate_smoothed_score_nonempty; exact Hne|].
      split; [intros ->; congruence|].
      split; [intros _; apply min_max_clamped|].
      intros variation'. apply calculate_smoothed_score_nonempty. exact Hne.
  - intros cap r. unfold analyze_video_ultrafast.
    destruct (negb (isOpened cap)); [discriminate|].
    intros H.
    apply bind_Ok in H as (st & _ & H).
    apply bind_Ok in H as (p & Hp & H).
    apply bind_Ok in H as (e & He & H).
    apply bind_Ok in H as (c & Hc & H).
    injection H as <-. simpl.
    repeat split;
      eapply calculate_smoothed_score_between; try eassumption; lia.
Qed.

End Video.

(** ** A three-frame clip *)

(** Frames are numbered; the first shows level shoulders, the second tilted
    ones, and no pose is found on the third.  A face is seen on the third. *)
Definition still : landmark := {| lm_x := 0.5; lm_y := 0.5 |}.

Definition demo_pose (fr : nat) : option (list landmark) :=
  match fr with
  | 0%nat => Some (<[12%nat := {| lm_x := 0.25; lm_y := 0.4375 |}]> (replicate 33 still))
  | 1%nat => Some (<[12%nat := {| lm_x := 0.25; lm_y := 0.25 |}]> (replicate 33 still))
  | _ => None
  end.

Definition demo_face (fr : nat) : list (list landmark) :=
  match fr with
  | 2%nat => [<[263%nat := {| lm_x := 0.75; lm_y := 0.5 |}]> (replicate 468 still)]
  | _ => []
  end.

Definition demo_cap : capture :=
  {| isOpened := true;
     frame_count_prop := 3;
     read_at := fun i => if (0 <=? i) && (i <? 3) then Some (Z.to_nat i) else None |}.

Definition demo_samples : samples :=
  {| posture_samples := [true; false];
     eye_contact_samples := [true];
     confidence_samples := [true; true];
     frame_count := 3 |}.

Example demo_ultrafast_samples :
  ultrafast_samples demo_pose demo_face demo_cap = Ok demo_samples.
Proof. vm_compute. reflexivity. Qed.

Example demo_one_click_counts :
  one_click_counts demo_pose demo_face demo_cap
  = Ok {| posture_count := 1; frontal_face_count := 1; frames_checked := 3 |}.
Proof. vm_compute. reflexivity. Qed.

Example demo_analyze_video_ultrafast :
  analyze_video_ultrafast demo_pose demo_face demo_cap
  = Ok (Some {| posture_score := PFloat 50; eye_contact_score := PInt 95;
                confidence_score := PInt 95; blinks_ok := true; gestures_ok := true;
                frames_analyzed := Some 3 |}).
Proof. vm_compute. reflexivity. Qed.

(** A container that reports no frame makes both modes divide by zero. *)
Example empty_clip_raises :
  analyze_video_ultrafast demo_pose demo_face
    {| isOpened := true; frame_count_prop := 0; read_at := fun _ => None |}
  = Raise ZeroDivisionError.
Proof. reflexivity. Qed.

(** The comparison is the one of binary64 floats: 0.5 - 0.42 rounds to a
    value above the double nearest to 0.08. *)
Example shoulder_delta_rounding :
  PrimFloat.ltb (abs_diff 0.5 0x1.ae147ae147ae1p-2) f_0_08 = false.
Proof. reflexivity. Qed.

Lemma posture_counted_witness :
  posture_samples demo_samples = [true; false]
  ∧ posture_samples demo_samples
    = posture_verdicts demo_pose (sampled_frames 60 demo_cap).
Proof.
  split; [reflexivity|].
  apply (proj1 (posture_counted_iff_shoulder_delta_below_threshold
                  demo_pose demo_face demo_cap)).
  vm_compute. reflexivity.
Defined.

Lemma smoothed_score_witness :
  between 30 95 (PFloat 50) ∧ between 30 95 (PInt 95).
Proof.
  assert (Hrun : analyze_video_ultrafast demo_pose demo_face demo_cap
                 = Ok (Some {| posture_score := PFloat 50; eye_contact_score := PInt 95;
                               confidence_score := PInt 95; blinks_ok := true;
                               gestures_ok := true; frames_analyzed := Some 3 |}))
    by (vm_compute; reflexivity).
  destruct (proj2 (smoothed_score_is_baseline_or_clamped_mean demo_pose demo_face)
              demo_cap _ Hrun) as (Hp & He & _).
  split; [exact Hp | exact He].
Defined.

(* ===================================================================== *)
(** * analysis.py: audio heuristics *)
(* ===================================================================== *)

Inductive monotony_level : Type := High | Medium | Low.

(** The dictionary [analyze_audio_ultrafast] returns. *)
Record audio_results : Type := {
  wpm : pynum;
  filler_count : Z;
  monotony : monotony_level;
  duration : float
}.

Definition filler_words : list str :=
  [lit " um "; lit " uh "; lit " like "; lit " you know "; lit " actually ";
   lit " basically "].

(** [sum(text.lower().count(filler) for filler in filler_words)] on the
    lowercased text. *)
Definition count_fillers (lowered : str) : Z :=
  foldr Z.add 0 (Py.count lowered <$> filler_words).

(** The number of positions, over the six patterns, at which a pattern
    occurs in the lowercased text. *)
Definition total_occurrences (lowered : str) : Z :=
  foldr Z.add 0 (occurrences lowered <$> filler_words).

(** Non-overlapping occurrences, left to right: the first occurrence counts,
    and the search goes on after its last character. *)
Fixpoint nonoverlapping_upto (fuel : nat) (s sub : str) : Z :=
  match fuel with
  | O => 0
  | S fuel =>
      match find s sub with
      | None => 0
      | Some i => 1 + nonoverlapping_upto fuel (drop (i + length sub) s) sub
      end
  end.
Definition nonoverlapping (s sub : str) : Z := nonoverlapping_upto (length s) s sub.

Definition total_nonoverlapping (lowered : str) : Z :=
  foldr Z.add 0 (nonoverlapping lowered <$> filler_words).

(** The number of whitespace-separated words of a text: the positions at
    which a non-space character follows the start of the text or a space. *)
Fixpoint count_words (after_space : bool) (s : str) : nat :=
  match s with
  | [] => 0
  | c :: rest =>
      if is_space c then count_words true rest
      else ((if after_space then 1 else 0) + count_words false rest)%nat
  end.
Definition word_count (text : str) : nat := count_words true text.

Lemma split_from_length (s : str) :
  ∀ word,
    length (split_from word s)
    = match word with
      | [] => count_words true s
      | _ => S (count_words false s)
      end.
Proof.
  induction s as [|c rest IH]; intros word.
  - destruct word; reflexivity.
  - cbn [split_from count_words]. destruct (is_space c).
    + destruct word as [|w word]; [apply IH|].
      cbn [length]. rewrite IH. reflexivity.
    + rewrite IH. destruct word as [|w word]; reflexivity.
Qed.

Lemma split_length (text : str) : length (split text) = word_count text.
Proof. apply (split_from_length text []). Qed.

Section Audio.

(** Audio samples, and what librosa, Whisper and NumPy contribute. *)
Context {sample : Type}.

(** [librosa.load(audio_path, sr=8000, duration=60)]: the signal, resampled
    to 8000 Hz and cut at 60 s by the library. *)
Variable librosa_load : string → result (list sample).
(** [whisper_pipe(y)["text"]], including the construction of the pipeline. *)
Variable whisper_pipe : list sample → result str.
(** [librosa.pyin(y, fmin=50, fmax=400, sr=sr, frame_length=512)[0]] *)
Variable librosa_pyin : list sample → result (list float).
(** [np.std] *)
Variable np_std : list float → float.
(** [str.lower]: the Unicode case mapping of the interpreter. *)
Variable lower : str → str.

Definition sr : Z := 8000.

(** [librosa.get_duration(y=y, sr=sr)] is [float(len(y)) / sr]. *)
Definition get_duration (y : list sample) : float :=
  PrimFloat.div (float_of_Z (Z.of_nat (length y))) (float_of_Z sr).

(** [monotony] from the pitch track. *)
Definition monotony_of (f0 : list float) : monotony_level :=
  let pitches := List.filter (fun p => negb (PrimFloat.is_nan p)) f0 in
  let pitch_variation :=
    if (10 <? length pitches)%nat then PFloat (np_std pitches) else PInt 0 in
  if lt pitch_variation (PInt 30) then High
  else if lt pitch_variation (PInt 60) then Medium
  else Low.

(** The body of the [try] block of [analyze_audio_ultrafast]. *)
Definition analyze_audio_body (audio_path : string) : result (option audio_results) :=
  y ← librosa_load audio_path;
  let duration := get_duration y in
  if PrimFloat.ltb duration (float_of_Z 3) then Ok None
  else
    let max_duration := Py.min (PInt 30) (PFloat duration) in
    let y := if PrimFloat.ltb (float_of_Z 30) duration
             then take (Z.to_nat (30 * sr)) y else y in
    raw_text ← whisper_pipe y;
    let text := strip raw_text in
    match text with
    | [] => Ok None
    | _ =>
        let word_count := Z.of_nat (length (split text)) in
        q ← truediv (PInt word_count) max_duration;
        let wpm := mul q (PInt 60) in
        let filler_count := count_fillers (lower text) in
        f0 ← librosa_pyin y;
        Ok (Some {| wpm := wpm;
                    filler_count := filler_count;
                    monotony := monotony_of f0;
                    duration := duration |})
    end.

(** [analyze_audio_ultrafast]: any exception is reported and turned into
    [None]. *)
Definition analyze_audio_ultrafast (audio_path : string) : option audio_results :=
  match analyze_audio_body audio_path with
  | Ok r => r
  | Raise _ => None
  end.

(** ** Specification side *)

(** The part of the loaded signal that is transcribed: the first 30 s
    (240000 samples at 8000 Hz) when the signal is longer than 30 s. *)
Definition transcribed (y : list sample) : list sample :=
  if PrimFloat.ltb 30 (get_duration y) then take (Z.to_nat 240000) y else y.

(** Words per minute, in the words of the claim: the number of
    whitespace-separated words of the transcript, divided by
    [min(30, duration)], times 60. *)
Definition words_per_minute (text : str) (duration : float) : pynum :=
  PFloat (PrimFloat.mul
            (PrimFloat.div (float_of_Z (Z.of_nat (word_count text)))
                           (to_float (Py.min (PInt 30) (PFloat duration))))
            60).

(** ** Words per minute *)

Lemma float_zero_below_3 (d : float) :
  PrimFloat.eqb d PrimFloat.zero = true → PrimFloat.ltb d (float_of_Z 3) = true.
Proof.
  rewrite FloatAxioms.eqb_spec, FloatAxioms.ltb_spec.
  assert (H0 : Prim2SF PrimFloat.zero = S754_zero false) by (vm_compute; reflexivity).
  assert (H3 : Prim2SF (float_of_Z 3) = S754_finite false 6755399441055744 (-51))
    by (vm_compute; reflexivity).
  rewrite H0, H3.
  unfold SFeqb, SFltb.
  destruct (Prim2SF d) as [sg|sg| |sg m e]; cbn [SFcompare]; try congruence;
    destruct sg; congruence.
Qed.

Lemma max_duration_nonzero (d : float) :
  PrimFloat.ltb d (float_of_Z 3) = false →
  is_zero (Py.min (PInt 30) (PFloat d)) = false.
Proof.
  intros Hd. unfold Py.min.
  destruct (lt (PFloat d) (PInt 30)); [|reflexivity].
  simpl. destruct (PrimFloat.eqb d PrimFloat.zero) eqn:E; [|reflexivity].
  apply float_zero_below_3 in E. congruence.
Qed.

Lemma analyze_audio_body_transcribed (audio_path : string) (y : list sample) (text : str) :
  librosa_load audio_path = Ok y →
  PrimFloat.ltb (get_duration y) (float_of_Z 3) = false →
  whisper_pipe (transcribed y) = Ok text →
  strip text ≠ [] →
  analyze_audio_body audio_path
  = (f0 ← librosa_pyin (transcribed y);
     Ok (Some {| wpm := words_per_minute (strip text) (get_duration y);
                 filler_count := count_fillers (lower (strip text));
                 monotony := monotony_of f0;
                 duration := get_duration y |})).
Proof.
  intros Hload Hdur Htext Hne.
  unfold analyze_audio_body. rewrite Hload. cbn [mbind result_bind].
  rewrite Hdur.
  change (if PrimFloat.ltb (float_of_Z 30) (get_duration y)
          then take (Z.to_nat (30 * sr)) y else y) with (transcribed y).
  rewrite Htext. cbn [mbind result_bind].
  destruct (strip text) as [|c rest] eqn:E; [congruence|].
  unfold truediv. rewrite (max_duration_nonzero _ Hdur).
  unfold words_per_minute. rewrite <- split_length. reflexivity.
Qed.

(** C2. When the loaded audio lasts at least 3 s and its transcript is not
    empty, the reported words-per-minute value is the number of
    whitespace-separated words of the transcript divided by
    [min(30, duration)] and multiplied by 60, and a report is produced as soon
    as the pitch analysis does not fail; the transcript is the one of the
    first 30 s of the signal, so later samples contribute no word. *)
Theorem wpm_is_words_over_capped_duration
    (audio_path : string) (y : list sample) (text : str) :
  librosa_load audio_path = Ok y →
  PrimFloat.ltb (get_duration y) 3 = false →
  whisper_pipe (transcribed y) = Ok text →
  strip text ≠ [] →
  (∀ r, analyze_audio_ultrafast audio_path = Some r →
        wpm r = words_per_minute (strip text) (get_duration y))
  ∧ (∀ f0, librosa_pyin (transcribed y) = Ok f0 →
           ∃ r, analyze_audio_ultrafast audio_path = Some r)
  ∧ (∀ extra, PrimFloat.ltb 30 (get_duration (y ++ extra)) = true →
              (Z.to_nat 240000 ≤ length y)%nat →
              transcribed (y ++ extra) = take (Z.to_nat 240000) y).
Proof.
  intros Hload Hdur Htext Hne.
  pose proof (analyze_audio_body_transcribed _ _ _ Hload Hdur Htext Hne) as Hbody.
  unfold analyze_audio_ultrafast. rewrite Hbody.
  split; [|split].
  - intros r. destruct (librosa_pyin (transcribed y)) as [f0|e]; simpl.
    + intros H. injection H as <-. reflexivity.
    + discriminate.
  - intros f0 ->. simpl. eexists. reflexivity.
  - intros extra Hlong Hlen. unfold transcribed. rewrite Hlong.
    apply take_app_le. exact Hlen.
Qed.

(** ** Filler words *)

Lemma count_from_skip (sub : str) (k : nat) (s : str) :
  count_from sub k s = count_from sub 0 (drop k s).
Proof.
  revert k. induction s as [|c rest IH]; intros k.
  - by rewrite drop_nil.
  - destruct k as [|k]; [reflexivity|]. simpl. apply IH.
Qed.

Lemma count_from_find (sub s : str) :
  sub ≠ [] →
  count_from sub 0 s
  = match find s sub with
    | None => 0
    | Some i => 1 + count_from sub 0 (drop (i + length sub) s)
    end.
Proof.
  intros Hsub. induction s as [|c rest IH]; [reflexivity|].
  cbn [count_from find].
  destruct (startswith (c :: rest) sub).
  - rewrite count_from_skip.
    destruct sub as [|a sub']; [congruence|]. simpl.
    by rewrite Nat.sub_0_r.
  - rewrite IH. destruct (find rest sub) as [i|]; reflexivity.
Qed.

Lemma find_Some_nonempty (s sub : str) (i : nat) :
  find s sub = Some i → s ≠ [].
Proof. destruct s; [discriminate|congruence]. Qed.

Lemma count_from_nonoverlapping (sub : str) (fuel : nat) :
  sub ≠ [] →
  ∀ s, (length s ≤ fuel)%nat → count_from sub 0 s = nonoverlapping_upto fuel s sub.
Proof.
  intros Hsub. induction fuel as [|fuel IH]; intros s Hlen.
  - destruct s; [reflexivity|simpl in Hlen; lia].
  - rewrite count_from_find by exact Hsub. simpl.
    destruct (find s sub) as [i|] eqn:Hfind; [|reflexivity].
    f_equal. apply IH.
    apply find_Some_nonempty in Hfind.
    destruct s as [|c rest]; [congruence|].
    destruct sub as [|a sub']; [congruence|].
    rewrite length_drop. simpl in *. lia.
Qed.

Lemma count_nonoverlapping (s sub : str) :
  sub ≠ [] → Py.count s sub = nonoverlapping s sub.
Proof.
  intros Hsub. unfold Py.count, nonoverlapping.
  destruct sub as [|a sub'] eqn:E; [congruence|]. rewrite <- E in *.
  apply count_from_nonoverlapping; [exact Hsub|lia].
Qed.

Lemma count_from_le_occurrences (sub s : str) :
  ∀ k, 0 ≤ count_from sub k s ≤ occurrences s sub.
Proof.
  induction s as [|c rest IH]; intros k; [simpl; lia|].
  cbn [count_from occurrences].
  destruct k as [|k].
  - destruct (startswith (c :: rest) sub).
    + specialize (IH (length sub - 1)%nat). lia.
    + specialize (IH 0%nat). lia.
  - specialize (IH k). destruct (startswith (c :: rest) sub); lia.
Qed.

Lemma filler_words_nonempty : Forall (fun f : str => f ≠ []) filler_words.
Proof. repeat constructor; discriminate. Qed.

Lemma sum_count_nonoverlapping (lowered : str) (patterns : list str) :
  Forall (fun f : str => f ≠ []) patterns →
  foldr Z.add 0 (Py.count lowered <$> patterns)
  = foldr Z.add 0 (nonoverlapping lowered <$> patterns).
Proof.
  induction 1 as [|f fs Hf _ IH]; [reflexivity|].
  rewrite !fmap_cons. cbn [foldr].
  rewrite IH, count_nonoverlapping by exact Hf. reflexivity.
Qed.

Lemma sum_count_le_occurrences (lowered : str) (patterns : list str) :
  Forall (fun f : str => f ≠ []) patterns →
  0 ≤ foldr Z.add 0 (Py.count lowered <$> patterns)
    ≤ foldr Z.add 0 (occurrences lowered <$> patterns).
Proof.
  induction 1 as [|f fs Hf _ IH]; [simpl; lia|].
  rewrite !fmap_cons. cbn [foldr].
  assert (Hle : 0 ≤ Py.count lowered f ≤ occurrences lowered f).
  { unfold Py.count. destruct f as [|a f]; [congruence|].
    apply count_from_le_occurrences. }
  lia.
Qed.

Lemma count_fillers_nonoverlapping (lowered : str) :
  count_fillers lowered = total_nonoverlapping lowered.
Proof. apply sum_count_nonoverlapping, filler_words_nonempty. Qed.

Lemma count_fillers_le_occurrences (lowered : str) :
  0 ≤ count_fillers lowered ≤ total_occurrences lowered.
Proof. apply sum_count_le_occurrences, filler_words_nonempty. Qed.

(** Every pattern starts and ends with a space. *)
Definition space_delimited (f : str) : Prop :=
  head f = Some 32%N ∧ last f = Some 32%N.

Lemma filler_words_space_delimited : Forall space_delimited filler_words.
Proof. repeat constructor. Qed.

Lemma startswith_prefix (sub : str) :
  ∀ s, startswith s sub = true → ∃ rest, s = sub ++ rest.
Proof.
  induction sub as [|a sub IH]; intros s; [by exists s|].
  destruct s as [|b s]; [discriminate|]. cbn [startswith].
  rewrite andb_true_iff. intros [Hab Hsub].
  apply N.eqb_eq in Hab as ->. destruct (IH s Hsub) as [rest ->]. by exists rest.
Qed.

Lemma last_elem_of (f : str) : last f = Some 32%N → 32%N ∈ f.
Proof.
  induction f as [|a f IH]; [discriminate|].
  destruct f as [|b f]; [intros H; injection H as ->; left|].
  intros H. right. apply IH. exact H.
Qed.

(** A word without a space holds no occurrence of a delimited pattern. *)
Lemma startswith_word (f word : str) :
  last f = Some 32%N → 32%N ∉ word → startswith word f = false.
Proof.
  intros Hlast Hword. destruct (startswith word f) eqn:Hstarts; [|reflexivity].
  exfalso. apply startswith_prefix in Hstarts as [rest ->].
  apply Hword, elem_of_app. left. by apply last_elem_of.
Qed.

Lemma count_from_word (f word : str) :
  last f = Some 32%N → 32%N ∉ word → ∀ k, count_from f k word = 0.
Proof.
  intros Hlast. induction word as [|c word IH]; intros Hword k; [reflexivity|].
  pose proof (startswith_word _ _ Hlast Hword) as Hstarts.
  apply not_elem_of_cons in Hword as [_ Hword].
  cbn [count_from]. destruct k as [|k]; [|by apply IH].
  rewrite Hstarts. by apply IH.
Qed.

(** The characters before the first space take part in no occurrence. *)
Lemma count_from_first_word (f word s : str) :
  head f = Some 32%N → 32%N ∉ word →
  count_from f 0 (word ++ s) = count_from f 0 s.
Proof.
  intros Hhead. induction word as [|c word IH]; intros Hword; [reflexivity|].
  apply not_elem_of_cons in Hword as [Hc Hword].
  cbn [app count_from]. destruct f as [|a f]; [discriminate|].
  injection Hhead as ->. cbn [startswith].
  destruct (N.eqb_spec 32 c) as [Heq|_]; [congruence|]. cbn [andb]. by apply IH.
Qed.

(** Nor do the characters after the last space. *)
Lemma startswith_before_word (f word : str) :
  last f = Some 32%N → 32%N ∉ word →
  ∀ s, startswith (s ++ word) f = startswith s f.
Proof.
  intros Hlast Hword. induction f as [|a f IH]; intros s; [discriminate|].
  destruct s as [|b s].
  - rewrite app_nil_l. by apply startswith_word.
  - cbn [app startswith]. destruct f as [|a' f].
    + assert (Hnil : ∀ t : str, startswith t [] = true) by (intros []; reflexivity).
      by rewrite !Hnil.
    + rewrite IH; [reflexivity|exact Hlast].
Qed.

Lemma count_from_last_word (f word : str) :
  last f = Some 32%N → 32%N ∉ word →
  ∀ s k, count_from f k (s ++ word) = count_from f k s.
Proof.
  intros Hlast Hword. induction s as [|c s IH]; intros k.
  - rewrite app_nil_l. by apply count_from_word.
  - change ((c :: s) ++ word) with (c :: (s ++ word)). cbn [count_from].
    destruct k as [|k]; [|apply IH].
    change (c :: (s ++ word)) with ((c :: s) ++ word).
    rewrite (startswith_before_word _ _ Hlast Hword), !IH. reflexivity.
Qed.

Lemma count_fillers_first_word (word s : str) :
  32%N ∉ word → count_fillers (word ++ s) = count_fillers s.
Proof.
  intros Hword. unfold count_fillers.
  pose proof filler_words_space_delimited as Hall.
  induction Hall as [|f fs [Hhead Hlast] _ IH]; [reflexivity|].
  rewrite !fmap_cons. cbn [foldr]. rewrite IH. f_equal.
  unfold Py.count. destruct f as [|a f]; [discriminate|].
  by apply count_from_first_word.
Qed.

Lemma count_fillers_last_word (s word : str) :
  32%N ∉ word → count_fillers (s ++ word) = count_fillers s.
Proof.
  intros Hword. unfold count_fillers.
  pose proof filler_words_space_delimited as Hall.
  induction Hall as [|f fs [Hhead Hlast] _ IH]; [reflexivity|].
  rewrite !fmap_cons. cbn [foldr]. rewrite IH. f_equal.
  unfold Py.count. destruct f as [|a f]; [discriminate|].
  by apply count_from_last_word.
Qed.

(** Two fillers in a row, written with the one space they share: the same
    filler twice counts once, two different fillers count twice. *)
Lemma fillers_in_a_row (f g : str) :
  f ∈ filler_words → g ∈ filler_words →
  count_fillers (f ++ drop 1 g) = if bool_decide (f = g) then 1 else 2.
Proof.
  assert (Hall : Forall (fun f : str =>
                   Forall (fun g : str =>
                     count_fillers (f ++ drop 1 g)
                     = if bool_decide (f = g) then 1 else 2) filler_words)
                   filler_words)
    by (repeat constructor; vm_compute; reflexivity).
  intros Hf Hg. rewrite Forall_forall in Hall. specialize (Hall f Hf).
  rewrite Forall_forall in Hall. exact (Hall g Hg).
Qed.

(** What a report tells about the run that produced it. *)
Lemma analyze_audio_Some (audio_path : string) (r : audio_results) :
  analyze_audio_ultrafast audio_path = Some r →
  ∃ y raw_text f0,
    librosa_load audio_path = Ok y
    ∧ whisper_pipe (transcribed y) = Ok raw_text
    ∧ strip raw_text ≠ []
    ∧ librosa_pyin (transcribed y) = Ok f0
    ∧ filler_count r = count_fillers (lower (strip raw_text)).
Proof.
  unfold analyze_audio_ultrafast, analyze_audio_body.
  destruct (librosa_load audio_path) as [y|e] eqn:Hload; [|discriminate].
  cbn [mbind result_bind].
  destruct (PrimFloat.ltb (get_duration y) (float_of_Z 3)); [discriminate|].
  change (if PrimFloat.ltb (float_of_Z 30) (get_duration y)
          then take (Z.to_nat (30 * sr)) y else y) with (transcribed y).
  destruct (whisper_pipe (transcribed y)) as [raw|e] eqn:Hraw; [|discriminate].
  cbn [mbind result_bind].
  destruct (strip raw) as [|c rest] eqn:E; [discriminate|].
  destruct (truediv _ _) as [q|e]; [|discriminate].
  cbn [mbind result_bind].
  destruct (librosa_pyin (transcribed y)) as [f0|e] eqn:Hf0; [|discriminate].
  cbn [mbind result_bind]. intros H. injection H as <-.
  exists y, raw, f0. rewrite E. simpl. repeat split; congruence.
Qed.

(** C3 (amended). The reported filler count is the sum, over the six
    space-delimited patterns, of the non-overlapping occurrences of the
    pattern in the lowercased transcript, scanning left to right and resuming
    after each match; it never exceeds the number of all occurrences.  The
    characters before the first space of the transcript and those after the
    last one take part in no match, so a filler that starts or ends the
    transcript is not counted, nor is one next to punctuation.  A filler
    said twice in a row gives two occurrences of one pattern that share a
    space, of which one is counted; two different fillers in a row are
    occurrences of two patterns, and both are counted, whichever of the six
    fillers they are. *)
Theorem filler_count_is_nonoverlapping_occurrences
    (audio_path : string) (r : audio_results) :
  analyze_audio_ultrafast audio_path = Some r →
  ∃ y raw_text,
    librosa_load audio_path = Ok y
    ∧ whisper_pipe (transcribed y) = Ok raw_text
    ∧ filler_count r = total_nonoverlapping (lower (strip raw_text))
    ∧ 0 ≤ filler_count r ≤ total_occurrences (lower (strip raw_text))
    ∧ (∀ word rest,
         32%N ∉ word → lower (strip raw_text) = word ++ rest →
         filler_count r = total_nonoverlapping rest)
    ∧ (∀ rest word,
         32%N ∉ word → lower (strip raw_text) = rest ++ word →
         filler_count r = total_nonoverlapping rest)
    ∧ (∀ f g, f ∈ filler_words → g ∈ filler_words →
              count_fillers (f ++ drop 1 g) = if bool_decide (f = g) then 1 else 2)
    ∧ count_fillers (ascii_lower (lit "um so I mean it like")) = 0
    ∧ count_fillers (ascii_lower (lit "Well, um, it is basically. Done")) = 0
    ∧ count_fillers (ascii_lower (lit "I um think Like you do")) = 2
    ∧ count_fillers (ascii_lower (lit "so um um yes")) = 1
    ∧ count_fillers (ascii_lower (lit "so um uh yes")) = 2.
Proof.
  intros H.
  apply analyze_audio_Some in H as (y & raw & f0 & Hload & Htext & _ & _ & Hcount).
  exists y, raw.
  split; [exact Hload|]. split; [exact Htext|].
  split; [rewrite Hcount; apply count_fillers_nonoverlapping|].
  split; [rewrite Hcount; apply count_fillers_le_occurrences|].
  split.
  { intros word rest Hword Htext'.
    rewrite Hcount, Htext', <- count_fillers_nonoverlapping.
    by apply count_fillers_first_word. }
  split.
  { intros rest word Hword Htext'.
    rewrite Hcount, Htext', <- count_fillers_nonoverlapping.
    by apply count_fillers_last_word. }
  split; [exact fillers_in_a_row|].
  repeat split; vm_compute; reflexivity.
Qed.

End Audio.

(** ** A three-second recording *)

Definition demo_load (path : string) : result (list unit) :=
  Ok (replicate (Z.to_nat 24000) ()).
Definition demo_whisper (said : string) (y : list unit) : result str := Ok (lit said).
Definition demo_pyin (y : list unit) : result (list float) := Ok [].
Definition demo_std (pitches : list float) : float := 0.

Example demo_analyze_audio :
  analyze_audio_ultrafast demo_load (demo_whisper " Hello big world. ") demo_pyin demo_std
    ascii_lower "answer.wav"
  = Some {| wpm := PFloat 60; filler_count := 0; monotony := High; duration := 3 |}.
Proof. vm_compute. reflexivity. Qed.

Lemma wpm_witness :
  wpm {| wpm := PFloat 60; filler_count := 0; monotony := High; duration := 3 |}
  = words_per_minute (strip (lit " Hello big world. "))
      (get_duration (replicate (Z.to_nat 24000) ())).
Proof.
  refine (proj1 (wpm_is_words_over_capped_duration demo_load
                   (demo_whisper " Hello big world. ") demo_pyin demo_std ascii_lower
                   "answer.wav" (replicate (Z.to_nat 24000) ()) (lit " Hello big world. ")
                   _ _ _ _) _ _).
  - reflexivity.
  - vm_compute. reflexivity.
  - reflexivity.
  - vm_compute. discriminate.
  - vm_compute. reflexivity.
Defined.

(** A transcript with four fillers, two of them different and in a row. *)
Lemma filler_count_witness :
  ∃ r y raw_text,
    analyze_audio_ultrafast demo_load (demo_whisper "Well um I like it um uh yes")
      demo_pyin demo_std ascii_lower "answer.wav" = Some r
    ∧ demo_load "answer.wav" = Ok y
    ∧ demo_whisper "Well um I like it um uh yes" y = Ok raw_text
    ∧ filler_count r = 4
    ∧ filler_count r = total_nonoverlapping (ascii_lower (strip raw_text)).
Proof.
  exists {| wpm := PFloat 160; filler_count := 4; monotony := High; duration := 3 |}.
  destruct (filler_count_is_nonoverlapping_occurrences demo_load
              (demo_whisper "Well um I like it um uh yes") demo_pyin demo_std
              ascii_lower "answer.wav"
              {| wpm := PFloat 160; filler_count := 4; monotony := High; duration := 3 |})
    as (y & raw & Hload & Htext & Hcount & _).
  - vm_compute. reflexivity.
  - exists y, raw. split; [vm_compute; reflexivity|]. auto.
Defined.

(** Two fillers in a row: [" um "] occurs at two positions of
    ["so um um yes"], which overlap on the middle space, and the report
    counts one. *)
Lemma filler_count_misses_overlapping_occurrence :
  ∃ r, analyze_audio_ultrafast demo_load (demo_whisper "so um um yes") demo_pyin demo_std
         ascii_lower "answer.wav" = Some r
       ∧ filler_count r = 1
       ∧ total_occurrences (ascii_lower (strip (lit "so um um yes"))) = 2
       ∧ filler_count r ≠ total_occurrences (ascii_lower (strip (lit "so um um yes"))).
Proof.
  eexists. split; [vm_compute; reflexivity|].
  split; [reflexivity|]. split; [vm_compute; reflexivity|].
  vm_compute. discriminate.
Qed.

End Analysis.

(* ===================================================================== *)
(** * resume.py: PDF text extraction *)
(* ===================================================================== *)

Module Resume.
Import Py.

(** ['\n\n'] *)
Definition blank_line : str := [10; 10]%N.

Section Pdf.

(** What pdfplumber contributes: opening a file, listing its pages and
    extracting the text of a page ([None] or [''] when it has none).  Each
    call may raise. *)
Context {pdf page : Type}.
Variable pdfplumber_open : string → result pdf.
Variable pdf_pages : pdf → result (list page).
Variable extract_text : page → result (option str).

(** The [for page in pdf.pages] loop, [text] being its accumulator. *)
Fixpoint extract_pages (pages : list page) (text : str) : result str :=
  match pages with
  | [] => Ok text
  | page :: rest =>
      page_text ← extract_text page;
      match page_text with
      | Some (c :: t) => extract_pages rest (text ++ (c :: t) ++ blank_line)
      | Some [] | None => extract_pages rest text
      end
  end.

(** [extract_text_from_pdf(pdf_path)] *)
Definition extract_text_from_pdf (pdf_path : string) : str :=
  match (pdf ← pdfplumber_open pdf_path;
         pages ← pdf_pages pdf;
         extract_pages pages [])
  with
  | Ok text => strip text
  | Raise _ => []
  end.

(** ** Specification side *)

(** The per-page texts, each followed by a blank line, pages without text
    skipped. *)
Definition joined (texts : list (option str)) : str :=
  concat ((fun t => t ++ blank_line) <$> filter (fun t => t ≠ []) (omap id texts)).

Lemma joined_cons_text (c : N) (t : str) (texts : list (option str)) :
  joined (Some (c :: t) :: texts) = (c :: t) ++ blank_line ++ joined texts.
Proof.
  unfold joined.
  change (omap id (Some (c :: t) :: texts)) with ((c :: t) :: omap id texts).
  rewrite filter_cons_True by discriminate.
  rewrite fmap_cons. cbn [concat]. by rewrite <- app_assoc.
Qed.

Lemma joined_cons_empty (texts : list (option str)) :
  joined (Some [] :: texts) = joined texts.
Proof.
  unfold joined.
  change (omap id (Some [] :: texts)) with (([] : str) :: omap id texts).
  rewrite filter_cons_False; [reflexivity|]. auto.
Qed.

Lemma extract_pages_joined (pages : list page) (texts : list (option str)) :
  Forall2 (fun p t => extract_text p = Ok t) pages texts →
  ∀ text, extract_pages pages text = Ok (text ++ joined texts).
Proof.
  induction 1 as [|p t ps ts Hp _ IH]; intros text.
  - simpl. unfold joined. simpl. by rewrite app_nil_r.
  - cbn [extract_pages]. rewrite Hp. cbn [mbind result_bind].
    destruct t as [[|c t]|].
    + rewrite IH, joined_cons_empty. reflexivity.
    + rewrite IH, joined_cons_text, <- !app_assoc. reflexivity.
    + rewrite IH. reflexivity.
Qed.

Lemma extract_pages_raises (pages : list page) :
  Exists (fun p => ∃ e, extract_text p = Raise e) pages →
  ∀ text, ∃ e, extract_pages pages text = Raise e.
Proof.
  induction 1 as [p ps [e He]|p ps _ IH]; intros text; cbn [extract_pages].
  - rewrite He. exists e. reflexivity.
  - destruct (extract_text p) as [[[|c t]|]|e]; cbn [mbind result_bind];
      first [apply IH | by exists e].
Qed.

(** C7. The extracted text is the concatenation of the page texts, each
    followed by a blank line and pages without text skipped, stripped of
    surrounding whitespace; when opening the file, listing its pages or
    extracting a page raises, the result is the empty string. *)
Theorem extract_text_is_stripped_join_or_empty (pdf_path : string) :
  (∀ doc pages texts,
     pdfplumber_open pdf_path = Ok doc →
     pdf_pages doc = Ok pages →
     Forall2 (fun p t => extract_text p = Ok t) pages texts →
     extract_text_from_pdf pdf_path = strip (joined texts))
  ∧ (∀ e, pdfplumber_open pdf_path = Raise e → extract_text_from_pdf pdf_path = [])
  ∧ (∀ doc e,
       pdfplumber_open pdf_path = Ok doc → pdf_pages doc = Raise e →
       extract_text_from_pdf pdf_path = [])
  ∧ (∀ doc pages,
       pdfplumber_open pdf_path = Ok doc → pdf_pages doc = Ok pages →
       Exists (fun p => ∃ e, extract_text p = Raise e) pages →
       extract_text_from_pdf pdf_path = []).
Proof.
  unfold extract_text_from_pdf. repeat split.
  - intros doc pages texts -> Hpages Hall. cbn [mbind result_bind].
    rewrite Hpages. cbn [mbind result_bind].
    rewrite (extract_pages_joined _ _ Hall). reflexivity.
  - intros e ->. reflexivity.
  - intros doc e -> Hpages. cbn [mbind result_bind].
    rewrite Hpages. reflexivity.
  - intros doc pages -> Hpages Hex. cbn [mbind result_bind].
    rewrite Hpages. cbn [mbind result_bind].
    destruct (extract_pages_raises _ Hex []) as [e ->]. reflexivity.
Qed.

End Pdf.

(** ** A three-page file, the second page blank *)

Definition demo_open (path : string) : result (list (result (option str))) :=
  Ok [Ok (Some (lit "  Jane Doe")); Ok None; Ok (Some (lit "Skills: Rocq "))].
Definition demo_pages (doc : list (result (option str))) :
  result (list (result (option str))) := Ok doc.
Definition demo_extract (page : result (option str)) : result (option str) := page.

Example demo_extract_text :
  extract_text_from_pdf demo_open demo_pages demo_extract "cv.pdf"
  = lit "Jane Doe" ++ blank_line ++ lit "Skills: Rocq".
Proof. vm_compute. reflexivity. Qed.

Lemma extract_text_witness :
  extract_text_from_pdf demo_open demo_pages demo_extract "cv.pdf"
  = strip (joined [Some (lit "  Jane Doe"); None; Some (lit "Skills: Rocq ")]).
Proof.
  apply (proj1 (extract_text_is_stripped_join_or_empty demo_open demo_pages demo_extract
                  "cv.pdf")
           [Ok (Some (lit "  Jane Doe")); Ok None; Ok (Some (lit "Skills: Rocq "))]
           [Ok (Some (lit "  Jane Doe")); Ok None; Ok (Some (lit "Skills: Rocq "))]).
  - reflexivity.
  - reflexivity.
  - repeat constructor.
Defined.

End Resume.

(* ===================================================================== *)
(** * interview.py: answer evaluation *)
(* ===================================================================== *)

Module Interview.
Import Py.

(** The dataclasses [Question] and [Evaluation]; dataclasses do not check
    the types of their fields. *)
Record Question : Type := {
  q_type : value;
  q_question : value;
  q_category : value
}.

Record Evaluation : Type := {
  score : value;
  feedback : value;
  suggestions : value;
  corrected_answer : value;
  keywords_matched : value
}.

(** [get_fallback_interview_plan()] *)
Definition get_fallback_interview_plan : gmap string value :=
  let q (type question : string) : value :=
    VDict (<["type" := VStr (lit type)]> (<["question" := VStr (lit question)]> ∅)) in
  <["branch" := VStr (lit "Computer Science (Fallback)")]>
  (<["skills_summary" := VStr (lit "Programming, Problem Solving")]>
  (<["projects_summary" := VStr (lit "Software development projects")]>
  (<["question_bank" :=
       VList [q "resume" "Tell me about your most significant project.";
              q "core" "Explain a core concept from Data Structures.";
              q "core" "Write a simple SQL query to find all users from a 'users' table in 'New York'.";
              q "HR" "Where do you see yourself in 5 years?"]]> ∅))).

(** The fallback evaluation built at the end of [evaluate_answer]. *)
Definition fallback_evaluation : Evaluation :=
  {| score := VInt 5;
     feedback := VStr (lit "Could not get AI evaluation. This is a fallback.");
     suggestions :=
       VStr (lit "- Try to be more specific." ++ [10%N]
             ++ lit "- Provide more detailed examples.");
     corrected_answer :=
       VStr (lit "An ideal answer would provide more detail and specific examples.");
     keywords_matched := VList [] |}.

(** The field names of [Evaluation]. *)
Definition evaluation_fields : gset string :=
  {["score"; "feedback"; "suggestions"; "corrected_answer"; "keywords_matched"]}.

(** [Evaluation] applied to the entries of [result] as keyword arguments:
    a keyword that is not a field, or a missing field without default, is a
    [TypeError]. *)
Definition Evaluation_of (result : gmap string value) : Py.result Evaluation :=
  if bool_decide (dom result ⊆ evaluation_fields) then
    match result !! "score", result !! "feedback", result !! "suggestions",
          result !! "corrected_answer" with
    | Some s, Some f, Some g, Some c =>
        Ok {| score := s; feedback := f; suggestions := g; corrected_answer := c;
              keywords_matched := default VNone (result !! "keywords_matched") |}
    | _, _, _, _ => Raise TypeError
    end
  else Raise TypeError.

Section Gemini.

(** Whether the module-level [model] was initialised. *)
Variable model_available : bool.
(** [model.generate_content(prompt).text] at the given call of the retry
    loop; the service may answer differently, or fail, at each call. *)
Variable generate_content : str → nat → Py.result str.
(** [re.search(r'```(?:json)?\s*(\{.*?\})\s*```', text, re.DOTALL)]: group 1
    of the match, if any. *)
Variable fenced_json : str → option str.
(** [json.loads] on a text that starts with an opening brace: a dictionary,
    or an exception. *)
Variable json_loads : str → Py.result (gmap string value).
(** The f-string of [evaluate_answer], a function of the question, the
    answer and the keywords sentence; its wording plays no role below. *)
Variable evaluation_prompt : Question → str → str → str.

(** The JSON text located in a reply. *)
Definition json_text (text : str) : Py.result str :=
  match fenced_json text with
  | Some group => Ok group
  | None =>
      if startswith text (lit "{") && endswith text (lit "}") then Ok text
      else
        let start_index := find_index text (lit "{") in
        let end_index := rfind_index text (lit "}") + 1 in
        if negb (start_index =? -1) && negb (end_index =? 0)
        then Ok (slice text start_index end_index)
        else Raise ValueError
  end.

(** The body of the [try] block of one attempt. *)
Definition attempt_reply (prompt : str) (attempt : nat) : Py.result (gmap string value) :=
  response ← generate_content prompt attempt;
  let text := strip response in
  json_text ← json_text text;
  json_loads json_text.

(** [for attempt in range(max_retries)] *)
Fixpoint retry (prompt : str) (max_retries : nat) (attempts : list nat)
  : option (gmap string value) :=
  match attempts with
  | [] => None
  | attempt :: rest =>
      match attempt_reply prompt attempt with
      | Ok parsed => Some parsed
      | Raise _ =>
          if (attempt <? max_retries - 1)%nat then retry prompt max_retries rest
          else None
      end
  end.

(** [get_info_from_gemini(prompt, is_json_response=True, max_retries)];
    [evaluate_answer] calls it in this JSON mode. *)
Definition get_info_from_gemini (prompt : str) (max_retries : nat)
  : option (gmap string value) :=
  if negb model_available then
    if contains prompt (lit "interview plan") then Some get_fallback_interview_plan
    else None
  else retry prompt max_retries (seq 0 max_retries).

(** The prompt of [evaluate_answer]. *)
Definition prompt_of (question : Question) (answer : str) (resume_keywords : list str)
  : str :=
  let keywords_context :=
    match resume_keywords with
    | [] => []
    | _ => lit "Pay special attention to these keywords from the resume: "
           ++ join (lit ", ") resume_keywords ++ lit "."
    end in
  evaluation_prompt question answer keywords_context.

(** [result and all(k in result for k in [...])] *)
Definition usable (result : gmap string value) : bool :=
  truthy (VDict result)
  && forallb (has_key result) ["score"; "feedback"; "suggestions"; "corrected_answer"].

(** [evaluate_answer(question, answer, resume_keywords)] *)
Definition evaluate_answer (question : Question) (answer : str)
    (resume_keywords : list str) : Py.result Evaluation :=
  let prompt := prompt_of question answer resume_keywords in
  match get_info_from_gemini prompt 3 with
  | Some result =>
      if usable result then
        let result :=
          if negb (has_key result "keywords_matched")
          then <["keywords_matched" := VList []]> result
          else result in
        Evaluation_of result
      else Ok fallback_evaluation
  | None => Ok fallback_evaluation
  end.


(** ** Specification side *)




(** ** The retry loop and the evaluation *)








End Gemini.

(** ** Two runs *)

Definition demo_question : Question :=
  {| q_type := VStr (lit "HR");
     q_question := VStr (lit "Where do you see yourself in 5 years?");
     q_category := VStr (lit "general") |}.

Definition demo_prompt (q : Question) (answer keywords_context : str) : str :=
  lit "Evaluate this interview answer: " ++ answer.

(** A service that answers with an evaluation object. *)
Definition demo_parsed : gmap string value :=
  <["score" := VInt 8]>
  (<["feedback" := VStr (lit "Clear and specific.")]>
  (<["suggestions" := VStr (lit "- Add one example.")]>
  (<["corrected_answer" := VStr (lit "In five years I lead a team.")]> ∅))).

Definition demo_generate (prompt : str) (attempt : nat) : Py.result str :=
  Ok (lit "{ ... }").
Definition demo_loads (text : str) : Py.result (gmap string value) := Ok demo_parsed.


Example demo_evaluate_answer :
  evaluate_answer true demo_generate (fun _ => None) demo_loads demo_prompt
    demo_question (lit "I lead a team.") []
  = Ok {| score := VInt 8;
          feedback := VStr (lit "Clear and specific.");
          suggestions := VStr (lit "- Add one example.");
          corrected_answer := VStr (lit "In five years I lead a team.");
          keywords_matched := VList [] |}.
Proof. vm_compute. reflexivity. Qed.



End Interview.

(* ===================================================================== *)
(** * backend/: the Flask application *)
(* ===================================================================== *)

Module Backend.
Import Py.

(** What a view returns: [jsonify(body), status], or [send_file(path)]. *)
Inductive response : Type :=
| Json (body : gmap string value) (status : Z)
| SendFile (path : str).

Definition status_of (r : response) : Z :=
  match r with
  | Json _ status => status
  | SendFile _ => 200
  end.

(** [jsonify({'error': msg}), status] and [jsonify({'message': msg}), status] *)
Definition error_response (msg : string) (status : Z) : response :=
  Json {["error" := VStr (lit msg)]} status.
Definition message_response (msg : string) (status : Z) : response :=
  Json {["message" := VStr (lit msg)]} status.

(** [s.split(sep)] for a one-character separator: every separator cuts,
    so empty fields appear between adjacent separators. *)
Fixpoint split_on_from (sep : N) (field : str) (s : str) : list str :=
  match s with
  | [] => [field]
  | c :: rest =>
      if (c =? sep)%N then field :: split_on_from sep [] rest
      else split_on_from sep (field ++ [c]) rest
  end.
Definition split_on (sep : N) (s : str) : list str := split_on_from sep [] s.

(* --------------------------------------------------------------------- *)
(** ** utils/auth_middleware.py *)
(* --------------------------------------------------------------------- *)

Module AuthMiddleware.

(** The outcome of [jwt.decode(token, Config.JWT_SECRET_KEY,
    algorithms=["HS256"])]: the payload, [ExpiredSignatureError], or another
    [InvalidTokenError]. *)
Inductive decoded : Type :=
| Payload (data : gmap string value)
| ExpiredSignatureError
| InvalidTokenError.

(** A request, as far as the decorator reads it: [request.headers]. *)
Record request : Type := { headers : string → option str }.

(** What [decorated] does with a request: answer by itself, call the view
    with a user id, or let an exception escape. *)
Inductive decision : Type :=
| Respond (r : response)
| Call (current_user_id : value)
| Escape (e : exn).

Section TokenRequired.

Variable jwt_decode : str → decoded.

(** The body of [decorated], up to the call of the view. *)
Definition authorize (req : request) : decision :=
  let token : Py.result (option str) :=
    match headers req "Authorization" with
    | Some auth_header =>
        token ← index (split_on 32 auth_header) 1;
        Ok (Some token)
    | None => Ok None
    end in
  match token with
  | Raise _ => Respond (error_response "Invalid token format" 401)
  | Ok None | Ok (Some []) => Respond (error_response "Token is missing" 401)
  | Ok (Some token) =>
      match jwt_decode token with
      | Payload data =>
          match data !! "user_id" with
          | Some current_user_id => Call current_user_id
          | None => Escape (KeyError "user_id")
          end
      | ExpiredSignatureError => Respond (error_response "Token has expired" 401)
      | InvalidTokenError => Respond (error_response "Invalid token" 401)
      end
  end.

(** [token_required(f)]: the decorated view. *)
Definition token_required {A : Type} (f : value → A → A * Py.result response)
    (req : request) (state : A) : A * Py.result response :=
  match authorize req with
  | Respond r => (state, Ok r)
  | Call current_user_id => f current_user_id state
  | Escape e => (state, Raise e)
  end.

(** *** Specification side *)

(** The token a request carries after the scheme of its [Authorization]
    header: the second space-separated field, when it is not empty. *)
Definition bearer_token (req : request) : option str :=
  match headers req "Authorization" with
  | Some auth_header =>
      match split_on 32 auth_header !! 1%nat with
      | Some (c :: token) => Some (c :: token)
      | Some [] | None => None
      end
  | None => None
  end.

Lemma authorize_without_token (req : request) :
  bearer_token req = None →
  authorize req = Respond (error_response "Invalid token format" 401)
  ∨ authorize req = Respond (error_response "Token is missing" 401).
Proof.
  unfold bearer_token, authorize, index.
  destruct (headers req "Authorization") as [auth_header|]; [|auto].
  destruct (split_on 32 auth_header !! 1%nat) as [[|c token]|];
    cbn [mbind result_bind]; [auto|discriminate|auto].
Qed.

Lemma authorize_with_token (req : request) (token : str) :
  bearer_token req = Some token →
  authorize req
  = match jwt_decode token with
    | Payload data =>
        match data !! "user_id" with
        | Some current_user_id => Call current_user_id
        | None => Escape (KeyError "user_id")
        end
    | ExpiredSignatureError => Respond (error_response "Token has expired" 401)
    | InvalidTokenError => Respond (error_response "Invalid token" 401)
    end.
Proof.
  unfold bearer_token, authorize, index.
  destruct (headers req "Authorization") as [auth_header|]; [|discriminate].
  destruct (split_on 32 auth_header !! 1%nat) as [[|c rest]|];
    [discriminate| |discriminate].
  intros Htoken. injection Htoken as <-. reflexivity.
Qed.

Lemma authorize_respond_401 (req : request) (r : response) :
  authorize req = Respond r → status_of r = 401.
Proof.
  destruct (bearer_token req) as [token|] eqn:Htoken.
  - rewrite (authorize_with_token _ _ Htoken).
    destruct (jwt_decode token) as [data| |];
      [destruct (data !! "user_id"); discriminate| |];
      intros Hr; injection Hr as <-; reflexivity.
  - destruct (authorize_without_token _ Htoken) as [-> | ->];
      intros Hr; injection Hr as <-; reflexivity.
Qed.

(** C5 (amended). A request without an [Authorization] header, without a
    token after the scheme, or with an expired or otherwise invalid token is
    answered with status 401 and the view is not called: the state is
    untouched and the answer does not depend on the view.  With a valid token
    whose payload has a [user_id] the view is called with that [user_id].
    With a valid token whose payload has no [user_id], the [KeyError] of
    [data['user_id']] leaves the decorator: there is no 401 and the view is
    not called. *)
Theorem token_required_rejects_with_401_or_calls_view (req : request) :
  (bearer_token req = None →
   ∃ r, authorize req = Respond r ∧ status_of r = 401)
  ∧ (∀ token, bearer_token req = Some token →
       jwt_decode token = ExpiredSignatureError ∨ jwt_decode token = InvalidTokenError →
       ∃ r, authorize req = Respond r ∧ status_of r = 401)
  ∧ (∀ r, authorize req = Respond r →
       status_of r = 401
       ∧ ∀ (A : Type) (f : value → A → A * Py.result response) (state : A),
           token_required f req state = (state, Ok r))
  ∧ (∀ token data current_user_id,
       bearer_token req = Some token →
       jwt_decode token = Payload data →
       data !! "user_id" = Some current_user_id →
       authorize req = Call current_user_id
       ∧ ∀ (A : Type) (f : value → A → A * Py.result response) (state : A),
           token_required f req state = f current_user_id state)
  ∧ (∀ token data,
       bearer_token req = Some token →
       jwt_decode token = Payload data →
       data !! "user_id" = None →
       authorize req = Escape (KeyError "user_id")
       ∧ ∀ (A : Type) (f : value → A → A * Py.result response) (state : A),
           token_required f req state = (state, Raise (KeyError "user_id"))).
Proof.
  split; [|split; [|split; [|split]]].
  - intros Hnone.
    destruct (authorize_without_token _ Hnone) as [-> | ->];
      eexists; split; reflexivity.
  - intros token Htoken Hbad.
    rewrite (authorize_with_token _ _ Htoken).
    destruct Hbad as [-> | ->]; eexists; split; reflexivity.
  - intros r Hr. split; [exact (authorize_respond_401 _ _ Hr)|].
    intros A f state. unfold token_required. rewrite Hr. reflexivity.
  - intros token data current_user_id Htoken Hdecode Huser.
    assert (Hcall : authorize req = Call current_user_id).
    { rewrite (authorize_with_token _ _ Htoken), Hdecode, Huser. reflexivity. }
    split; [exact Hcall|].
    intros A f state. unfold token_required. rewrite Hcall. reflexivity.
  - intros token data Htoken Hdecode Huser.
    assert (Hescape : authorize req = Escape (KeyError "user_id")).
    { rewrite (authorize_with_token _ _ Htoken), Hdecode, Huser. reflexivity. }
    split; [exact Hescape|].
    intros A f state. unfold token_required. rewrite Hescape. reflexivity.
Qed.

End TokenRequired.

(** *** Three requests *)

Definition demo_decode (token : str) : decoded :=
  if bool_decide (token = lit "good") then Payload {["user_id" := VStr (lit "u1")]}
  else if bool_decide (token = lit "old") then ExpiredSignatureError
  else InvalidTokenError.

Definition request_with (authorization : option string) : request :=
  {| headers := fun name =>
       if bool_decide (name = "Authorization") then lit <$> authorization else None |}.

Example demo_authorize :
  authorize demo_decode (request_with (Some "Bearer good")) = Call (VStr (lit "u1"))
  ∧ authorize demo_decode (request_with (Some "Bearer old"))
    = Respond (error_response "Token has expired" 401)
  ∧ authorize demo_decode (request_with (Some "Bearer"))
    = Respond (error_response "Invalid token format" 401)
  ∧ authorize demo_decode (request_with (Some "Bearer  good"))
    = Respond (error_response "Token is missing" 401)
  ∧ authorize demo_decode (request_with None)
    = Respond (error_response "Token is missing" 401).
Proof. repeat split; vm_compute; reflexivity. Qed.

Lemma token_required_witness :
  authorize demo_decode (request_with (Some "Bearer good")) = Call (VStr (lit "u1"))
  ∧ ∃ r, authorize demo_decode (request_with (Some "Bearer old")) = Respond r
         ∧ status_of r = 401.
Proof.
  split.
  - refine (proj1 (proj1 (proj2 (proj2 (proj2
              (token_required_rejects_with_401_or_calls_view demo_decode
                 (request_with (Some "Bearer good"))))))
              (lit "good") {["user_id" := VStr (lit "u1")]} (VStr (lit "u1")) _ _ _));
      vm_compute; reflexivity.
  - refine (proj1 (proj2
              (token_required_rejects_with_401_or_calls_view demo_decode
                 (request_with (Some "Bearer old"))))
              (lit "old") _ _); [|left]; vm_compute; reflexivity.
Defined.

(** A token that [jwt.decode] accepts and whose payload names its subject
    under another key: the decorator neither answers 401 nor calls the view;
    the [KeyError] escapes, whatever the view is. *)
Definition subject_decode (token : str) : decoded :=
  Payload {["sub" := VStr (lit "u1")]}.

Lemma valid_token_without_user_id_is_neither_rejected_nor_served :
  subject_decode (lit "good") = Payload {["sub" := VStr (lit "u1")]}
  ∧ bearer_token (request_with (Some "Bearer good")) = Some (lit "good")
  ∧ authorize subject_decode (request_with (Some "Bearer good"))
    = Escape (KeyError "user_id")
  ∧ (∀ r, authorize subject_decode (request_with (Some "Bearer good")) ≠ Respond r)
  ∧ (∀ current_user_id,
       authorize subject_decode (request_with (Some "Bearer good"))
       ≠ Call current_user_id)
  ∧ (∀ (A : Type) (f : value → A → A * Py.result response) (state : A),
       token_required subject_decode f (request_with (Some "Bearer good")) state
       = (state, Raise (KeyError "user_id"))).
Proof.
  assert (Hescape : authorize subject_decode (request_with (Some "Bearer good"))
                    = Escape (KeyError "user_id")) by (vm_compute; reflexivity).
  split; [reflexivity|]. split; [vm_compute; reflexivity|].
  split; [exact Hescape|].
  split; [intros r; rewrite Hescape; discriminate|].
  split; [intros current_user_id; rewrite Hescape; discriminate|].
  intros A f state. unfold token_required. rewrite Hescape. reflexivity.
Qed.

End AuthMiddleware.

(* --------------------------------------------------------------------- *)
(** ** utils/file_handler.py *)
(* --------------------------------------------------------------------- *)

Module FileHandler.

(** What the operating system answers to one [os.remove]: it removes the
    file, refuses because the file is in use ([PermissionError]), or fails
    otherwise. *)
Inductive remove_outcome : Type := Removes | Locked | Fails.

(** The files that exist, and the answers of the operating system to the
    coming calls of [os.remove] (it removes once the list is exhausted). *)
Record filesystem : Type := {
  files : gset str;
  remove_script : list remove_outcome
}.

(** [os.path.exists(path)] *)
Definition exists_ (path : str) (fs : filesystem) : bool :=
  bool_decide (path ∈ files fs).

(** [os.remove(path)] *)
Definition os_remove (path : str) (fs : filesystem) : filesystem * Py.result unit :=
  let rest := tail (remove_script fs) in
  match head (remove_script fs) with
  | Some Locked => ({| files := files fs; remove_script := rest |}, Raise PermissionError)
  | Some Fails => ({| files := files fs; remove_script := rest |}, Raise (Exception "OSError"))
  | Some Removes | None =>
      if exists_ path fs
      then ({| files := files fs ∖ {[path]}; remove_script := rest |}, Ok ())
      else ({| files := files fs; remove_script := rest |},
            Raise (Exception "FileNotFoundError"))
  end.

(** [for attempt in range(5)] of [delete_file]. *)
Fixpoint delete_attempts (attempts : list nat) (file_path : str) (fs : filesystem)
  : filesystem * bool :=
  match attempts with
  | [] => (fs, false)
  | attempt :: rest =>
      match os_remove file_path fs with
      | (fs, Ok _) => (fs, true)
      | (fs, Raise PermissionError) =>
          if (attempt =? 4)%nat then (fs, false)
          else delete_attempts rest file_path fs
      | (fs, Raise _) => (fs, false)
      end
  end.

(** [delete_file(file_path)] *)
Definition delete_file (file_path : str) (fs : filesystem) : filesystem * bool :=
  match file_path with
  | [] => (fs, false)
  | _ =>
      if negb (exists_ file_path fs) then (fs, false)
      else delete_attempts (seq 0 5) file_path fs
  end.

(** An uploaded file ([werkzeug.datastructures.FileStorage]); it is falsy
    when its name is empty. *)
Record upload : Type := { filename : str }.

(** [Config.ALLOWED_EXTENSIONS] *)
Definition ALLOWED_EXTENSIONS : list str :=
  [lit "pdf"; lit "mp4"; lit "avi"; lit "mov"; lit "mkv"].

(** [s.rsplit('.', 1)[1]]: what follows the last dot. *)
Definition after_last_dot (s : str) : Py.result str :=
  match rfind_from s (lit ".") 0 with
  | Some i => Ok (drop (S i) s)
  | None => Raise IndexError
  end.

(** [os.path.join(a, b)] *)
Definition path_join (a b : str) : str :=
  if startswith b (lit "/") then b
  else match a with
       | [] => b
       | _ => if endswith a (lit "/") then a ++ b else a ++ lit "/" ++ b
       end.

Section SaveFile.

(** [str.lower], [werkzeug.utils.secure_filename] and
    [Config.UPLOAD_FOLDER], the directory of the application. *)
Variable lower : str → str.
Variable secure_filename : str → str.
Variable UPLOAD_FOLDER : str.

(** [allowed_file(filename)] with the default extensions. *)
Definition allowed_file (filename : str) : bool :=
  contains filename (lit ".")
  && match after_last_dot filename with
     | Ok extension => bool_decide (lower extension ∈ ALLOWED_EXTENSIONS)
     | Raise _ => false
     end.

(** [save_file(file, subfolder)]; [uuid_hex] is the value of
    [uuid.uuid4().hex] drawn for this file.  The result is the pair of the
    path and the error, one of which is [None]. *)
Definition save_file (file : upload) (subfolder : str) (uuid_hex : str) (fs : filesystem)
  : filesystem * Py.result (str + str) :=
  match filename file with
  | [] => (fs, Ok (inr (lit "Invalid file type")))
  | _ =>
      if negb (allowed_file (filename file)) then (fs, Ok (inr (lit "Invalid file type")))
      else
        let original_filename := secure_filename (filename file) in
        match after_last_dot original_filename with
        | Raise e => (fs, Raise e)
        | Ok extension =>
            let extension := lower extension in
            let unique_filename := uuid_hex ++ lit "." ++ extension in
            let upload_path :=
              match subfolder with
              | [] => UPLOAD_FOLDER
              | _ => path_join UPLOAD_FOLDER subfolder
              end in
            let file_path := path_join upload_path unique_filename in
            ({| files := {[file_path]} ∪ files fs;
                remove_script := remove_script fs |}, Ok (inl file_path))
        end
  end.

Lemma path_join_nonempty (a b : str) : b ≠ [] → path_join a b ≠ [].
Proof.
  intros Hb. unfold path_join.
  destruct (startswith b (lit "/")); [exact Hb|].
  destruct a as [|c a]; [exact Hb|].
  destruct (endswith (c :: a) (lit "/")); discriminate.
Qed.

(** A saved file has a non-empty path and exists. *)
Lemma save_file_saved (file : upload) (subfolder uuid_hex : str) (fs fs' : filesystem)
    (file_path : str) :
  save_file file subfolder uuid_hex fs = (fs', Ok (inl file_path)) →
  file_path ≠ [] ∧ file_path ∈ files fs' ∧ remove_script fs' = remove_script fs.
Proof.
  unfold save_file.
  destruct (filename file) as [|c name]; [discriminate|].
  destruct (negb (allowed_file (c :: name))); [discriminate|].
  destruct (after_last_dot (secure_filename (c :: name))) as [extension|e];
    [|discriminate].
  intros H.
  pose proof (f_equal fst H) as Hfs.
  pose proof (f_equal snd H) as Hpath. cbn [fst snd] in Hfs, Hpath.
  injection Hpath as Hpath. subst fs' file_path. cbn [files remove_script].
  split; [|split; [set_solver|reflexivity]].
  apply path_join_nonempty. destruct uuid_hex; discriminate.
Qed.

End SaveFile.

(** *** Specification side *)

(** The answer that settles [n] attempts: the first one that is not
    [Locked], or [Locked] when all [n] are. *)
Fixpoint verdict (n : nat) (script : list remove_outcome) : remove_outcome :=
  match n with
  | O => Locked
  | S n =>
      match script with
      | [] | Removes :: _ => Removes
      | Fails :: _ => Fails
      | Locked :: rest => verdict n rest
      end
  end.

Lemma delete_attempts_verdict (file_path : str) (len : nat) :
  ∀ start fs fs' deleted,
    (start + len = 5)%nat →
    file_path ∈ files fs →
    delete_attempts (seq start len) file_path fs = (fs', deleted) →
    files fs' = (if deleted then files fs ∖ {[file_path]} else files fs)
    ∧ (deleted = true ↔ verdict len (remove_script fs) = Removes).
Proof.
  induction len as [|len IH]; intros start fs fs' deleted Hsum Hin.
  - simpl. intros H. injection H as <- <-. done.
  - cbn [seq delete_attempts verdict]. unfold os_remove, exists_.
    rewrite bool_decide_eq_true_2 by exact Hin.
    destruct (remove_script fs) as [|[| |] script] eqn:Hscript; cbn [head tail].
    + intros H. injection H as <- <-. done.
    + intros H. injection H as <- <-. done.
    + destruct (start =? 4)%nat eqn:Hlast.
      * apply Nat.eqb_eq in Hlast. assert (len = 0%nat) as -> by lia.
        intros H. injection H as <- <-. done.
      * intros H. apply IH in H; [exact H|lia|exact Hin].
    + intros H. injection H as <- <-. done.
Qed.

(** [delete_file] on an existing file: it is gone exactly when the verdict
    of the five attempts is a removal, and nothing else changes. *)
Lemma delete_file_verdict (file_path : str) (fs fs' : filesystem) (deleted : bool) :
  file_path ≠ [] →
  file_path ∈ files fs →
  delete_file file_path fs = (fs', deleted) →
  files fs' = (if deleted then files fs ∖ {[file_path]} else files fs)
  ∧ (deleted = true ↔ verdict 5 (remove_script fs) = Removes).
Proof.
  intros Hne Hin. unfold delete_file, exists_.
  destruct file_path as [|c rest]; [congruence|].
  rewrite bool_decide_eq_true_2 by exact Hin. cbn [negb].
  apply (delete_attempts_verdict _ 5 0); [reflexivity|exact Hin].
Qed.

End FileHandler.

(* --------------------------------------------------------------------- *)
(** ** MongoDB collections *)
(* --------------------------------------------------------------------- *)

Module Mongo.

(** A document is a dictionary; a collection keeps its documents in
    insertion order. *)
Abbreviation doc := (gmap string value).

(** The value of a hexadecimal digit. *)
Definition hex_value (c : N) : option N :=
  (if (48 <=? c) && (c <=? 57) then Some (c - 48)
   else if (97 <=? c) && (c <=? 102) then Some (c - 87)
   else if (65 <=? c) && (c <=? 70) then Some (c - 55)
   else None)%N.

Fixpoint parse_hex (s : str) (acc : N) : option N :=
  match s with
  | [] => Some acc
  | c :: rest =>
      match hex_value c with
      | Some d => parse_hex rest (acc * 16 + d)%N
      | None => None
      end
  end.

(** [ObjectId(s)] for a string: 24 hexadecimal digits, or [InvalidId]. *)
Definition ObjectId (s : str) : Py.result N :=
  if (length s =? 24)%nat then
    match parse_hex s 0 with
    | Some oid => Ok oid
    | None => Raise (Exception "InvalidId")
    end
  else Raise (Exception "InvalidId").

(** [str(oid)]: 24 lowercase hexadecimal digits. *)
Fixpoint to_hex (digits : nat) (n : N) : str :=
  match digits with
  | O => []
  | S digits =>
      let d := (n mod 16)%N in
      to_hex digits (n / 16)%N ++ [if (d <? 10)%N then (d + 48)%N else (d + 87)%N]
  end.

(** [str(v)] for the values it is applied to: identifiers and strings. *)
Definition str_of (v : value) : str :=
  match v with
  | VStr s => s
  | VObjectId oid => to_hex 24 oid
  | _ => []
  end.

(** Equality tests of a query against a stored field. *)
Definition is_str (v : value) (s : str) : bool :=
  match v with
  | VStr s' => bool_decide (s' = s)
  | _ => false
  end.
Definition is_oid (v : value) (oid : N) : bool :=
  match v with
  | VObjectId oid' => (oid' =? oid)%N
  | _ => false
  end.
Definition field_is_str (k : string) (s : str) (d : doc) : bool :=
  match d !! k with Some v => is_str v s | None => false end.
Definition field_is_oid (k : string) (oid : N) (d : doc) : bool :=
  match d !! k with Some v => is_oid v oid | None => false end.

(** [collection.find_one(query)] *)
Fixpoint find_one (query : doc → bool) (collection : list doc) : option doc :=
  match collection with
  | [] => None
  | d :: rest => if query d then Some d else find_one query rest
  end.

(** [collection.delete_one(query)]: the collection left, and
    [deleted_count]. *)
Fixpoint delete_one (query : doc → bool) (collection : list doc) : list doc * Z :=
  match collection with
  | [] => ([], 0)
  | d :: rest =>
      if query d then (rest, 1)
      else let '(rest', n) := delete_one query rest in (d :: rest', n)
  end.

(** [collection.delete_many(query)] *)
Definition delete_many (query : doc → bool) (collection : list doc) : list doc * Z :=
  (List.filter (fun d => negb (query d)) collection,
   Z.of_nat (length (List.filter query collection))).

(** [collection.update_one(query, update)] *)
Fixpoint update_one (query : doc → bool) (update : doc → doc) (collection : list doc)
  : list doc :=
  match collection with
  | [] => []
  | d :: rest =>
      if query d then update d :: rest else d :: update_one query update rest
  end.

(** [collection.insert_one(d)] with the [_id] the driver generates. *)
Definition insert_one (d : doc) (inserted_id : N) (collection : list doc) : list doc :=
  collection ++ [<["_id" := VObjectId inserted_id]> d].

(** [{'$set': fields}] *)
Definition set_fields (fields : doc) (d : doc) : doc := fields ∪ d.

(** *** Facts about the collection operations *)

Lemma find_one_Some (query : doc → bool) (collection : list doc) (d : doc) :
  find_one query collection = Some d → d ∈ collection ∧ query d = true.
Proof.
  induction collection as [|x rest IH]; [discriminate|]. simpl.
  destruct (query x) eqn:Hq.
  - intros H. injection H as <-. split; [left|exact Hq].
  - intros H. apply IH in H as [Hin Hd]. split; [right; exact Hin|exact Hd].
Qed.

Lemma is_str_eq (v : value) (s : str) : is_str v s = true ↔ v = VStr s.
Proof.
  destruct v; simpl; try (split; [discriminate|congruence]).
  rewrite bool_decide_eq_true. split; congruence.
Qed.

(** [delete_one] removes at most one document, and only one that matches. *)
Lemma delete_one_spec (query : doc → bool) (collection : list doc) :
  ∀ left_ n,
    delete_one query collection = (left_, n) →
    (n = 0 ∧ left_ = collection)
    ∨ (n = 1 ∧ ∃ before d after,
         collection = before ++ d :: after ∧ left_ = before ++ after
         ∧ query d = true).
Proof.
  induction collection as [|x rest IH]; intros left_ n; simpl.
  - intros H. injection H as <- <-. left. auto.
  - destruct (query x) eqn:Hq.
    + intros H. injection H as <- <-. right. split; [reflexivity|].
      exists [], x, rest. auto.
    + destruct (delete_one query rest) as [rest' m] eqn:Hrest.
      intros H. injection H as <- <-.
      destruct (IH _ _ eq_refl) as [[-> ->]|[-> (before & d & after & -> & -> & Hd)]].
      * left. auto.
      * right. split; [reflexivity|]. exists (x :: before), d, after. auto.
Qed.

End Mongo.

(** The state of the server: the files on disk and the two collections. *)
Record world : Type := {
  fs : FileHandler.filesystem;
  users : list (gmap string value);
  analyses : list (gmap string value)
}.

(* --------------------------------------------------------------------- *)
(** ** models/analysis.py *)
(* --------------------------------------------------------------------- *)

Module AnalysisModel.
Import Mongo.

(** [_serialize_analysis] *)
Definition _serialize_analysis (analysis : doc) : option doc :=
  if negb (truthy (VDict analysis)) then None
  else
    match analysis !! "_id" with
    | Some id => Some (<["_id" := VStr (str_of id)]> analysis)
    | None => None
    end.

(** [create_analysis(user_id, analysis_type, data, report_path)], at time
    [now] and with the identifier [inserted_id]. *)
Definition create_analysis (user_id : str) (analysis_type : str) (data report_path : value)
    (now : Z) (inserted_id : N) (collection : list doc) : list doc * option doc :=
  let analysis_data : doc :=
    <["user_id" := VStr user_id]>
    (<["analysis_type" := VStr analysis_type]>
    (<["data" := data]>
    (<["report_path" := report_path]>
    (<["created_at" := VDatetime now]>
    (<["status" := VStr (lit "completed")]> ∅))))) in
  (insert_one analysis_data inserted_id collection,
   _serialize_analysis (<["_id" := VObjectId inserted_id]> analysis_data)).

(** [get_analysis_by_id(analysis_id)] *)
Definition get_analysis_by_id (analysis_id : str) (collection : list doc) : option doc :=
  match ObjectId analysis_id with
  | Ok oid =>
      match find_one (field_is_oid "_id" oid) collection with
      | Some analysis => _serialize_analysis analysis
      | None => None
      end
  | Raise _ => None
  end.

(** The query of [delete_analysis]: both [_id] and [user_id]. *)
Definition owned_by (oid : N) (user_id : str) (d : doc) : bool :=
  field_is_oid "_id" oid d && field_is_str "user_id" user_id d.

(** [delete_analysis(analysis_id, user_id)] *)
Definition delete_analysis (analysis_id user_id : str) (collection : list doc)
  : list doc * bool :=
  match ObjectId analysis_id with
  | Ok oid =>
      let '(collection, deleted_count) := delete_one (owned_by oid user_id) collection in
      (collection, 0 <? deleted_count)
  | Raise _ => (collection, false)
  end.

End AnalysisModel.

(* --------------------------------------------------------------------- *)
(** ** Views: state, exceptions, [try ... finally] *)
(* --------------------------------------------------------------------- *)

(** A computation of a view: it transforms the state of the server and
    returns a value or raises. *)
Definition io (A : Type) : Type := world → world * Py.result A.

#[global] Instance io_ret : MRet io := fun A a w => (w, Ok a).
#[global] Instance io_bind : MBind io := fun A B k m w =>
  match m w with
  | (w, Ok a) => k a w
  | (w, Raise e) => (w, Raise e)
  end.

(** [raise e] *)
Definition raise {A : Type} (e : exn) : io A := fun w => (w, Raise e).

(** Reading from, and writing to, the state of the server. *)
Definition reads {A : Type} (f : world → A) : io A := fun w => (w, Ok (f w)).
Definition modify (f : world → world) : io unit := fun w => (f w, Ok ()).

(** [try: body finally: final], for a [final] that does not raise. *)
Definition try_finally {A : Type} (body : io A) (final : world → world) : io A :=
  fun w => let '(w, r) := body w in (final w, r).

(** [try: body except Exception as e: return jsonify({'error': f'{prefix}{e}'}), 500] *)
Definition catching (prefix : string) (body : io response) : world → world * response :=
  fun w =>
    match body w with
    | (w, Ok r) => (w, r)
    | (w, Raise e) => (w, Json {["error" := VStr (lit prefix ++ lit (exn_str e))]} 500)
    end.

(* --------------------------------------------------------------------- *)
(** ** routes/analysis.py *)
(* --------------------------------------------------------------------- *)

Module AnalysisRoutes.
Import Mongo FileHandler.

(** A request to the analysis blueprint: its uploaded files. *)
Record request : Type := { request_files : gmap string upload }.

(** The [finally] block of [analyze_video]. *)
Definition cleanup (video_path : str) (w : world) : world :=
  if exists_ video_path (fs w)
  then {| fs := fst (delete_file video_path (fs w));
          users := users w; analyses := analyses w |}
  else w.

Section AnalyzeVideo.

(** The parameters of [save_file]. *)
Variable lower : str → str.
Variable secure_filename : str → str.
Variable UPLOAD_FOLDER : str.

(** [save_file(file, subfolder)] on the state of the server. *)
Definition save_upload (file : upload) (subfolder uuid_hex : str) : io (str + str) :=
  fun w =>
    let '(fs', saved) :=
      save_file lower secure_filename UPLOAD_FOLDER file subfolder uuid_hex (fs w) in
    ({| fs := fs'; users := users w; analyses := analyses w |}, saved).

(** The calls of the [try] block.  Each is an arbitrary computation on the
    state of the server and may raise. *)
(** [analysis_service.analyze_video(video_path)]: results, report path and
    error. *)
Variable analysis_service_analyze_video : str → io (value * value * value).
(** [analysis_model.create_analysis(user_id, analysis_type, data, report_path)] *)
Variable create_analysis : str → str → value → value → io doc.
(** [user_model.increment_analyses_count(user_id)] *)
Variable increment_analyses_count : str → io bool.
(** [analysis_service.get_analysis_summary(results)] *)
Variable get_analysis_summary : value → io value.

(** The inner [try] block of [analyze_video]. *)
Definition analyze_video_body (current_user_id video_path : str) : io response :=
  '(results, report_path, error) ← analysis_service_analyze_video video_path;
  if truthy error then
    mret (Json {["error" := VStr (lit "Analysis failed: " ++ str_of error)]} 500)
  else
    analysis_record ← create_analysis current_user_id (lit "video") results report_path;
    _ ← increment_analyses_count current_user_id;
    summary ← get_analysis_summary results;
    match analysis_record !! "_id" with
    | None => raise (KeyError "_id")
    | Some analysis_id =>
        mret (Json (<["message" := VStr (lit "Video analysis completed successfully")]>
                   (<["analysis_id" := analysis_id]>
                   (<["results" := results]>
                   (<["summary" := summary]>
                   (<["report_available" :=
                        VBool (match report_path with VNone => false | _ => true end)]>
                      ∅))))) 200)
    end.

(** [analyze_video(current_user_id)], the view behind POST /api/analysis/video;
    [uuid_hex] is the [uuid.uuid4().hex] drawn while saving the upload. *)
Definition analyze_video (current_user_id : str) (req : request) (uuid_hex : str)
  : world → world * response :=
  catching "Analysis failed: "
    (match request_files req !! "video" with
     | None => mret (error_response "No video file provided" 400)
     | Some video_file =>
         match filename video_file with
         | [] => mret (error_response "No file selected" 400)
         | _ =>
             saved ← save_upload video_file (lit "videos") uuid_hex;
             match saved with
             | inr error => mret (Json {["error" := VStr error]} 400)
             | inl video_path =>
                 try_finally (analyze_video_body current_user_id video_path)
                             (cleanup video_path)
             end
         end
     end).

(** *** The cleanup of the uploaded file *)

Lemma cleanup_spec (video_path : str) (w : world) :
  video_path ≠ [] →
  users (cleanup video_path w) = users w
  ∧ analyses (cleanup video_path w) = analyses w
  ∧ (video_path ∉ files (fs w) → cleanup video_path w = w)
  ∧ (video_path ∈ files (fs w) →
     verdict 5 (remove_script (fs w)) = Removes →
     video_path ∉ files (fs (cleanup video_path w)))
  ∧ (video_path ∈ files (fs w) →
     verdict 5 (remove_script (fs w)) ≠ Removes →
     video_path ∈ files (fs (cleanup video_path w))).
Proof.
  intros Hne. unfold cleanup, exists_.
  destruct (decide (video_path ∈ files (fs w))) as [Hin|Hout].
  - rewrite bool_decide_eq_true_2 by exact Hin. cbn [users analyses fs].
    destruct (delete_file video_path (fs w)) as [fs' deleted] eqn:Hdel.
    destruct (delete_file_verdict _ _ _ _ Hne Hin Hdel) as [Hfiles Hiff].
    cbn [fst]. repeat split; try reflexivity; try contradiction.
    + intros _ Hv. apply Hiff in Hv. subst deleted. rewrite Hfiles. set_solver.
    + intros _ Hv. destruct deleted; [destruct Hv; apply Hiff; reflexivity|].
      rewrite Hfiles. exact Hin.
  - rewrite bool_decide_eq_false_2 by exact Hout.
    repeat split; try reflexivity; contradiction.
Qed.

(** C6 (amended). Once the upload is saved, the view runs its cleanup after
    the processing, whether the processing returned or raised: when the file
    still exists, [delete_file] tries [os.remove] up to five times.  The file
    is gone after the request whenever an attempt succeeds; it stays when
    all five attempts find it locked or one of them fails otherwise. *)
Theorem uploaded_video_cleanup_runs_on_every_path
    (current_user_id : str) (req : request) (uuid_hex : str) (w w1 : world)
    (video_file : upload) (video_path : str) :
  request_files req !! "video" = Some video_file →
  save_upload video_file (lit "videos") uuid_hex w = (w1, Ok (inl video_path)) →
  video_path ∈ files (fs w1)
  ∧ ∃ w2 outcome resp,
      analyze_video_body current_user_id video_path w1 = (w2, outcome)
      ∧ analyze_video current_user_id req uuid_hex w = (cleanup video_path w2, resp)
      ∧ (∀ r, outcome = Ok r → resp = r)
      ∧ (∀ e, outcome = Raise e → status_of resp = 500)
      ∧ (video_path ∉ files (fs w2) → video_path ∉ files (fs (cleanup video_path w2)))
      ∧ (video_path ∈ files (fs w2) →
         verdict 5 (remove_script (fs w2)) = Removes →
         video_path ∉ files (fs (cleanup video_path w2)))
      ∧ (video_path ∈ files (fs w2) →
         verdict 5 (remove_script (fs w2)) ≠ Removes →
         video_path ∈ files (fs (cleanup video_path w2))).
Proof.
  intros Hfile Hsave.
  assert (Hsaved : video_path ≠ [] ∧ video_path ∈ files (fs w1) ∧ filename video_file ≠ []).
  { revert Hsave. unfold save_upload.
    destruct (save_file lower secure_filename UPLOAD_FOLDER video_file (lit "videos")
                uuid_hex (fs w)) as [fs' saved] eqn:Hsave.
    intros H.
    pose proof (f_equal fst H) as Hw. pose proof (f_equal snd H) as Hr.
    cbn [fst snd] in Hw, Hr. subst w1 saved. cbn [fs].
    destruct (save_file_saved _ _ _ _ _ _ _ _ _ Hsave) as (Hne & Hin & _).
    split; [exact Hne|]. split; [exact Hin|].
    intros Hname. unfold save_file in Hsave. rewrite Hname in Hsave. discriminate. }
  destruct Hsaved as (Hne & Hin & Hname).
  split; [exact Hin|].
  destruct (analyze_video_body current_user_id video_path w1) as [w2 outcome] eqn:Hbody.
  destruct (cleanup_spec video_path w2 Hne) as (_ & _ & Hout & Hgone & Hstays).
  assert (Hrun : ∃ resp,
             analyze_video current_user_id req uuid_hex w = (cleanup video_path w2, resp)
             ∧ (∀ r, outcome = Ok r → resp = r)
             ∧ (∀ e, outcome = Raise e → status_of resp = 500)).
  { unfold analyze_video, catching. rewrite Hfile.
    destruct (filename video_file) as [|c name]; [congruence|].
    unfold mbind at 1, io_bind. rewrite Hsave.
    unfold try_finally. rewrite Hbody.
    destruct outcome as [r|e]; eexists; (split; [reflexivity|]);
      split; intros ? Heq; inversion Heq; subst; reflexivity. }
  destruct Hrun as (resp & Hresp & Hok & Herr).
  exists w2, outcome, resp.
  split; [reflexivity|]. split; [exact Hresp|].
  split; [exact Hok|]. split; [exact Herr|].
  split; [|split; assumption].
  intros Hnot. rewrite (Hout Hnot). exact Hnot.
Qed.

End AnalyzeVideo.

(** *** An upload, on a quiet disk and on a disk that keeps the file locked *)

Definition demo_path : str := lit "uploads/videos/3f2a9c.mp4".

Definition demo_service (video_path : str) : io (value * value * value) :=
  mret (VDict {["overall_score" := VInt 80]},
        VStr (lit "uploads/videos/Analysis_Report_3f2a9c.docx"), VNone).
Definition demo_create (user_id analysis_type : str) (data report_path : value) : io doc :=
  mret {["_id" := VStr (lit "65f0c0ffee0000000000abcd")]}.
Definition demo_increment (user_id : str) : io bool := mret true.
Definition demo_summary (results : value) : io value :=
  mret (VStr (lit "Overall Communication Score: 80/100")).
(** A service that raises in the middle of the processing. *)
Definition failing_summary (results : value) : io value := raise (Exception "AttributeError").

Definition demo_request : request :=
  {| request_files := {["video" := {| filename := lit "Talk.MP4" |}]} |}.

Definition disk (script : list remove_outcome) : world :=
  {| fs := {| files := ∅; remove_script := script |}; users := []; analyses := [] |}.

(** The view with the directory ["uploads"], file names that need no
    cleaning, and the identifier ["3f2a9c"] drawn for the upload. *)
Definition demo_view (summary : value → io value) : world → world * response :=
  analyze_video ascii_lower (fun name => name) (lit "uploads") demo_service demo_create
    demo_increment summary (lit "u1") demo_request (lit "3f2a9c").

Example demo_save_upload :
  (save_upload ascii_lower (fun name => name) (lit "uploads")
     {| filename := lit "Talk.MP4" |} (lit "videos") (lit "3f2a9c") (disk [])).2
  = Ok (inl demo_path)
  ∧ (save_upload ascii_lower (fun name => name) (lit "uploads")
       {| filename := lit "notes.txt" |} (lit "videos") (lit "3f2a9c") (disk [])).2
    = Ok (inr (lit "Invalid file type")).
Proof. split; vm_compute; reflexivity. Qed.

Example demo_analyze_video_cleans_up :
  let after := demo_view demo_summary (disk [Locked; Locked; Removes]) in
  status_of after.2 = 200 ∧ exists_ demo_path (fs after.1) = false.
Proof. split; vm_compute; reflexivity. Qed.

Example demo_analyze_video_error_path_cleans_up :
  let after := demo_view failing_summary (disk []) in
  status_of after.2 = 500 ∧ exists_ demo_path (fs after.1) = false.
Proof. split; vm_compute; reflexivity. Qed.

Lemma uploaded_video_cleanup_witness :
  demo_path ∈ files (fs (save_upload ascii_lower (fun name => name) (lit "uploads")
                           {| filename := lit "Talk.MP4" |} (lit "videos") (lit "3f2a9c")
                           (disk [Locked; Removes])).1).
Proof.
  refine (proj1 (uploaded_video_cleanup_runs_on_every_path ascii_lower (fun name => name)
                   (lit "uploads") demo_service demo_create demo_increment demo_summary
                   (lit "u1") demo_request (lit "3f2a9c") (disk [Locked; Removes])
                   _ {| filename := lit "Talk.MP4" |} demo_path _ _)).
  - reflexivity.
  - vm_compute. reflexivity.
Defined.

(** The file stays locked during the five attempts: the request succeeds
    and the uploaded video is still in the upload directory afterwards. *)
Lemma uploaded_video_survives_a_locked_file :
  let after := demo_view demo_summary (disk [Locked; Locked; Locked; Locked; Locked]) in
  status_of after.2 = 200
  ∧ exists_ demo_path (fs after.1) = true
  ∧ demo_path ∈ files (fs after.1).
Proof.
  assert (Hexists : exists_ demo_path
            (fs (demo_view demo_summary (disk [Locked; Locked; Locked; Locked; Locked])).1)
            = true)
    by (vm_compute; reflexivity).
  split; [vm_compute; reflexivity|]. split; [exact Hexists|].
  unfold exists_ in Hexists. apply bool_decide_eq_true in Hexists. exact Hexists.
Qed.

(** [download_report(current_user_id, analysis_id)], the view behind
    GET /api/analysis/report/<analysis_id>; [send_file] is taken to succeed. *)
Definition download_report (current_user_id analysis_id : str) (w : world) : response :=
  let attempt : Py.result response :=
    match AnalysisModel.get_analysis_by_id analysis_id (analyses w) with
    | None => Ok (error_response "Analysis not found" 404)
    | Some analysis =>
        if negb (truthy (VDict analysis)) then Ok (error_response "Analysis not found" 404)
        else
          match analysis !! "user_id" with
          | None => Raise (KeyError "user_id")
          | Some user_id =>
              if negb (is_str user_id current_user_id)
              then Ok (error_response "Unauthorized access" 403)
              else
                match analysis !! "report_path" with
                | Some (VStr report_path) =>
                    if negb (truthy (VStr report_path))
                       || negb (exists_ report_path (fs w))
                    then Ok (error_response "Report not found" 404)
                    else Ok (SendFile report_path)
                | Some other =>
                    if truthy other then Raise TypeError
                    else Ok (error_response "Report not found" 404)
                | None => Ok (error_response "Report not found" 404)
                end
          end
    end in
  match attempt with
  | Ok r => r
  | Raise e => Json {["error" := VStr (lit "Download failed: " ++ lit (exn_str e))]} 500
  end.

(** [delete_analysis(current_user_id, analysis_id)], the view behind
    DELETE /api/analysis/<analysis_id>. *)
Definition delete_analysis (current_user_id analysis_id : str) : world → world * response :=
  catching "Deletion failed: "
    (fun w =>
       match AnalysisModel.get_analysis_by_id analysis_id (analyses w) with
       | None => (w, Ok (error_response "Analysis not found or unauthorized" 404))
       | Some analysis =>
           match analysis !! "user_id" with
           | None =>
               if truthy (VDict analysis) then (w, Raise (KeyError "user_id"))
               else (w, Ok (error_response "Analysis not found or unauthorized" 404))
           | Some user_id =>
               if truthy (VDict analysis) && is_str user_id current_user_id then
                 let removed : Py.result filesystem :=
                   match analysis !! "report_path" with
                   | Some (VStr report_path) =>
                       if truthy (VStr report_path)
                       then Ok (fst (delete_file report_path (fs w)))
                       else Ok (fs w)
                   | Some other => if truthy other then Raise TypeError else Ok (fs w)
                   | None => Ok (fs w)
                   end in
                 match removed with
                 | Raise e => (w, Raise e)
                 | Ok fs' =>
                     let '(analyses', success) :=
                       AnalysisModel.delete_analysis analysis_id current_user_id
                         (analyses w) in
                     ({| fs := fs'; users := users w; analyses := analyses' |},
                      Ok (if success
                          then message_response "Analysis deleted successfully" 200
                          else error_response "Deletion failed" 400))
                 end
               else (w, Ok (error_response "Analysis not found or unauthorized" 404))
           end
       end).

(** *** Ownership *)

(** The owner recorded in an analysis document. *)
Definition owner (analysis : doc) : option value := analysis !! "user_id".

Lemma serialize_analysis_fields (analysis serialized : doc) (k : string) :
  AnalysisModel._serialize_analysis analysis = Some serialized →
  k ≠ "_id" → serialized !! k = analysis !! k.
Proof.
  unfold AnalysisModel._serialize_analysis.
  destruct (negb (truthy (VDict analysis))); [discriminate|].
  destruct (analysis !! "_id"); [|discriminate].
  intros H Hk. injection H as <-. by rewrite lookup_insert_ne.
Qed.

(** What [get_analysis_by_id] returns is the serialized form of a stored
    document with the identifier asked for. *)
Lemma get_analysis_by_id_Some (analysis_id : str) (collection : list doc) (found : doc) :
  AnalysisModel.get_analysis_by_id analysis_id collection = Some found →
  ∃ oid stored,
    ObjectId analysis_id = Ok oid
    ∧ stored ∈ collection
    ∧ field_is_oid "_id" oid stored = true
    ∧ owner found = owner stored
    ∧ found !! "report_path" = stored !! "report_path".
Proof.
  unfold AnalysisModel.get_analysis_by_id.
  destruct (ObjectId analysis_id) as [oid|e]; [|discriminate].
  destruct (find_one (field_is_oid "_id" oid) collection) as [stored|] eqn:Hfind;
    [|discriminate].
  apply find_one_Some in Hfind as [Hin Hq].
  intros Hser. exists oid, stored.
  split; [reflexivity|]. split; [exact Hin|]. split; [exact Hq|].
  unfold owner.
  split; apply (serialize_analysis_fields _ _ _ Hser); discriminate.
Qed.

Lemma truthy_of_lookup (d : doc) (k : string) (v : value) :
  d !! k = Some v → truthy (VDict d) = true.
Proof.
  intros Hk. simpl. rewrite bool_decide_eq_false_2; [reflexivity|].
  intros Hdom. apply elem_of_dom_2 in Hk. rewrite Hdom in Hk. set_solver.
Qed.

Lemma owned_by_owner (oid : N) (user_id : str) (d : doc) :
  AnalysisModel.owned_by oid user_id d = true →
  field_is_oid "_id" oid d = true ∧ owner d = Some (VStr user_id).
Proof.
  unfold AnalysisModel.owned_by, field_is_str, owner.
  rewrite andb_true_iff. intros [Hid Huser]. split; [exact Hid|].
  destruct (d !! "user_id") as [v|]; [|discriminate].
  apply is_str_eq in Huser. congruence.
Qed.

(** The model-level deletion removes nothing, or one document with the
    identifier asked for and owned by [user_id]. *)
Lemma model_delete_analysis_spec (analysis_id user_id : str) (collection left_ : list doc)
    (success : bool) :
  AnalysisModel.delete_analysis analysis_id user_id collection = (left_, success) →
  (success = false ∧ left_ = collection)
  ∨ (success = true ∧ ∃ oid before d after,
       ObjectId analysis_id = Ok oid
       ∧ collection = before ++ d :: after
       ∧ left_ = before ++ after
       ∧ field_is_oid "_id" oid d = true
       ∧ owner d = Some (VStr user_id)).
Proof.
  unfold AnalysisModel.delete_analysis.
  destruct (ObjectId analysis_id) as [oid|e].
  - destruct (delete_one (AnalysisModel.owned_by oid user_id) collection)
      as [c n] eqn:Hdel.
    intros H. injection H as <- <-.
    destruct (delete_one_spec _ _ _ _ Hdel)
      as [[-> ->]|[-> (before & d & after & -> & -> & Hq)]].
    + left. auto.
    + right. split; [reflexivity|].
      apply owned_by_owner in Hq as [Hid Hown].
      exists oid, before, d, after. auto.
  - intros H. injection H as <- <-. left. auto.
Qed.

(** The view changes the collection only through the model-level deletion,
    and answers 200 only when that deletion succeeded. *)
Lemma delete_analysis_view_cases (current_user_id analysis_id : str) (w w' : world)
    (resp : response) :
  delete_analysis current_user_id analysis_id w = (w', resp) →
  users w' = users w
  ∧ ((analyses w' = analyses w ∧ status_of resp ≠ 200)
     ∨ (AnalysisModel.delete_analysis analysis_id current_user_id (analyses w)
        = (analyses w', true) ∧ status_of resp = 200)).
Proof.
  unfold delete_analysis, catching.
  destruct (AnalysisModel.get_analysis_by_id analysis_id (analyses w)) as [analysis|];
    [|intros H; injection H as <- <-; split; [reflexivity|left; done]].
  destruct (analysis !! "user_id") as [user_id|].
  2:{ destruct (truthy (VDict analysis)); intros H; injection H as <- <-;
        (split; [reflexivity|left; done]). }
  destruct (truthy (VDict analysis) && is_str user_id current_user_id);
    [|intros H; injection H as <- <-; split; [reflexivity|left; done]].
  match goal with
  | |- context [match ?removed with Ok _ => _ | Raise _ => _ end] =>
      destruct removed as [fs'|e]
  end.
  2:{ intros H; injection H as <- <-. split; [reflexivity|left; done]. }
  destruct (AnalysisModel.delete_analysis analysis_id current_user_id (analyses w))
    as [analyses' success] eqn:Hdel.
  intros H. injection H as <- <-. cbn [users analyses].
  split; [reflexivity|].
  destruct success; [right; done|].
  left. destruct (model_delete_analysis_spec _ _ _ _ _ Hdel) as [[_ ->]|[? _]]; done.
Qed.

(** C10. The report of an analysis is sent only to the user recorded as its
    owner, and another user is answered 403; the delete view removes at most
    one document, which carries the identifier asked for and is owned by the
    requester, so that the documents of other users all remain. *)
Theorem analyses_of_other_users_are_neither_sent_nor_deleted
    (current_user_id analysis_id : str) (w : world) :
  (∀ path, download_report current_user_id analysis_id w = SendFile path →
     ∃ oid stored,
       ObjectId analysis_id = Ok oid ∧ stored ∈ analyses w
       ∧ field_is_oid "_id" oid stored = true
       ∧ owner stored = Some (VStr current_user_id)
       ∧ stored !! "report_path" = Some (VStr path))
  ∧ (∀ found other,
       AnalysisModel.get_analysis_by_id analysis_id (analyses w) = Some found →
       owner found = Some other → other ≠ VStr current_user_id →
       download_report current_user_id analysis_id w
       = error_response "Unauthorized access" 403)
  ∧ (∀ w' resp,
       delete_analysis current_user_id analysis_id w = (w', resp) →
       users w' = users w
       ∧ (∀ d, d ∈ analyses w → owner d ≠ Some (VStr current_user_id) →
               d ∈ analyses w')
       ∧ (analyses w' = analyses w
          ∨ ∃ oid before d after,
              ObjectId analysis_id = Ok oid
              ∧ analyses w = before ++ d :: after
              ∧ analyses w' = before ++ after
              ∧ field_is_oid "_id" oid d = true
              ∧ owner d = Some (VStr current_user_id))
       ∧ (status_of resp = 200 → length (analyses w) = S (length (analyses w')))).
Proof.
  split; [|split].
  - intros path. unfold download_report.
    destruct (AnalysisModel.get_analysis_by_id analysis_id (analyses w))
      as [found|] eqn:Hget; [|discriminate].
    destruct (get_analysis_by_id_Some _ _ _ Hget)
      as (oid & stored & Hoid & Hin & Hid & Hown & Hpath).
    destruct (negb (truthy (VDict found))); [discriminate|].
    unfold owner in Hown.
    destruct (found !! "user_id") as [user_id|] eqn:Huser; [|discriminate].
    destruct (is_str user_id current_user_id) eqn:Hstr; [|discriminate].
    apply is_str_eq in Hstr. subst user_id. cbn [negb].
    destruct (found !! "report_path") as [[|b|z|f|report_path|b|l|d|o|t]|] eqn:Hrep;
      try discriminate;
      try (match goal with
           | |- context [if ?c then _ else _] => destruct c; discriminate
           end).
    destruct (negb (truthy (VStr report_path)) || negb (exists_ report_path (fs w)));
      [discriminate|].
    intros H. injection H as <-.
    exists oid, stored. unfold owner. rewrite <- Hown, <- Hpath. auto.
  - intros found other Hget Hown Hother. unfold download_report. rewrite Hget.
    unfold owner in Hown.
    rewrite (truthy_of_lookup _ _ _ Hown), Hown. cbn [negb].
    destruct (is_str other current_user_id) eqn:Hstr; [|reflexivity].
    apply is_str_eq in Hstr. contradiction.
  - intros w' resp Hview.
    destruct (delete_analysis_view_cases _ _ _ _ _ Hview) as [Husers Hcases].
    split; [exact Husers|].
    destruct Hcases as [[Hsame Hstatus]|[Hdel Hstatus]].
    + rewrite Hsame. split; [auto|]. split; [left; reflexivity|].
      intros H200. contradiction.
    + destruct (model_delete_analysis_spec _ _ _ _ _ Hdel)
        as [[Hf _]|[_ (oid & before & d & after & Hoid & Hc & Hc' & Hid & Hown)]];
        [discriminate|].
      rewrite Hc, Hc'. split; [|split].
      * intros x Hx Hnot. rewrite elem_of_app, elem_of_cons in Hx.
        rewrite elem_of_app.
        destruct Hx as [Hx|[->|Hx]]; [left; exact Hx|contradiction|right; exact Hx].
      * right. exists oid, before, d, after. auto.
      * intros _. rewrite !length_app. simpl. lia.
Qed.

(** *** Two users, one analysis each *)

Definition alice : str := lit "aaaaaaaaaaaaaaaaaaaaaaaa".
Definition bob : str := lit "bbbbbbbbbbbbbbbbbbbbbbbb".
Definition report_of_alice : str := lit "uploads/videos/Analysis_Report_a1.docx".
Definition report_of_bob : str := lit "uploads/videos/Analysis_Report_b1.docx".

Definition two_analyses : world :=
  let c1 := (AnalysisModel.create_analysis alice (lit "video") VNone
               (VStr report_of_alice) 1000 1 []).1 in
  let c2 := (AnalysisModel.create_analysis bob (lit "video") VNone
               (VStr report_of_bob) 2000 2 c1).1 in
  {| fs := {| files := {[report_of_alice; report_of_bob]}; remove_script := [] |};
     users := [];
     analyses := c2 |}.

(** The identifiers 1 and 2 in the URL. *)
Definition id_1 : str := lit "000000000000000000000001".
Definition id_2 : str := lit "000000000000000000000002".

Example demo_download_report :
  download_report alice id_1 two_analyses = SendFile report_of_alice
  ∧ download_report alice id_2 two_analyses = error_response "Unauthorized access" 403
  ∧ download_report alice (lit "no-such-id") two_analyses
    = error_response "Analysis not found" 404.
Proof. repeat split; vm_compute; reflexivity. Qed.

Example demo_delete_analysis :
  status_of (delete_analysis alice id_2 two_analyses).2 = 404
  ∧ length (analyses (delete_analysis alice id_2 two_analyses).1) = 2%nat
  ∧ status_of (delete_analysis bob id_2 two_analyses).2 = 200
  ∧ length (analyses (delete_analysis bob id_2 two_analyses).1) = 1%nat
  ∧ exists_ report_of_bob (fs (delete_analysis bob id_2 two_analyses).1) = false
  ∧ exists_ report_of_alice (fs (delete_analysis bob id_2 two_analyses).1) = true.
Proof. repeat split; vm_compute; reflexivity. Qed.

Lemma ownership_witness :
  ∃ oid stored,
    ObjectId id_1 = Ok oid ∧ stored ∈ analyses two_analyses
    ∧ field_is_oid "_id" oid stored = true
    ∧ owner stored = Some (VStr alice)
    ∧ stored !! "report_path" = Some (VStr report_of_alice).
Proof.
  apply (proj1 (analyses_of_other_users_are_neither_sent_nor_deleted alice id_1
                  two_analyses) report_of_alice).
  vm_compute. reflexivity.
Defined.

End AnalysisRoutes.

(* --------------------------------------------------------------------- *)
(** ** models/user.py *)
(* --------------------------------------------------------------------- *)

Module UserModel.
Import Mongo.

(** [_serialize_user]: the identifier becomes a string and the password is
    removed. *)
Definition _serialize_user (user : doc) : option doc :=
  if negb (truthy (VDict user)) then None
  else
    match user !! "_id" with
    | Some id => Some (delete "password" (<["_id" := VStr (str_of id)]> user))
    | None => None
    end.

Section CreateUser.

(** [str.lower], the Unicode case mapping of the interpreter. *)
Variable lower : str → str.

(** [create_user(email, password, full_name)]; [hashed_password] is what
    [bcrypt.hashpw(password.encode('utf-8'), bcrypt.gensalt())] returns, [now]
    the current time and [inserted_id] the identifier the driver generates. *)
Definition create_user (email full_name : str) (hashed_password : list N) (now : Z)
    (inserted_id : N) (collection : list doc) : list doc * (option doc * option str) :=
  match find_one (field_is_str "email" (lower email)) collection with
  | Some _ => (collection, (None, Some (lit "User already exists")))
  | None =>
      let user_data : doc :=
        <["email" := VStr (lower email)]>
        (<["password" := VBytes hashed_password]>
        (<["full_name" := VStr full_name]>
        (<["created_at" := VDatetime now]>
        (<["updated_at" := VDatetime now]>
        (<["profile" :=
             VDict (<["phone" := VStr []]>
                   (<["linkedin" := VStr []]>
                   (<["location" := VStr []]> ∅)))]>
        (<["subscription" :=
             VDict (<["plan" := VStr (lit "free")]>
                   (<["analyses_used" := VInt 0]>
                   (<["analyses_limit" := VInt 5]> ∅)))]> ∅)))))) in
      (insert_one user_data inserted_id collection,
       (_serialize_user (<["_id" := VObjectId inserted_id]> user_data), None))
  end.

End CreateUser.

(** [get_user_by_id(user_id)] *)
Definition get_user_by_id (user_id : str) (collection : list doc) : option doc :=
  match ObjectId user_id with
  | Ok oid =>
      match find_one (field_is_oid "_id" oid) collection with
      | Some user => _serialize_user user
      | None => None
      end
  | Raise _ => None
  end.

(** [update_user(user_id, update_data)] at time [now]. *)
Definition update_user (user_id : str) (update_data : doc) (now : Z)
    (collection : list doc) : list doc * option doc :=
  let update_data := <["updated_at" := VDatetime now]> update_data in
  match ObjectId user_id with
  | Ok oid =>
      let collection :=
        update_one (field_is_oid "_id" oid) (set_fields update_data) collection in
      (collection, get_user_by_id user_id collection)
  | Raise _ => (collection, None)
  end.

(** [{'$inc': {'subscription.analyses_used': 1}}]; a document on which the
    path cannot be incremented is left as it is (the driver raises). *)
Definition inc_analyses_used (d : doc) : doc :=
  match d !! "subscription" with
  | Some (VDict subscription) =>
      match subscription !! "analyses_used" with
      | Some (VInt used) =>
          <["subscription" := VDict (<["analyses_used" := VInt (used + 1)]> subscription)]> d
      | None =>
          <["subscription" := VDict (<["analyses_used" := VInt 1]> subscription)]> d
      | Some _ => d
      end
  | None => <["subscription" := VDict {["analyses_used" := VInt 1]}]> d
  | Some _ => d
  end.

(** [increment_analyses_count(user_id)] *)
Definition increment_analyses_count (user_id : str) (collection : list doc) : list doc :=
  match ObjectId user_id with
  | Ok oid => update_one (field_is_oid "_id" oid) inc_analyses_used collection
  | Raise _ => collection
  end.

End UserModel.

(* --------------------------------------------------------------------- *)
(** ** routes/auth.py *)
(* --------------------------------------------------------------------- *)

Module AuthRoutes.
Import Mongo FileHandler.

(** A result computed without touching the state. *)
Definition lift {A : Type} (r : Py.result A) : io A := fun w => (w, r).

(** [key in data] on a JSON body. *)
Definition contains_key (data : value) (key : string) : Py.result bool :=
  match data with
  | VDict d => Ok (has_key d key)
  | VStr s => Ok (contains s (lit key))
  | VList l => Ok (existsb (fun v => is_str v (lit key)) l)
  | _ => Raise TypeError
  end.

(** [data[key]] *)
Definition getitem (data : value) (key : string) : Py.result value :=
  match data with
  | VDict d =>
      match d !! key with
      | Some v => Ok v
      | None => Raise (KeyError key)
      end
  | _ => Raise TypeError
  end.

(** [len(v)] *)
Definition len (v : value) : Py.result Z :=
  match v with
  | VStr s => Ok (Z.of_nat (length s))
  | VBytes b => Ok (Z.of_nat (length b))
  | VList l => Ok (Z.of_nat (length l))
  | VDict d => Ok (Z.of_nat (size d))
  | _ => Raise TypeError
  end.

(** [user.get('password_hash', '')], as the argument of
    [check_password_hash], which calls string methods on it. *)
Definition stored_password_hash (user : doc) : Py.result str :=
  match user !! "password_hash" with
  | None => Ok []
  | Some (VStr pwhash) => Ok pwhash
  | Some _ => Raise (Exception "AttributeError")
  end.

(** The query [{'_id': user['_id']}]. *)
Definition by_id_of (user : doc) : Py.result (doc → bool) :=
  match user !! "_id" with
  | Some (VStr s) => Ok (field_is_str "_id" s)
  | Some (VObjectId oid) => Ok (field_is_oid "_id" oid)
  | Some _ => Ok (fun _ => false)
  | None => Raise (KeyError "_id")
  end.

(** [allowed_fields = ['full_name', 'profile']] and the comprehension that
    keeps the allowed entries of the body of [update_profile]. *)
Definition allowed_fields : list string := ["full_name"; "profile"].
Definition allowed_entries (data : doc) : doc :=
  filter (fun kv : string * value => kv.1 ∈ allowed_fields) data.

Section Werkzeug.

(** [werkzeug.security]: the comparison of a well-formed hash with a
    password, and [generate_password_hash]. *)
Variable hash_matches : str → value → bool.
Variable generate_password_hash : value → Py.result str.

(** [check_password_hash(pwhash, password)]: a hash that does not have its
    three [$]-separated parts is rejected before any hashing. *)
Definition check_password_hash (pwhash : str) (password : value) : bool :=
  if Py.count pwhash (lit "$") <? 2 then false
  else hash_matches pwhash password.

(** [change_password(current_user_id)], the view behind
    POST /api/auth/change-password; [data] is [request.get_json()]. *)
Definition change_password (current_user_id : str) (data : value)
  : world → world * response :=
  catching "Password change failed: "
    (has_current ← lift (contains_key data "current_password");
     has_new ← lift (if has_current then contains_key data "new_password" else Ok false);
     if negb (has_current && has_new)
     then mret (error_response "Current password and new password required" 400)
     else
       current_password ← lift (getitem data "current_password");
       new_password ← lift (getitem data "new_password");
       n ← lift (len new_password);
       if n <? 6
       then mret (error_response "New password must be at least 6 characters" 400)
       else
         user ← reads (fun w => UserModel.get_user_by_id current_user_id (users w));
         match user with
         | None => mret (error_response "User not found" 404)
         | Some user =>
             pwhash ← lift (stored_password_hash user);
             if negb (check_password_hash pwhash current_password)
             then mret (error_response "Current password is incorrect" 401)
             else
               new_password_hash ← lift (generate_password_hash new_password);
               query ← lift (by_id_of user);
               _ ← modify (fun w =>
                      {| fs := fs w;
                         users :=
                           update_one query
                             (set_fields {["password_hash" := VStr new_password_hash]})
                             (users w);
                         analyses := analyses w |});
               mret (message_response "Password changed successfully" 200)
         end).

(** The removal of the profile photo in [delete_account]. *)
Definition delete_profile_photo (user : doc) : io unit :=
  match default (VDict ∅) (user !! "profile") with
  | VDict profile =>
      match profile !! "profile_photo" with
      | Some (VStr photo_path) =>
          if truthy (VStr photo_path) && startswith photo_path (lit "/uploads/")
          then
            let full_path := drop 1 photo_path in
            modify (fun w =>
              if exists_ full_path (fs w)
              then {| fs := fst (os_remove full_path (fs w));
                      users := users w; analyses := analyses w |}
              else w)
          else mret ()
      | Some other =>
          if truthy other then raise (Exception "AttributeError") else mret ()
      | None => mret ()
      end
  | _ => raise (Exception "AttributeError")
  end.

(** [delete_account(current_user_id)], the view behind
    DELETE /api/auth/delete-account. *)
Definition delete_account (current_user_id : str) (data : value)
  : world → world * response :=
  catching "Account deletion failed: "
    (let data := if truthy data then data else VDict ∅ in
     has_password ← lift (contains_key data "password");
     if negb has_password
     then mret (error_response "Password confirmation required" 400)
     else
       password ← lift (getitem data "password");
       user ← reads (fun w => UserModel.get_user_by_id current_user_id (users w));
       match user with
       | None => mret (error_response "User not found" 404)
       | Some user =>
           pwhash ← lift (stored_password_hash user);
           if negb (check_password_hash pwhash password)
           then mret (error_response "Incorrect password" 401)
           else
             _ ← delete_profile_photo user;
             _ ← modify (fun w =>
                    {| fs := fs w;
                       users := users w;
                       analyses :=
                         fst (delete_many (field_is_str "user_id" current_user_id)
                                (analyses w)) |});
             query ← lift (by_id_of user);
             deleted_count ← reads (fun w => snd (delete_one query (users w)));
             _ ← modify (fun w =>
                    {| fs := fs w;
                       users := fst (delete_one query (users w));
                       analyses := analyses w |});
             if deleted_count =? 0
             then mret (error_response "Failed to delete account" 500)
             else mret (message_response "Account deleted successfully" 200)
       end).

(** The update of [clear_user_data]:
    [{'$set': {'subscription.analyses_used': 0}}] on [{'_id': current_user_id}]. *)
Definition reset_analyses_used (d : doc) : doc :=
  match d !! "subscription" with
  | Some (VDict subscription) =>
      <["subscription" := VDict (<["analyses_used" := VInt 0]> subscription)]> d
  | None => <["subscription" := VDict {["analyses_used" := VInt 0]}]> d
  | Some _ => d
  end.

(** *** The states the application reaches *)

(** One write of the application to the [users] collection, or any change
    that leaves the collection alone.  The writes are those of [register]
    ([create_user]), [update_profile] and [upload_profile_photo]
    ([update_user] on the allowed fields, the profile possibly edited in
    place), the analysis views ([increment_analyses_count]),
    [clear_user_data], and the two views under study. *)
Inductive step (lower : str → str) : world → world → Prop :=
| step_register email full_name hashed_password now inserted_id w :
    step lower w
      {| fs := fs w;
         users := fst (UserModel.create_user lower email full_name hashed_password now
                         inserted_id (users w));
         analyses := analyses w |}
| step_update_profile user_id data (edit_profile : value → value) now w :
    step lower w
      {| fs := fs w;
         users := fst (UserModel.update_user user_id
                         (alter edit_profile "profile" (allowed_entries data)) now
                         (users w));
         analyses := analyses w |}
| step_upload_photo user_id current_profile now w :
    step lower w
      {| fs := fs w;
         users := fst (UserModel.update_user user_id {["profile" := current_profile]} now
                         (users w));
         analyses := analyses w |}
| step_increment user_id w :
    step lower w
      {| fs := fs w;
         users := UserModel.increment_analyses_count user_id (users w);
         analyses := analyses w |}
| step_clear_data current_user_id w :
    step lower w
      {| fs := fs w;
         users := update_one (field_is_str "_id" current_user_id) reset_analyses_used
                    (users w);
         analyses := analyses w |}
| step_change_password current_user_id data w :
    step lower w (change_password current_user_id data w).1
| step_delete_account current_user_id data w :
    step lower w (delete_account current_user_id data w).1
| step_elsewhere w w' :
    users w' = users w → step lower w w'.

(** The states reached from an empty [users] collection. *)
Inductive reachable (lower : str → str) : world → Prop :=
| reachable_init w : users w = [] → reachable lower w
| reachable_step w w' : reachable lower w → step lower w w' → reachable lower w'.

(** No stored user document has a [password_hash] field. *)
Definition no_password_hash (w : world) : Prop :=
  Forall (fun d : doc => d !! "password_hash" = None) (users w).

(** *** The collection never holds a [password_hash] *)

Lemma update_one_Forall (P : doc → Prop) (query : doc → bool) (update : doc → doc)
    (collection : list doc) :
  (∀ d, P d → P (update d)) →
  Forall P collection → Forall P (update_one query update collection).
Proof.
  intros Hupd. induction 1 as [|d rest Hd Hrest IH]; simpl; [constructor|].
  destruct (query d); constructor; auto.
Qed.

Lemma set_fields_no_hash (fields d : doc) :
  fields !! "password_hash" = None → d !! "password_hash" = None →
  set_fields fields d !! "password_hash" = None.
Proof.
  intros Hf Hd. unfold set_fields. apply lookup_union_None. auto.
Qed.

Lemma allowed_entries_no_hash (data : doc) (edit_profile : value → value) (now : Z) :
  (<["updated_at" := VDatetime now]> (alter edit_profile "profile" (allowed_entries data)))
    !! "password_hash" = None.
Proof.
  rewrite lookup_insert_ne by discriminate.
  rewrite lookup_alter_ne by discriminate.
  unfold allowed_entries. apply map_lookup_filter_None. right.
  intros v _ Hin. simpl in Hin. unfold allowed_fields in Hin.
  set_solver.
Qed.

Lemma inc_analyses_used_no_hash (d : doc) :
  d !! "password_hash" = None → UserModel.inc_analyses_used d !! "password_hash" = None.
Proof.
  intros Hd. unfold UserModel.inc_analyses_used.
  destruct (d !! "subscription") as [[|b|z|f|s|b|l|sub|o|t]|]; try exact Hd.
  - destruct (sub !! "analyses_used") as [[|b|z|f|s|b|l|sub'|o|t]|]; try exact Hd;
      by rewrite lookup_insert_ne.
  - by rewrite lookup_insert_ne.
Qed.

Lemma reset_analyses_used_no_hash (d : doc) :
  d !! "password_hash" = None → reset_analyses_used d !! "password_hash" = None.
Proof.
  intros Hd. unfold reset_analyses_used.
  destruct (d !! "subscription") as [[|b|z|f|s|b|l|sub|o|t]|]; try exact Hd;
    by rewrite lookup_insert_ne.
Qed.

Lemma update_user_no_hash (user_id : str) (update_data : doc) (now : Z)
    (collection : list doc) :
  (<["updated_at" := VDatetime now]> update_data) !! "password_hash" = None →
  Forall (fun d : doc => d !! "password_hash" = None) collection →
  Forall (fun d : doc => d !! "password_hash" = None)
    (UserModel.update_user user_id update_data now collection).1.
Proof.
  intros Hfields Hall. unfold UserModel.update_user.
  destruct (ObjectId user_id) as [oid|e]; [|exact Hall]. simpl.
  apply update_one_Forall; [|exact Hall].
  intros d Hd. apply set_fields_no_hash; assumption.
Qed.

Lemma create_user_no_hash (lower : str → str) (email full_name : str)
    (hashed_password : list N) (now : Z) (inserted_id : N) (collection : list doc) :
  Forall (fun d : doc => d !! "password_hash" = None) collection →
  Forall (fun d : doc => d !! "password_hash" = None)
    (UserModel.create_user lower email full_name hashed_password now inserted_id
       collection).1.
Proof.
  intros Hall. unfold UserModel.create_user.
  destruct (find_one _ collection); [exact Hall|]. simpl.
  unfold insert_one. apply Forall_app. split; [exact Hall|].
  constructor; [|constructor].
  rewrite !lookup_insert_ne by discriminate. apply lookup_empty.
Qed.

(** A user read back from a collection without [password_hash] has none,
    and the hash handed to the verification is the empty string. *)
Lemma get_user_by_id_no_hash (user_id : str) (collection : list doc) (user : doc) :
  Forall (fun d : doc => d !! "password_hash" = None) collection →
  UserModel.get_user_by_id user_id collection = Some user →
  stored_password_hash user = Ok [].
Proof.
  intros Hall. unfold UserModel.get_user_by_id.
  destruct (ObjectId user_id) as [oid|e]; [|discriminate].
  destruct (find_one (field_is_oid "_id" oid) collection) as [stored|] eqn:Hfind;
    [|discriminate].
  apply find_one_Some in Hfind as [Hin _].
  rewrite Forall_forall in Hall. specialize (Hall _ Hin).
  unfold UserModel._serialize_user.
  destruct (negb (truthy (VDict stored))); [discriminate|].
  destruct (stored !! "_id") as [id|]; [|discriminate].
  intros H. injection H as <-. unfold stored_password_hash.
  rewrite lookup_delete_ne, lookup_insert_ne, Hall by discriminate. reflexivity.
Qed.

Lemma check_password_hash_empty (password : value) :
  check_password_hash [] password = false.
Proof. reflexivity. Qed.

(** Without a stored [password_hash], [change_password] changes nothing and
    does not answer 200. *)
Lemma change_password_rejected (current_user_id : str) (data : value) (w : world) :
  no_password_hash w →
  ∃ resp, change_password current_user_id data w = (w, resp) ∧ status_of resp ≠ 200.
Proof.
  intros Hinv. unfold change_password, catching.
  unfold mbind, io_bind, lift, reads, mret, io_ret.
  destruct (contains_key data "current_password") as [has_current|e];
    [|eexists; split; [reflexivity|discriminate]].
  destruct (if has_current then contains_key data "new_password" else Ok false)
    as [has_new|e]; [|eexists; split; [reflexivity|discriminate]].
  destruct (negb (has_current && has_new));
    [eexists; split; [reflexivity|discriminate]|].
  destruct (getitem data "current_password") as [current_password|e];
    [|eexists; split; [reflexivity|discriminate]].
  destruct (getitem data "new_password") as [new_password|e];
    [|eexists; split; [reflexivity|discriminate]].
  destruct (len new_password) as [n|e];
    [|eexists; split; [reflexivity|discriminate]].
  destruct (n <? 6); [eexists; split; [reflexivity|discriminate]|].
  destruct (UserModel.get_user_by_id current_user_id (users w)) as [user|] eqn:Hget;
    [|eexists; split; [reflexivity|discriminate]].
  rewrite (get_user_by_id_no_hash _ _ _ Hinv Hget), check_password_hash_empty.
  eexists; split; [reflexivity|discriminate].
Qed.

(** Without a stored [password_hash], [delete_account] changes nothing and
    does not answer 200. *)
Lemma delete_account_rejected (current_user_id : str) (data : value) (w : world) :
  no_password_hash w →
  ∃ resp, delete_account current_user_id data w = (w, resp) ∧ status_of resp ≠ 200.
Proof.
  intros Hinv. unfold delete_account, catching.
  unfold mbind, io_bind, lift, reads, mret, io_ret.
  destruct (contains_key (if truthy data then data else VDict ∅) "password")
    as [has_password|e]; [|eexists; split; [reflexivity|discriminate]].
  destruct (negb has_password); [eexists; split; [reflexivity|discriminate]|].
  destruct (getitem (if truthy data then data else VDict ∅) "password")
    as [password|e]; [|eexists; split; [reflexivity|discriminate]].
  destruct (UserModel.get_user_by_id current_user_id (users w)) as [user|] eqn:Hget;
    [|eexists; split; [reflexivity|discriminate]].
  rewrite (get_user_by_id_no_hash _ _ _ Hinv Hget), check_password_hash_empty.
  eexists; split; [reflexivity|discriminate].
Qed.

Lemma step_no_password_hash (lower : str → str) (w w' : world) :
  step lower w w' → no_password_hash w → no_password_hash w'.
Proof.
  unfold no_password_hash.
  destruct 1 as [email full_name hashed now oid w
                |user_id data edit now w
                |user_id profile now w
                |user_id w
                |uid w
                |uid data w
                |uid data w
                |w w' Husers]; intros Hinv; cbn [users].
  - apply create_user_no_hash. exact Hinv.
  - apply update_user_no_hash; [apply allowed_entries_no_hash|exact Hinv].
  - apply update_user_no_hash; [|exact Hinv].
    by rewrite lookup_insert_ne, lookup_singleton_ne.
  - unfold UserModel.increment_analyses_count.
    destruct (ObjectId user_id); [|exact Hinv].
    apply update_one_Forall; [apply inc_analyses_used_no_hash|exact Hinv].
  - apply update_one_Forall; [apply reset_analyses_used_no_hash|exact Hinv].
  - destruct (change_password_rejected uid data w Hinv) as (resp & -> & _). exact Hinv.
  - destruct (delete_account_rejected uid data w Hinv) as (resp & -> & _). exact Hinv.
  - rewrite Husers. exact Hinv.
Qed.

Lemma reachable_no_password_hash (lower : str → str) (w : world) :
  reachable lower w → no_password_hash w.
Proof.
  induction 1 as [w Hempty|w w' _ IH Hstep].
  - unfold no_password_hash. rewrite Hempty. constructor.
  - exact (step_no_password_hash _ _ _ Hstep IH).
Qed.

(** C8. Registration stores the bcrypt hash under [password], which the
    serialization removes, and no write of the application creates a
    [password_hash] field.  Hence, in every state the application reaches,
    the verification of [change_password] and [delete_account] fails for
    every submitted password: neither view answers 200, and the credentials,
    the accounts and the rest of the state are left as they were. *)
Theorem password_views_never_pass_verification
    (lower : str → str) (w : world) (current_user_id : str) (data : value) :
  reachable lower w →
  (∀ user password,
     UserModel.get_user_by_id current_user_id (users w) = Some user →
     user !! "password" = None
     ∧ stored_password_hash user = Ok []
     ∧ check_password_hash [] password = false)
  ∧ (∃ resp, change_password current_user_id data w = (w, resp)
             ∧ status_of resp ≠ 200)
  ∧ (∃ resp, delete_account current_user_id data w = (w, resp)
             ∧ status_of resp ≠ 200)
  ∧ (∀ email full_name hashed_password now inserted_id users' user,
       UserModel.create_user lower email full_name hashed_password now inserted_id
         (users w) = (users', (Some user, None)) →
       ∃ stored, users' = users w ++ [stored]
                 ∧ stored !! "password" = Some (VBytes hashed_password)
                 ∧ stored !! "password_hash" = None
                 ∧ user !! "password" = None).
Proof.
  intros Hreach.
  pose proof (reachable_no_password_hash _ _ Hreach) as Hinv.
  split; [|split; [|split]].
  - intros user password Hget.
    split; [|split].
    + revert Hget. unfold UserModel.get_user_by_id.
      destruct (ObjectId current_user_id) as [oid|e]; [|discriminate].
      destruct (find_one _ (users w)) as [stored|]; [|discriminate].
      unfold UserModel._serialize_user.
      destruct (negb (truthy (VDict stored))); [discriminate|].
      destruct (stored !! "_id"); [|discriminate].
      intros H. injection H as <-. apply lookup_delete_eq.
    + exact (get_user_by_id_no_hash _ _ _ Hinv Hget).
    + apply check_password_hash_empty.
  - apply change_password_rejected. exact Hinv.
  - apply delete_account_rejected. exact Hinv.
  - intros email full_name hashed now oid users' user.
    unfold UserModel.create_user.
    destruct (find_one _ (users w)); [discriminate|].
    unfold insert_one, UserModel._serialize_user.
    match goal with
    | |- context [negb (truthy (VDict ?d))] => destruct (negb (truthy (VDict d)))
    end; [discriminate|].
    rewrite lookup_insert_eq.
    intros H.
    pose proof (f_equal fst H) as Husers.
    pose proof (f_equal (fun p => fst (snd p)) H) as Huser.
    cbn [fst snd] in Husers, Huser. apply (inj Some) in Huser.
    subst users' user.
    eexists. split; [reflexivity|].
    split; [by rewrite !lookup_insert_ne, lookup_insert_eq by discriminate|].
    split; [rewrite !lookup_insert_ne by discriminate; apply lookup_empty|].
    apply lookup_delete_eq.
Qed.

End Werkzeug.

(** *** A registered user tries to change the password *)

(** Even a comparison that accepts every well-formed hash is never asked. *)
Definition lenient_matches (pwhash : str) (password : value) : bool := true.
Definition demo_generate_hash (password : value) : Py.result str :=
  Ok (lit "scrypt:32768:8:1$salt$0123abcd").

Definition empty_world : world :=
  {| fs := {| files := ∅; remove_script := [] |}; users := []; analyses := [] |}.

(** The state after [register] with password ["secret1"]. *)
Definition one_user : world :=
  {| fs := fs empty_world;
     users := (UserModel.create_user ascii_lower (lit "Jane@Example.org") (lit "Jane Doe")
                 [36; 50; 98; 36]%N 1000 10 (users empty_world)).1;
     analyses := analyses empty_world |}.

Definition jane : str := lit "00000000000000000000000a".

Definition change_request : value :=
  VDict (<["current_password" := VStr (lit "secret1")]>
        (<["new_password" := VStr (lit "secret2")]> ∅)).

Lemma one_user_reachable : reachable lenient_matches demo_generate_hash ascii_lower one_user.
Proof.
  apply (reachable_step _ _ _ empty_world); [apply reachable_init; reflexivity|].
  apply step_register.
Qed.

Example demo_change_password :
  (change_password lenient_matches demo_generate_hash jane change_request one_user).2
  = error_response "Current password is incorrect" 401
  ∧ (delete_account lenient_matches jane
       (VDict {["password" := VStr (lit "secret1")]}) one_user).2
    = error_response "Incorrect password" 401.
Proof. split; vm_compute; reflexivity. Qed.

Lemma password_views_witness :
  (∃ resp, change_password lenient_matches demo_generate_hash jane change_request one_user
           = (one_user, resp) ∧ status_of resp ≠ 200)
  ∧ (∃ resp, delete_account lenient_matches jane change_request one_user
             = (one_user, resp) ∧ status_of resp ≠ 200).
Proof.
  pose proof (password_views_never_pass_verification lenient_matches demo_generate_hash
                ascii_lower one_user jane change_request one_user_reachable)
    as (_ & Hchange & Hdelete & _).
  split; assumption.
Defined.

End AuthRoutes.

End Backend.

(* ===================================================================== *)
(** * Further properties of the modelled code *)
(* ===================================================================== *)

(* --------------------------------------------------------------------- *)
(** ** utils/file_handler.py: [delete_file] and [save_file] *)
(* --------------------------------------------------------------------- *)

Module FileHandlerFacts.
Import Py Backend Backend.FileHandler.

(** Each attempt answers one call of [os.remove]: the attempts use up a
    prefix of the script, one answer per attempt. *)
Lemma delete_attempts_script (file_path : str) (attempts : list nat) :
  ∀ fs fs' deleted,
    delete_attempts attempts file_path fs = (fs', deleted) →
    ∃ k, (k ≤ length attempts)%nat ∧ remove_script fs' = drop k (remove_script fs).
Proof.
  induction attempts as [|attempt rest IH]; intros fs fs' deleted.
  - simpl. intros H. injection H as <- <-. exists 0%nat. split; [lia|reflexivity].
  - cbn [delete_attempts]. unfold os_remove.
    assert (Hone : ∀ fs1 : filesystem, remove_script fs1 = tail (remove_script fs) →
                   ∃ k, (k ≤ length (attempt :: rest))%nat
                        ∧ remove_script fs1 = drop k (remove_script fs)).
    { intros fs1 ->. exists 1%nat. split; [simpl; lia|].
      destruct (remove_script fs); reflexivity. }
    destruct (head (remove_script fs)) as [[| |]|] eqn:Hhead.
    + destruct (exists_ file_path fs); intros H; injection H as <- <-;
        apply Hone; reflexivity.
    + destruct (attempt =? 4)%nat.
      * intros H; injection H as <- <-. apply Hone; reflexivity.
      * intros H. apply IH in H as (k & Hk & Hdrop). cbn [remove_script] in Hdrop.
        exists (S k). split; [simpl; lia|].
        rewrite Hdrop. destruct (remove_script fs) as [|o script]; [|reflexivity].
        simpl. by rewrite drop_nil.
    + intros H; injection H as <- <-. apply Hone; reflexivity.
    + destruct (exists_ file_path fs); intros H; injection H as <- <-;
        apply Hone; reflexivity.
Qed.

(** X1. [delete_file] reports [True] exactly when the file existed and is
    gone afterwards; it never adds a file nor removes another one, and it
    calls [os.remove] at most five times. *)
Theorem delete_file_removes_only_its_file (file_path : str) (fs : filesystem) :
  let fs' := (delete_file file_path fs).1 in
  let deleted := (delete_file file_path fs).2 in
  (deleted = true ↔ file_path ∈ files fs ∧ file_path ∉ files fs')
  ∧ files fs' ⊆ files fs
  ∧ (∀ other, other ≠ file_path → other ∈ files fs → other ∈ files fs')
  ∧ (∃ k, (k ≤ 5)%nat ∧ remove_script fs' = drop k (remove_script fs)).
Proof.
  cbn zeta.
  destruct (delete_file file_path fs) as [fs' deleted] eqn:Hdel. cbn [fst snd].
  destruct (decide (file_path ≠ [] ∧ file_path ∈ files fs)) as [[Hne Hin]|Hnot].
  - destruct (delete_file_verdict _ _ _ _ Hne Hin Hdel) as [Hfiles _].
    assert (Hscript : ∃ k, (k ≤ 5)%nat ∧ remove_script fs' = drop k (remove_script fs)).
    { revert Hdel. unfold delete_file, exists_.
      destruct file_path as [|c rest]; [congruence|].
      rewrite bool_decide_eq_true_2 by exact Hin. cbn [negb].
      intros H. apply delete_attempts_script in H. exact H. }
    destruct deleted; rewrite Hfiles.
    + split; [split; [intros _|reflexivity]; set_solver|].
      split; [set_solver|]. split; [set_solver|exact Hscript].
    + split; [split; [discriminate|intros [_ Hout]; contradiction]|].
      split; [set_solver|]. split; [auto|exact Hscript].
  - assert (Hsame : fs' = fs ∧ deleted = false).
    { revert Hdel. unfold delete_file, exists_.
      destruct file_path as [|c rest]; [intros H; injection H as <- <-; done|].
      destruct (decide (c :: rest ∈ files fs)) as [Hin|Hout].
      - exfalso. apply Hnot. split; [discriminate|exact Hin].
      - rewrite bool_decide_eq_false_2 by exact Hout. cbn [negb].
        intros H; injection H as <- <-; done. }
    destruct Hsame as [-> ->].
    split; [split; [discriminate|intros [Hin Hout]; contradiction]|].
    split; [set_solver|]. split; [auto|].
    exists 0%nat. split; [lia|reflexivity].
Qed.

Section SaveThenDelete.

Variable lower : str → str.
Variable secure_filename : str → str.
Variable UPLOAD_FOLDER : str.

(** What a successful [save_file] does to the directory: it adds the file it
    returns, and nothing else changes. *)
Lemma save_file_adds (file : upload) (subfolder uuid_hex : str) (fs fs' : filesystem)
    (file_path : str) :
  save_file lower secure_filename UPLOAD_FOLDER file subfolder uuid_hex fs
  = (fs', Ok (inl file_path)) →
  files fs' = {[file_path]} ∪ files fs ∧ remove_script fs' = remove_script fs
  ∧ file_path ≠ [].
Proof.
  intros Hsave.
  destruct (save_file_saved _ _ _ _ _ _ _ _ _ Hsave) as (Hne & _ & Hscript).
  split; [|split; assumption].
  revert Hsave. unfold save_file.
  destruct (filename file) as [|c name]; [discriminate|].
  destruct (negb (allowed_file lower (c :: name))); [discriminate|].
  destruct (after_last_dot (secure_filename (c :: name))) as [extension|e];
    [|discriminate].
  intros H.
  pose proof (f_equal fst H) as Hfs. pose proof (f_equal snd H) as Hpath.
  cbn [fst snd] in Hfs, Hpath. injection Hpath as Hpath.
  subst fs' file_path. reflexivity.
Qed.

(** X2. An upload that [save_file] refuses leaves the directory as it was.
    An upload it saves under a path that was free, and that [delete_file]
    then removes on a disk that lets the file go within five attempts,
    leaves the directory as it was before the upload. *)
Theorem save_file_then_delete_file_restores_directory
    (file : upload) (subfolder uuid_hex : str) (fs : filesystem) :
  (∀ fs' error,
     save_file lower secure_filename UPLOAD_FOLDER file subfolder uuid_hex fs
     = (fs', Ok (inr error)) → fs' = fs)
  ∧ (∀ fs' file_path,
       save_file lower secure_filename UPLOAD_FOLDER file subfolder uuid_hex fs
       = (fs', Ok (inl file_path)) →
       file_path ∉ files fs →
       verdict 5 (remove_script fs) = Removes →
       (delete_file file_path fs').2 = true
       ∧ files (delete_file file_path fs').1 = files fs).
Proof.
  split.
  - intros fs' error. unfold save_file.
    destruct (filename file) as [|c name]; [intros H; injection H as <- _; done|].
    destruct (negb (allowed_file lower (c :: name)));
      [intros H; injection H as <- _; done|].
    destruct (after_last_dot (secure_filename (c :: name))); intros H;
      pose proof (f_equal snd H) as Hr; cbn [snd] in Hr; discriminate.
  - intros fs' file_path Hsave Hfree Hverdict.
    destruct (save_file_adds _ _ _ _ _ _ Hsave) as (Hfiles & Hscript & Hne).
    destruct (delete_file file_path fs') as [fs'' deleted] eqn:Hdel. cbn [fst snd].
    assert (Hin : file_path ∈ files fs') by (rewrite Hfiles; set_solver).
    destruct (delete_file_verdict _ _ _ _ Hne Hin Hdel) as [Hfiles'' Hiff].
    rewrite Hscript in Hiff. apply Hiff in Hverdict. subst deleted.
    split; [reflexivity|]. rewrite Hfiles'', Hfiles. set_solver.
Qed.

End SaveThenDelete.

Lemma save_then_delete_witness :
  (delete_file (lit "uploads/resumes/77aa.pdf")
     (save_file ascii_lower (fun name => name) (lit "uploads") {| filename := lit "cv.PDF" |}
        (lit "resumes") (lit "77aa") {| files := ∅; remove_script := [Locked; Removes] |}).1).2
  = true.
Proof.
  refine (proj1 (proj2 (save_file_then_delete_file_restores_directory ascii_lower
                          (fun name => name) (lit "uploads") {| filename := lit "cv.PDF" |}
                          (lit "resumes") (lit "77aa")
                          {| files := ∅; remove_script := [Locked; Removes] |})
                   _ (lit "uploads/resumes/77aa.pdf") _ _ _)).
  - vm_compute. reflexivity.
  - cbn [files]. set_solver.
  - reflexivity.
Defined.

End FileHandlerFacts.

(* --------------------------------------------------------------------- *)
(** ** Identifiers and collections *)
(* --------------------------------------------------------------------- *)

Module MongoFacts.
Import Py Backend Backend.Mongo.

(** The digit [to_hex] writes for [d] reads back as [d]. *)
Lemma hex_value_digit (d : N) :
  (d < 16)%N →
  hex_value (if (d <? 10)%N then (d + 48)%N else (d + 87)%N) = Some d.
Proof.
  intros Hd. unfold hex_value.
  destruct (N.ltb_spec d 10) as [Hlt|Hge].
  - assert (H1 : (48 <=? d + 48)%N = true) by (apply N.leb_le; lia).
    assert (H2 : (d + 48 <=? 57)%N = true) by (apply N.leb_le; lia).
    rewrite H1, H2. cbn [andb]. f_equal. lia.
  - assert (H1 : (48 <=? d + 87)%N = true) by (apply N.leb_le; lia).
    assert (H2 : (d + 87 <=? 57)%N = false) by (apply N.leb_gt; lia).
    assert (H3 : (97 <=? d + 87)%N = true) by (apply N.leb_le; lia).
    assert (H4 : (d + 87 <=? 102)%N = true) by (apply N.leb_le; lia).
    rewrite H1, H2, H3, H4. cbn [andb]. f_equal. lia.
Qed.

Lemma parse_hex_snoc (s : str) (c : N) :
  ∀ acc,
    parse_hex (s ++ [c]) acc
    = match parse_hex s acc with
      | Some a => match hex_value c with Some d => Some (a * 16 + d)%N | None => None end
      | None => None
      end.
Proof.
  induction s as [|x s IH]; intros acc; simpl.
  - destruct (hex_value c); reflexivity.
  - destruct (hex_value x); [apply IH|reflexivity].
Qed.

Lemma to_hex_length (digits : nat) : ∀ n, length (to_hex digits n) = digits.
Proof.
  induction digits as [|digits IH]; intros n; [reflexivity|].
  cbn [to_hex]. rewrite length_app, IH. simpl. lia.
Qed.

Lemma parse_hex_to_hex (digits : nat) :
  ∀ n, parse_hex (to_hex digits n) 0 = Some (n mod 16 ^ N.of_nat digits)%N.
Proof.
  induction digits as [|digits IH]; intros n.
  - simpl. by rewrite N.mod_1_r.
  - cbn [to_hex]. rewrite parse_hex_snoc, IH.
    rewrite hex_value_digit by (apply N.mod_lt; lia).
    f_equal. rewrite Nat2N.inj_succ, N.pow_succ_r'.
    rewrite (N.Div0.mod_mul_r n 16 (16 ^ N.of_nat digits)). lia.
Qed.

(** [ObjectId(str(oid)) == oid] *)
Lemma ObjectId_to_hex (oid : N) : (oid < 16 ^ 24)%N → ObjectId (to_hex 24 oid) = Ok oid.
Proof.
  intros Hoid. unfold ObjectId.
  rewrite to_hex_length, Nat.eqb_refl, parse_hex_to_hex.
  change (N.of_nat 24) with 24%N. by rewrite N.mod_small.
Qed.

(** Queries over a collection whose last document is the first to match. *)
Lemma find_one_last (query : doc → bool) (collection : list doc) (d : doc) :
  Forall (fun x => query x = false) collection →
  find_one query (collection ++ [d]) = if query d then Some d else None.
Proof.
  induction 1 as [|x rest Hx _ IH]; simpl; [reflexivity|]. by rewrite Hx.
Qed.

Lemma delete_one_last (query : doc → bool) (collection : list doc) (d : doc) :
  Forall (fun x => query x = false) collection →
  delete_one query (collection ++ [d])
  = if query d then (collection, 1) else (collection ++ [d], 0).
Proof.
  induction 1 as [|x rest Hx _ IH]; simpl.
  - destruct (query d); reflexivity.
  - rewrite Hx, IH. destruct (query d); reflexivity.
Qed.

Lemma update_one_last (query : doc → bool) (update : doc → doc) (collection : list doc)
    (d : doc) :
  Forall (fun x => query x = false) collection →
  update_one query update (collection ++ [d])
  = collection ++ [if query d then update d else d].
Proof.
  induction 1 as [|x rest Hx _ IH]; simpl.
  - destruct (query d); reflexivity.
  - by rewrite Hx, IH.
Qed.

Lemma find_one_None (query : doc → bool) (collection : list doc) :
  find_one query collection = None → Forall (fun x => query x = false) collection.
Proof.
  induction collection as [|x rest IH]; simpl; [constructor|].
  destruct (query x) eqn:Hq; [discriminate|]. intros H. constructor; auto.
Qed.

Lemma update_one_no_match (query : doc → bool) (update : doc → doc)
    (collection : list doc) :
  Forall (fun x => query x = false) collection →
  update_one query update collection = collection.
Proof.
  induction 1 as [|x rest Hx _ IH]; simpl; [reflexivity|]. by rewrite Hx, IH.
Qed.

Lemma dict_with_key_truthy (d : doc) (k : string) (v : value) :
  d !! k = Some v → truthy (VDict d) = true.
Proof.
  intros Hk. simpl. rewrite bool_decide_eq_false_2; [reflexivity|].
  intros Hdom. apply elem_of_dom_2 in Hk. rewrite Hdom in Hk. set_solver.
Qed.

End MongoFacts.

(** Looking a literal key up in a dictionary built by insertions. *)
Ltac lookup_inserted :=
  repeat (rewrite lookup_insert_ne by discriminate);
  first [rewrite lookup_insert_eq | rewrite lookup_empty].

(* --------------------------------------------------------------------- *)
(** ** models/analysis.py: create, fetch, delete *)
(* --------------------------------------------------------------------- *)

Module AnalysisModelFacts.
Import Py Backend Backend.Mongo Backend.AnalysisModel MongoFacts.

(** The document [create_analysis] stores, and what it returns. *)
Lemma create_analysis_stored (user_id analysis_type : str) (data report_path : value)
    (now : Z) (inserted_id : N) (collection : list doc) :
  ∃ stored,
    create_analysis user_id analysis_type data report_path now inserted_id collection
    = (collection ++ [stored], _serialize_analysis stored)
    ∧ stored !! "_id" = Some (VObjectId inserted_id)
    ∧ stored !! "user_id" = Some (VStr user_id)
    ∧ stored !! "report_path" = Some report_path
    ∧ stored !! "data" = Some data
    ∧ stored !! "analysis_type" = Some (VStr analysis_type)
    ∧ stored !! "status" = Some (VStr (lit "completed")).
Proof.
  eexists. split; [reflexivity|].
  repeat split; lookup_inserted; reflexivity.
Qed.

Lemma serialize_analysis_stored (stored : doc) (id : value) :
  stored !! "_id" = Some id →
  _serialize_analysis stored = Some (<["_id" := VStr (str_of id)]> stored).
Proof.
  intros Hid. unfold _serialize_analysis.
  rewrite (dict_with_key_truthy _ _ _ Hid), Hid. reflexivity.
Qed.

(** X3. A record made by [create_analysis] under an identifier no stored
    document has is found by [get_analysis_by_id] under the identifier's
    string: the record found has the identifier, user, type and status of
    the record [create_analysis] returned, and its report path when that is
    a string.  (The time and the data can come back from the database in
    another precision and are not compared.) *)
Theorem create_analysis_then_get_analysis_by_id
    (user_id analysis_type : str) (data report_path : value) (now : Z)
    (inserted_id : N) (collection : list doc) :
  (inserted_id < 16 ^ 24)%N →
  Forall (fun d => field_is_oid "_id" inserted_id d = false) collection →
  let created :=
    create_analysis user_id analysis_type data report_path now inserted_id collection in
  ∃ record found,
    created.2 = Some record
    ∧ get_analysis_by_id (to_hex 24 inserted_id) created.1 = Some found
    ∧ (∀ k, k ∈ ["_id"; "user_id"; "analysis_type"; "status"] →
            found !! k = record !! k)
    ∧ found !! "_id" = Some (VStr (to_hex 24 inserted_id))
    ∧ found !! "user_id" = Some (VStr user_id)
    ∧ found !! "analysis_type" = Some (VStr analysis_type)
    ∧ found !! "status" = Some (VStr (lit "completed"))
    ∧ (∀ path, report_path = VStr path →
               found !! "report_path" = Some (VStr path)
               ∧ record !! "report_path" = Some (VStr path)).
Proof.
  intros Hid Hfresh. cbn zeta.
  destruct (create_analysis_stored user_id analysis_type data report_path now
              inserted_id collection)
    as (stored & -> & Hsid & Huser & Hpath & _ & Htype & Hstatus).
  cbn [fst snd].
  assert (Hget : get_analysis_by_id (to_hex 24 inserted_id) (collection ++ [stored])
                 = _serialize_analysis stored).
  { unfold get_analysis_by_id. rewrite (ObjectId_to_hex _ Hid).
    rewrite (find_one_last _ _ _ Hfresh).
    unfold field_is_oid. rewrite Hsid. cbn [is_oid]. by rewrite N.eqb_refl. }
  rewrite Hget, (serialize_analysis_stored _ _ Hsid). cbn [str_of].
  eexists. eexists. split; [reflexivity|]. split; [reflexivity|].
  split; [reflexivity|].
  split; [by rewrite lookup_insert_eq|].
  split; [by rewrite lookup_insert_ne by discriminate|].
  split; [by rewrite lookup_insert_ne by discriminate|].
  split; [by rewrite lookup_insert_ne by discriminate|].
  intros path ->. by rewrite lookup_insert_ne by discriminate.
Qed.

Lemma create_then_get_witness :
  ∃ found,
    get_analysis_by_id (to_hex 24 7)
      (create_analysis (lit "u1") (lit "video") VNone (VStr (lit "r.pdf")) 0 7 []).1
    = Some found
    ∧ found !! "user_id" = Some (VStr (lit "u1"))
    ∧ found !! "report_path" = Some (VStr (lit "r.pdf")).
Proof.
  destruct (create_analysis_then_get_analysis_by_id (lit "u1") (lit "video") VNone
              (VStr (lit "r.pdf")) 0 7 [])
    as (record & found & _ & Hget & _ & _ & Huser & _ & _ & Hpath).
  - reflexivity.
  - constructor.
  - exists found. split; [exact Hget|]. split; [exact Huser|].
    exact (proj1 (Hpath _ eq_refl)).
Defined.

(** X4. Of a record [create_analysis] has just stored under a fresh
    identifier, [delete_analysis] called with the user who created it removes
    it and leaves the collection as it was before; called with any other user
    it removes nothing and returns [False]. *)
Theorem created_analysis_is_deleted_by_its_creator_only
    (user_id analysis_type : str) (data report_path : value) (now : Z)
    (inserted_id : N) (collection : list doc) :
  (inserted_id < 16 ^ 24)%N →
  Forall (fun d => field_is_oid "_id" inserted_id d = false) collection →
  let created :=
    create_analysis user_id analysis_type data report_path now inserted_id collection in
  delete_analysis (to_hex 24 inserted_id) user_id created.1 = (collection, true)
  ∧ ∀ other,
      other ≠ user_id →
      delete_analysis (to_hex 24 inserted_id) other created.1 = (created.1, false).
Proof.
  intros Hid Hfresh. cbn zeta.
  destruct (create_analysis_stored user_id analysis_type data report_path now
              inserted_id collection)
    as (stored & -> & Hsid & Huser & _ & _).
  cbn [fst snd].
  assert (Hnone : ∀ u, Forall (fun d => owned_by inserted_id u d = false) collection).
  { intros u. eapply Forall_impl; [exact Hfresh|].
    intros d Hd. unfold owned_by. by rewrite Hd. }
  assert (Howned : ∀ u, owned_by inserted_id u stored = bool_decide (user_id = u)).
  { intros u. unfold owned_by, field_is_oid, field_is_str.
    rewrite Hsid, Huser. cbn [is_oid is_str]. by rewrite N.eqb_refl. }
  split.
  - unfold delete_analysis. rewrite (ObjectId_to_hex _ Hid).
    rewrite (delete_one_last _ _ _ (Hnone user_id)), Howned.
    by rewrite bool_decide_eq_true_2.
  - intros other Hother. unfold delete_analysis. rewrite (ObjectId_to_hex _ Hid).
    rewrite (delete_one_last _ _ _ (Hnone other)), Howned.
    by rewrite bool_decide_eq_false_2.
Qed.

Lemma created_then_deleted_witness :
  delete_analysis (to_hex 24 7) (lit "u1")
    (create_analysis (lit "u1") (lit "video") VNone (VStr (lit "r.pdf")) 0 7 []).1
  = ([], true).
Proof.
  refine (proj1 (created_analysis_is_deleted_by_its_creator_only (lit "u1") (lit "video")
                   VNone (VStr (lit "r.pdf")) 0 7 [] _ _)).
  - reflexivity.
  - constructor.
Defined.

End AnalysisModelFacts.

(* --------------------------------------------------------------------- *)
(** ** models/user.py: accounts, credentials, usage limit *)
(* --------------------------------------------------------------------- *)

Module UserAccounts.
Import Py Backend Backend.Mongo Backend.UserModel MongoFacts.

(** The address a stored account is registered under. *)
Definition email_of (d : doc) : option str :=
  match d !! "email" with
  | Some (VStr email) => Some email
  | _ => None
  end.

Section Accounts.

Variable lower : str → str.

(** [bcrypt.checkpw(password.encode('utf-8'), hashed)] *)
Variable checkpw : str → value → Py.result bool.

(** [value < value] of the interpreter. *)
Variable py_lt : value → value → Py.result bool.

(** [authenticate(email, password)] *)
Definition authenticate (email password : str) (collection : list doc)
  : Py.result (option doc * option str) :=
  match find_one (field_is_str "email" (lower email)) collection with
  | None => Ok (None, Some (lit "Invalid credentials"))
  | Some user =>
      if negb (truthy (VDict user)) then Ok (None, Some (lit "Invalid credentials"))
      else
        match user !! "password" with
        | None => Raise (KeyError "password")
        | Some hashed =>
            accepted ← checkpw password hashed;
            if negb accepted then Ok (None, Some (lit "Invalid credentials"))
            else
              match user !! "_id" with
              | Some _ => Ok (_serialize_user user, None)
              | None => Raise (KeyError "_id")
              end
        end
  end.

(** [check_analysis_limit(user_id)] *)
Definition check_analysis_limit (user_id : str) (collection : list doc) : Py.result bool :=
  match get_user_by_id user_id collection with
  | None => Ok false
  | Some user =>
      if negb (truthy (VDict user)) then Ok false
      else
        match default (VDict ∅) (user !! "subscription") with
        | VDict subscription =>
            py_lt (default (VInt 0) (subscription !! "analyses_used"))
                  (default (VInt 5) (subscription !! "analyses_limit"))
        | _ => Raise (Exception "AttributeError")
        end
  end.

(** The document [create_user] stores for an address that is free. *)
Lemma create_user_stored (email full_name : str) (hashed_password : list N) (now : Z)
    (inserted_id : N) (collection : list doc) :
  Forall (fun d => field_is_str "email" (lower email) d = false) collection →
  ∃ stored subscription,
    create_user lower email full_name hashed_password now inserted_id collection
    = (collection ++ [stored], (_serialize_user stored, None))
    ∧ stored !! "_id" = Some (VObjectId inserted_id)
    ∧ stored !! "email" = Some (VStr (lower email))
    ∧ stored !! "password" = Some (VBytes hashed_password)
    ∧ stored !! "full_name" = Some (VStr full_name)
    ∧ stored !! "subscription" = Some (VDict subscription)
    ∧ subscription !! "analyses_used" = Some (VInt 0)
    ∧ subscription !! "analyses_limit" = Some (VInt 5).
Proof.
  intros Hfree. unfold create_user.
  assert (Hnone : find_one (field_is_str "email" (lower email)) collection = None).
  { induction Hfree as [|x rest Hx _ IH]; simpl; [reflexivity|]. by rewrite Hx. }
  rewrite Hnone. eexists. eexists. split; [reflexivity|].
  repeat split; lookup_inserted; reflexivity.
Qed.

Lemma serialize_user_stored (stored : doc) (id : value) :
  stored !! "_id" = Some id →
  _serialize_user stored
  = Some (delete "password" (<["_id" := VStr (str_of id)]> stored)).
Proof.
  intros Hid. unfold _serialize_user.
  rewrite (dict_with_key_truthy _ _ _ Hid), Hid. reflexivity.
Qed.

Lemma serialize_user_fields (stored user : doc) :
  _serialize_user stored = Some user →
  user !! "password" = None
  ∧ (∃ id, stored !! "_id" = Some id ∧ user !! "_id" = Some (VStr (str_of id)))
  ∧ ∀ k, k ≠ "_id" → k ≠ "password" → user !! k = stored !! k.
Proof.
  unfold _serialize_user.
  destruct (negb (truthy (VDict stored))); [discriminate|].
  destruct (stored !! "_id") as [id|] eqn:Hid; [|discriminate].
  intros H. injection H as <-.
  split; [apply lookup_delete_eq|].
  split.
  - exists id. split; [reflexivity|].
    rewrite lookup_delete_ne by discriminate. apply lookup_insert_eq.
  - intros k Hid' Hpw.
    rewrite lookup_delete_ne by congruence. apply lookup_insert_ne. congruence.
Qed.

Lemma email_of_field (d : doc) (email : str) :
  email_of d = Some email ↔ field_is_str "email" email d = true.
Proof.
  unfold email_of, field_is_str.
  destruct (d !! "email") as [v|]; [|split; discriminate].
  rewrite is_str_eq. destruct v; split; congruence.
Qed.

(** X5. [create_user] refuses an address that a stored account already has
    (after [lower]), leaving the collection as it is; so a collection whose
    accounts have distinct addresses keeps distinct addresses. *)
Theorem create_user_keeps_addresses_distinct
    (email full_name : str) (hashed_password : list N) (now : Z) (inserted_id : N)
    (collection : list doc) :
  let created :=
    create_user lower email full_name hashed_password now inserted_id collection in
  (lower email ∈ omap email_of collection →
   created = (collection, (None, Some (lit "User already exists"))))
  ∧ (NoDup (omap email_of collection) → NoDup (omap email_of created.1)).
Proof.
  cbn zeta.
  destruct (find_one (field_is_str "email" (lower email)) collection) as [found|]
    eqn:Hfind.
  - unfold create_user. rewrite Hfind. cbn [fst]. split; [reflexivity|auto].
  - apply find_one_None in Hfind.
    destruct (create_user_stored email full_name hashed_password now inserted_id
                collection Hfind)
      as (stored & subscription & -> & _ & Hemail & _).
    assert (Hnew : lower email ∉ omap email_of collection).
    { intros Hin. apply list_elem_of_omap in Hin as (d & Hd & Hof).
      apply email_of_field in Hof.
      rewrite Forall_forall in Hfind. rewrite (Hfind d Hd) in Hof. discriminate. }
    split; [intros Hin; contradiction|].
    intros Hdistinct. cbn [fst]. rewrite omap_app. apply NoDup_app.
    split; [exact Hdistinct|].
    assert (Hlast : omap email_of [stored] = [lower email]).
    { cbn [omap list_omap]. unfold email_of at 1. rewrite Hemail. reflexivity. }
    rewrite Hlast. split; [|apply NoDup_singleton].
    intros x Hx Hx'. apply list_elem_of_singleton in Hx'. subst x. contradiction.
Qed.

(** X6. An account [create_user] has stored, for a free address and under an
    identifier no stored account has, is found by [get_user_by_id] under the
    identifier's string: the account found agrees with the one [create_user]
    returned on every field but the two times (which the database keeps in
    another precision), with the identifier's string, the lowered address and
    the name, and without the password. *)
Theorem create_user_then_get_user_by_id
    (email full_name : str) (hashed_password : list N) (now : Z) (inserted_id : N)
    (collection : list doc) :
  (inserted_id < 16 ^ 24)%N →
  Forall (fun d => field_is_oid "_id" inserted_id d = false) collection →
  Forall (fun d => field_is_str "email" (lower email) d = false) collection →
  let created :=
    create_user lower email full_name hashed_password now inserted_id collection in
  ∃ user found,
    created.2 = (Some user, None)
    ∧ get_user_by_id (to_hex 24 inserted_id) created.1 = Some found
    ∧ (∀ k, k ≠ "created_at" → k ≠ "updated_at" → found !! k = user !! k)
    ∧ found !! "_id" = Some (VStr (to_hex 24 inserted_id))
    ∧ found !! "email" = Some (VStr (lower email))
    ∧ found !! "full_name" = Some (VStr full_name)
    ∧ found !! "password" = None.
Proof.
  intros Hid Hfresh Hfree. cbn zeta.
  destruct (create_user_stored email full_name hashed_password now inserted_id
              collection Hfree)
    as (stored & subscription & -> & Hsid & Hemail & _ & Hname & _).
  cbn [fst snd].
  assert (Hget : get_user_by_id (to_hex 24 inserted_id) (collection ++ [stored])
                 = _serialize_user stored).
  { unfold get_user_by_id. rewrite (ObjectId_to_hex _ Hid).
    rewrite (find_one_last _ _ _ Hfresh).
    unfold field_is_oid. rewrite Hsid. cbn [is_oid]. by rewrite N.eqb_refl. }
  rewrite Hget.
  destruct (_serialize_user stored) as [user|] eqn:Hser;
    [|by rewrite (serialize_user_stored _ _ Hsid) in Hser].
  destruct (serialize_user_fields _ _ Hser) as (Hpw & (id & Hid' & Huid) & Hother).
  exists user, user. split; [reflexivity|]. split; [reflexivity|].
  split; [reflexivity|].
  rewrite Hsid in Hid'. injection Hid' as <-.
  split; [exact Huid|].
  split; [rewrite Hother by discriminate; exact Hemail|].
  split; [rewrite Hother by discriminate; exact Hname|exact Hpw].
Qed.

(** X7. [authenticate] returns an account only for a stored document with
    the lowered address whose stored hash [bcrypt.checkpw] accepts for the
    password, and the account it returns carries no password; an unknown
    address and a wrong password are refused with one and the same message. *)
Theorem authenticate_needs_stored_address_and_accepted_password
    (email password : str) (collection : list doc) :
  (∀ user error,
     authenticate email password collection = Ok (Some user, error) →
     error = None
     ∧ user !! "password" = None
     ∧ ∃ stored hashed,
         stored ∈ collection
         ∧ stored !! "email" = Some (VStr (lower email))
         ∧ stored !! "password" = Some hashed
         ∧ checkpw password hashed = Ok true
         ∧ ∀ k, k ≠ "_id" → k ≠ "password" → user !! k = stored !! k)
  ∧ (∀ error,
       authenticate email password collection = Ok (None, error) →
       error = Some (lit "Invalid credentials")).
Proof.
  unfold authenticate.
  destruct (find_one (field_is_str "email" (lower email)) collection) as [stored|]
    eqn:Hfind.
  2:{ split; [intros user error H; discriminate|].
      intros error H. injection H as <-. reflexivity. }
  apply find_one_Some in Hfind as [Hin Hq].
  destruct (negb (truthy (VDict stored))).
  { split; [intros user error H; discriminate|].
    intros error H. injection H as <-. reflexivity. }
  destruct (stored !! "password") as [hashed|] eqn:Hpw.
  2:{ split; [intros user error H|intros error H]; discriminate. }
  destruct (checkpw password hashed) as [[|]|e] eqn:Hcheck; cbn.
  - destruct (stored !! "_id") as [id|] eqn:Hid.
    2:{ split; [intros user error H|intros error H]; discriminate. }
    rewrite (serialize_user_stored _ _ Hid). split.
    + intros user error H. injection H as <- <-.
      split; [reflexivity|]. split; [apply lookup_delete_eq|].
      exists stored, hashed. split; [exact Hin|].
      split.
      { apply email_of_field in Hq. unfold email_of in Hq.
        destruct (stored !! "email") as [[]|]; congruence. }
      split; [exact Hpw|]. split; [exact Hcheck|].
      intros k Hk1 Hk2. rewrite lookup_delete_ne by congruence.
      apply lookup_insert_ne. congruence.
    + intros error H. discriminate.
  - split; [intros user error H; discriminate|].
    intros error H. injection H as <-. reflexivity.
  - split; [intros user error H|intros error H]; discriminate.
Qed.

(** X8. An account that [create_user] has just stored can log in: for an
    address that lowers to the same string and a password [bcrypt.checkpw]
    accepts against the stored hash, [authenticate] returns, without error,
    an account that agrees with the one [create_user] returned on every
    field but the two times (which the database keeps in another
    precision). *)
Theorem create_user_then_authenticate
    (email full_name : str) (hashed_password : list N) (now : Z) (inserted_id : N)
    (collection : list doc) (login_email password : str) :
  Forall (fun d => field_is_str "email" (lower email) d = false) collection →
  lower login_email = lower email →
  checkpw password (VBytes hashed_password) = Ok true →
  let created :=
    create_user lower email full_name hashed_password now inserted_id collection in
  ∃ user found,
    created.2 = (Some user, None)
    ∧ authenticate login_email password created.1 = Ok (Some found, None)
    ∧ (∀ k, k ≠ "created_at" → k ≠ "updated_at" → found !! k = user !! k)
    ∧ found !! "email" = Some (VStr (lower email))
    ∧ found !! "password" = None.
Proof.
  intros Hfree Hsame Hcheck. cbn zeta.
  destruct (create_user_stored email full_name hashed_password now inserted_id
              collection Hfree)
    as (stored & subscription & -> & Hsid & Hemail & Hpw & _).
  cbn [fst snd].
  assert (Hauth : authenticate login_email password (collection ++ [stored])
                  = Ok (_serialize_user stored, None)).
  { unfold authenticate. rewrite Hsame.
    rewrite (find_one_last _ _ _ Hfree).
    assert (Hq : field_is_str "email" (lower email) stored = true).
    { apply email_of_field. unfold email_of. by rewrite Hemail. }
    rewrite Hq, (dict_with_key_truthy _ _ _ Hsid). cbn [negb].
    rewrite Hpw, Hcheck. cbn. by rewrite Hsid. }
  rewrite Hauth.
  destruct (_serialize_user stored) as [user|] eqn:Hser;
    [|by rewrite (serialize_user_stored _ _ Hsid) in Hser].
  destruct (serialize_user_fields _ _ Hser) as (Hnopw & _ & Hother).
  exists user, user. split; [reflexivity|]. split; [reflexivity|].
  split; [reflexivity|].
  split; [rewrite Hother by discriminate; exact Hemail|exact Hnopw].
Qed.

(** The two ways [authenticate] returns. *)
Lemma authenticate_returns (email password : str) (collection : list doc)
    (user : option doc) (error : option str) :
  authenticate email password collection = Ok (user, error) →
  (user = None ∧ error = Some (lit "Invalid credentials"))
  ∨ (error = None
     ∧ ∃ stored hashed id,
         stored ∈ collection
         ∧ stored !! "email" = Some (VStr (lower email))
         ∧ stored !! "password" = Some hashed
         ∧ checkpw password hashed = Ok true
         ∧ stored !! "_id" = Some id
         ∧ user = Some (delete "password" (<["_id" := VStr (str_of id)]> stored))).
Proof.
  unfold authenticate.
  destruct (find_one (field_is_str "email" (lower email)) collection) as [stored|]
    eqn:Hfind; [|intros H; injection H as <- <-; left; auto].
  apply find_one_Some in Hfind as [Hin Hq].
  destruct (negb (truthy (VDict stored))); [intros H; injection H as <- <-; left; auto|].
  destruct (stored !! "password") as [hashed|] eqn:Hpw; [|discriminate].
  destruct (checkpw password hashed) as [[|]|e] eqn:Hcheck; cbn;
    [|intros H; injection H as <- <-; left; auto|discriminate].
  destruct (stored !! "_id") as [id|] eqn:Hid; [|discriminate].
  rewrite (serialize_user_stored _ _ Hid). intros H. injection H as <- <-.
  right. split; [reflexivity|]. exists stored, hashed, id.
  split; [exact Hin|]. split.
  { apply email_of_field in Hq. unfold email_of in Hq.
    destruct (stored !! "email") as [[]|]; congruence. }
  auto.
Qed.

(** The last account of a collection, with its counter at [used] and its
    limit at five. *)
Definition counts (inserted_id : N) (used : Z) (d : doc) : Prop :=
  d !! "_id" = Some (VObjectId inserted_id)
  ∧ ∃ subscription,
      d !! "subscription" = Some (VDict subscription)
      ∧ subscription !! "analyses_used" = Some (VInt used)
      ∧ subscription !! "analyses_limit" = Some (VInt 5).

Lemma inc_analyses_used_counts (inserted_id : N) (used : Z) (d : doc) :
  counts inserted_id used d → counts inserted_id (used + 1) (inc_analyses_used d).
Proof.
  intros (Hid & subscription & Hsub & Hused & Hlimit).
  unfold inc_analyses_used. rewrite Hsub, Hused. split.
  - by rewrite lookup_insert_ne by discriminate.
  - eexists. split; [apply lookup_insert_eq|].
    split; [apply lookup_insert_eq|].
    by rewrite lookup_insert_ne by discriminate.
Qed.

Lemma increments_count (inserted_id : N) (collection : list doc) (k : nat) :
  (inserted_id < 16 ^ 24)%N →
  Forall (fun d => field_is_oid "_id" inserted_id d = false) collection →
  ∀ d, counts inserted_id 0 d →
    ∃ d', Nat.iter k (increment_analyses_count (to_hex 24 inserted_id))
            (collection ++ [d])
          = collection ++ [d']
          ∧ counts inserted_id (Z.of_nat k) d'.
Proof.
  intros Hid Hfresh d Hd. induction k as [|k (d' & Heq & Hd')].
  - exists d. split; [reflexivity|exact Hd].
  - exists (inc_analyses_used d'). rewrite Nat.iter_succ, Heq. split.
    + unfold increment_analyses_count. rewrite (ObjectId_to_hex _ Hid).
      rewrite (update_one_last _ _ _ _ Hfresh).
      destruct Hd' as [Hid' _]. unfold field_is_oid. rewrite Hid'. cbn [is_oid].
      by rewrite N.eqb_refl.
    + rewrite Nat2Z.inj_succ. apply inc_analyses_used_counts. exact Hd'.
Qed.

(** X9. A new account has five analyses: after [increment_analyses_count]
    has been called [k] times for an account [create_user] has just stored,
    [check_analysis_limit] answers whether [k] is below five. *)
Theorem check_analysis_limit_allows_five_analyses
    (email full_name : str) (hashed_password : list N) (now : Z) (inserted_id : N)
    (collection : list doc) (k : nat) :
  (∀ a b, py_lt (VInt a) (VInt b) = Ok (a <? b)) →
  (inserted_id < 16 ^ 24)%N →
  Forall (fun d => field_is_oid "_id" inserted_id d = false) collection →
  Forall (fun d => field_is_str "email" (lower email) d = false) collection →
  let created :=
    create_user lower email full_name hashed_password now inserted_id collection in
  check_analysis_limit (to_hex 24 inserted_id)
    (Nat.iter k (increment_analyses_count (to_hex 24 inserted_id)) created.1)
  = Ok (Z.of_nat k <? 5).
Proof.
  intros Hlt Hid Hfresh Hfree. cbn zeta.
  destruct (create_user_stored email full_name hashed_password now inserted_id
              collection Hfree)
    as (stored & subscription & -> & Hsid & _ & _ & _ & Hsub & Hused & Hlimit).
  cbn [fst].
  assert (Hstored : counts inserted_id 0 stored).
  { split; [exact Hsid|]. exists subscription. auto. }
  destruct (increments_count inserted_id collection k Hid Hfresh stored Hstored)
    as (d & -> & Hdid & sub & Hdsub & Hdused & Hdlimit).
  unfold check_analysis_limit, get_user_by_id.
  rewrite (ObjectId_to_hex _ Hid), (find_one_last _ _ _ Hfresh).
  unfold field_is_oid. rewrite Hdid. cbn [is_oid]. rewrite N.eqb_refl.
  rewrite (serialize_user_stored _ _ Hdid).
  rewrite (dict_with_key_truthy _ "_id" (VStr (str_of (VObjectId inserted_id))))
    by (rewrite lookup_delete_ne by discriminate; apply lookup_insert_eq).
  cbn [negb].
  rewrite lookup_delete_ne by discriminate.
  rewrite lookup_insert_ne by discriminate.
  rewrite Hdsub. cbn [from_option id]. rewrite Hdused, Hdlimit. apply Hlt.
Qed.

End Accounts.

(** An interpreter for the witnesses: [bcrypt.checkpw] accepting the hash
    that is the password itself, and [<] on integers. *)
Definition plain_checkpw (password : str) (hashed : value) : Py.result bool :=
  match hashed with
  | VBytes b => Ok (bool_decide (b = password))
  | _ => Raise TypeError
  end.
Definition int_lt (a b : value) : Py.result bool :=
  match a, b with
  | VInt a, VInt b => Ok (a <? b)
  | _, _ => Raise TypeError
  end.

Lemma created_user_is_found_witness :
  ∃ found,
    get_user_by_id (to_hex 24 9)
      (create_user ascii_lower (lit "Ann@X.org") (lit "Ann") (lit "secret") 0 9 []).1
    = Some found
    ∧ found !! "email" = Some (VStr (lit "ann@x.org"))
    ∧ found !! "password" = None.
Proof.
  destruct (create_user_then_get_user_by_id ascii_lower (lit "Ann@X.org") (lit "Ann")
              (lit "secret") 0 9 [])
    as (user & found & _ & Hget & _ & _ & Hemail & _ & Hpw).
  - reflexivity.
  - constructor.
  - constructor.
  - exists found. split; [exact Hget|]. split; [exact Hemail|exact Hpw].
Defined.

Lemma created_user_logs_in_witness :
  ∃ found,
    authenticate ascii_lower plain_checkpw (lit "ANN@x.org") (lit "secret")
      (create_user ascii_lower (lit "Ann@X.org") (lit "Ann") (lit "secret") 0 9 []).1
    = Ok (Some found, None)
    ∧ found !! "email" = Some (VStr (lit "ann@x.org")).
Proof.
  destruct (create_user_then_authenticate ascii_lower plain_checkpw (lit "Ann@X.org")
              (lit "Ann") (lit "secret") 0 9 [] (lit "ANN@x.org") (lit "secret"))
    as (user & found & _ & Hauth & _ & Hemail & _).
  - constructor.
  - vm_compute. reflexivity.
  - vm_compute. reflexivity.
  - exists found. split; [exact Hauth|exact Hemail].
Defined.

Lemma check_analysis_limit_witness :
  check_analysis_limit int_lt (to_hex 24 9)
    (Nat.iter 5 (increment_analyses_count (to_hex 24 9))
       (create_user ascii_lower (lit "Ann@X.org") (lit "Ann") (lit "secret") 0 9 []).1)
  = Ok false.
Proof.
  refine (check_analysis_limit_allows_five_analyses ascii_lower int_lt (lit "Ann@X.org")
            (lit "Ann") (lit "secret") 0 9 [] 5 _ _ _ _).
  - intros a b. reflexivity.
  - reflexivity.
  - constructor.
  - constructor.
Defined.

End UserAccounts.

(* --------------------------------------------------------------------- *)
(** ** utils/auth_middleware.py: the header and [generate_token] *)
(* --------------------------------------------------------------------- *)

Module TokenFacts.
Import Py Backend Backend.AuthMiddleware.

(** A request with the given [Authorization] header and no other. *)
Definition with_authorization (auth_header : str) : request :=
  {| headers := fun name =>
       if bool_decide (name = "Authorization") then Some auth_header else None |}.

(** [Config.JWT_EXPIRATION_HOURS] *)
Definition JWT_EXPIRATION_HOURS : Z := 24.

(** The payload of [generate_token(user_id)] at time [now], in seconds. *)
Definition token_payload (user_id : value) (now : Z) : gmap string value :=
  <["user_id" := user_id]>
  (<["exp" := VDatetime (now + JWT_EXPIRATION_HOURS * 3600)]>
  (<["iat" := VDatetime now]> ∅)).

Lemma split_on_from_plain (sep : N) (s : str) :
  ∀ field, sep ∉ s → split_on_from sep field s = [field ++ s].
Proof.
  induction s as [|c s IH]; intros field Hs; simpl.
  - by rewrite app_nil_r.
  - apply not_elem_of_cons in Hs as [Hc Hs].
    destruct (N.eqb_spec c sep) as [->|_]; [contradiction|].
    rewrite IH by exact Hs. by rewrite <- app_assoc.
Qed.

Lemma split_on_from_cut (sep : N) (before after : str) :
  ∀ field,
    sep ∉ before →
    split_on_from sep field (before ++ sep :: after)
    = (field ++ before) :: split_on_from sep [] after.
Proof.
  induction before as [|c s IH]; intros field Hs; simpl.
  - by rewrite N.eqb_refl, app_nil_r.
  - apply not_elem_of_cons in Hs as [Hc Hs].
    destruct (N.eqb_spec c sep) as [->|_]; [contradiction|].
    rewrite IH by exact Hs. by rewrite <- app_assoc.
Qed.

Section Tokens.

(** [jwt.encode(payload, Config.JWT_SECRET_KEY, algorithm="HS256")] and
    [jwt.decode(token, Config.JWT_SECRET_KEY, algorithms=["HS256"])] *)
Variable jwt_encode : gmap string value → str.
Variable jwt_decode : str → decoded.

(** [generate_token(user_id)] *)
Definition generate_token (user_id : value) (now : Z) : str :=
  jwt_encode (token_payload user_id now).

(** What the decorator does once it holds a non-empty token. *)
Definition decide_token (token : str) : decision :=
  match jwt_decode token with
  | Payload data =>
      match data !! "user_id" with
      | Some current_user_id => Call current_user_id
      | None => Escape (KeyError "user_id")
      end
  | ExpiredSignatureError => Respond (error_response "Token has expired" 401)
  | InvalidTokenError => Respond (error_response "Invalid token" 401)
  end.

(** X10. The decorator reads the second space-separated field of the
    header and never looks at the first: a header without a space is an
    invalid format; otherwise whatever stands before the first space, the
    request is treated by the token after it alone, which is missing when
    empty (as after two spaces) and is cut at the next space. *)
Theorem authorization_scheme_is_never_checked (scheme token rest : str) :
  32%N ∉ scheme → 32%N ∉ token →
  authorize jwt_decode (with_authorization scheme)
  = Respond (error_response "Invalid token format" 401)
  ∧ authorize jwt_decode (with_authorization (scheme ++ 32%N :: token))
    = match token with
      | [] => Respond (error_response "Token is missing" 401)
      | _ => decide_token token
      end
  ∧ authorize jwt_decode (with_authorization (scheme ++ 32%N :: token ++ 32%N :: rest))
    = authorize jwt_decode (with_authorization (scheme ++ 32%N :: token)).
Proof.
  intros Hscheme Htoken. unfold authorize, with_authorization. cbn [headers].
  rewrite bool_decide_eq_true_2 by reflexivity. unfold split_on.
  rewrite (split_on_from_plain _ _ [] Hscheme).
  rewrite (split_on_from_cut _ _ token [] Hscheme).
  rewrite (split_on_from_cut _ _ (token ++ 32%N :: rest) [] Hscheme).
  rewrite (split_on_from_plain _ _ [] Htoken).
  rewrite (split_on_from_cut _ _ rest [] Htoken).
  cbn. split; [reflexivity|]. split; [|reflexivity].
  destruct token; reflexivity.
Qed.

(** X11. A token made by [generate_token] for a user opens the protected
    views for that user: when the token has no space and [jwt.decode] gives
    back a payload with the [user_id] it was made for, a request carrying it
    after any scheme word makes the decorator call the view with that user. *)
Theorem generated_token_calls_the_view_with_its_user
    (user_id : value) (now : Z) (scheme : str) (data : gmap string value) :
  32%N ∉ scheme →
  32%N ∉ generate_token user_id now →
  generate_token user_id now ≠ [] →
  jwt_decode (generate_token user_id now) = Payload data →
  data !! "user_id" = token_payload user_id now !! "user_id" →
  authorize jwt_decode
    (with_authorization (scheme ++ 32%N :: generate_token user_id now))
  = Call user_id.
Proof.
  intros Hscheme Htoken Hne Hdecode Hid.
  unfold authorize, with_authorization. cbn [headers].
  rewrite bool_decide_eq_true_2 by reflexivity. unfold split_on.
  rewrite (split_on_from_cut _ _ _ [] Hscheme).
  rewrite (split_on_from_plain _ _ [] Htoken).
  cbn. destruct (generate_token user_id now) as [|c token] eqn:Hgen; [congruence|].
  rewrite Hdecode, Hid. unfold token_payload. by rewrite lookup_insert_eq.
Qed.

End Tokens.

(** A codec for the witnesses: the token is the user's name after [t.]. *)
Definition name_encode (payload : gmap string value) : str :=
  match payload !! "user_id" with
  | Some (VStr name) => lit "t." ++ name
  | _ => []
  end.
Definition name_decode (token : str) : decoded :=
  if startswith token (lit "t.")
  then Payload {["user_id" := VStr (drop 2 token)]}
  else InvalidTokenError.

Lemma authorization_scheme_witness :
  authorize name_decode (with_authorization (lit "Basic t.ann"))
  = Call (VStr (lit "ann")).
Proof.
  refine (proj1 (proj2 (authorization_scheme_is_never_checked name_decode
                          (lit "Basic") (lit "t.ann") [] _ _))).
  - vm_compute. intros H. repeat (apply elem_of_cons in H as [H|H]; [discriminate|]).
    by apply elem_of_nil in H.
  - vm_compute. intros H. repeat (apply elem_of_cons in H as [H|H]; [discriminate|]).
    by apply elem_of_nil in H.
Defined.

Lemma generated_token_witness :
  authorize name_decode
    (with_authorization (lit "Bearer" ++ 32%N :: generate_token name_encode (VStr (lit "ann")) 0))
  = Call (VStr (lit "ann")).
Proof.
  refine (generated_token_calls_the_view_with_its_user name_encode name_decode
            (VStr (lit "ann")) 0 (lit "Bearer") {["user_id" := VStr (lit "ann")]}
            _ _ _ _ _).
  - vm_compute. intros H. repeat (apply elem_of_cons in H as [H|H]; [discriminate|]).
    by apply elem_of_nil in H.
  - vm_compute. intros H. repeat (apply elem_of_cons in H as [H|H]; [discriminate|]).
    by apply elem_of_nil in H.
  - vm_compute. discriminate.
  - vm_compute. reflexivity.
  - vm_compute. reflexivity.
Defined.

End TokenFacts.

(* --------------------------------------------------------------------- *)
(** ** analysis.py: what the sampling loops keep, and when they fail *)
(* --------------------------------------------------------------------- *)

Module VideoFacts.
Import Py Analysis.

Section Loops.

Context {frame : Type}.
Variable pose_process : frame → option (list landmark).
Variable face_process : frame → list (list landmark).

(** What the loop of [analyze_video_ultrafast] keeps true of its locals:
    posture and confidence are sampled together, at most once per frame
    read, and eye contact at most on every third frame read. *)
Definition sampled_within (st : samples) : Prop :=
  length (posture_samples st) = length (confidence_samples st)
  ∧ Z.of_nat (length (posture_samples st)) ≤ frame_count st
  ∧ 3 * Z.of_nat (length (eye_contact_samples st)) ≤ frame_count st.

Lemma index_raises {A : Type} (l : list A) (i : nat) (e : exn) :
  index l i = Raise e → e = IndexError.
Proof. unfold index. destruct (l !! i); [discriminate|]. congruence. Qed.

(** One frame: the counter grows by one, the invariant is kept, and only a
    missing landmark makes it fail. *)
Lemma ultrafast_frame_keeps (fr : frame) (st : samples) :
  sampled_within st →
  match ultrafast_frame pose_process face_process fr st with
  | Ok st' => frame_count st' = frame_count st + 1 ∧ sampled_within st'
  | Raise e => e = IndexError
  end.
Proof.
  intros (Hsame & Hposture & Heye).
  unfold ultrafast_frame, pose_analysis. cbn [posture_samples eye_contact_samples
    confidence_samples frame_count].
  assert (Hface : ∀ st1 : samples,
            frame_count st1 = frame_count st + 1 →
            eye_contact_samples st1 = eye_contact_samples st →
            length (posture_samples st1) = length (confidence_samples st1) →
            Z.of_nat (length (posture_samples st1)) ≤ frame_count st1 →
            match face_analysis face_process fr st1 with
            | Ok st' => frame_count st' = frame_count st + 1 ∧ sampled_within st'
            | Raise e => e = IndexError
            end).
  { intros st1 Hcount Heyes Hsame1 Hposture1. unfold face_analysis.
    assert (Hkept : frame_count st1 = frame_count st + 1 ∧ sampled_within st1).
    { split; [exact Hcount|]. split; [exact Hsame1|]. split; [exact Hposture1|].
      rewrite Heyes. lia. }
    destruct (Z.eqb_spec (frame_count st1 mod 3) 0) as [Hthird|_]; [|exact Hkept].
    destruct (face_process fr) as [|landmarks others]; [exact Hkept|].
    destruct (index landmarks 33) as [left_eye|e] eqn:Hl;
      [|cbn; exact (index_raises _ _ _ Hl)].
    destruct (index landmarks 263) as [right_eye|e] eqn:Hr;
      [|cbn; exact (index_raises _ _ _ Hr)].
    unfold sampled_within. cbn.
    split; [exact Hcount|]. split; [exact Hsame1|]. split; [exact Hposture1|].
    rewrite Heyes, length_app. cbn [length].
    pose proof (Z.div_mod (frame_count st1) 3). lia. }
  destruct (pose_process fr) as [landmarks|].
  - destruct (index landmarks LEFT_SHOULDER) as [ls|e] eqn:H1;
      [|cbn; exact (index_raises _ _ _ H1)].
    destruct (index landmarks RIGHT_SHOULDER) as [rs|e] eqn:H2;
      [|cbn; exact (index_raises _ _ _ H2)].
    destruct (index landmarks LEFT_HIP) as [lh|e] eqn:H3;
      [|cbn; exact (index_raises _ _ _ H3)].
    destruct (index landmarks RIGHT_HIP) as [rh|e] eqn:H4;
      [|cbn; exact (index_raises _ _ _ H4)].
    cbn [mbind result_bind]. apply Hface; cbn [posture_samples eye_contact_samples
      confidence_samples frame_count]; [reflexivity|reflexivity| |].
    + rewrite !length_app. cbn [length]. lia.
    + rewrite length_app. cbn [length]. lia.
  - cbn [mbind result_bind]. apply Hface; cbn [posture_samples eye_contact_samples
      confidence_samples frame_count]; [reflexivity|reflexivity|exact Hsame|lia].
Qed.

Lemma ultrafast_loop_keeps (cap : capture) (target_samples : Z) (positions : list Z) :
  ∀ st,
    sampled_within st →
    match ultrafast_loop pose_process face_process cap target_samples positions st with
    | Ok st' =>
        frame_count st ≤ frame_count st'
        ∧ frame_count st' ≤ Z.max (frame_count st) target_samples
        ∧ sampled_within st'
    | Raise e => e = IndexError
    end.
Proof.
  induction positions as [|i rest IH]; intros st Hst; cbn [ultrafast_loop].
  - split; [lia|]. split; [lia|exact Hst].
  - destruct (Z.leb_spec target_samples (frame_count st)) as [Hfull|Hroom].
    { split; [lia|]. split; [lia|exact Hst]. }
    destruct (read_at cap i) as [fr|].
    2:{ split; [lia|]. split; [lia|exact Hst]. }
    pose proof (ultrafast_frame_keeps fr st Hst) as Hframe.
    destruct (ultrafast_frame pose_process face_process fr st) as [st1|e];
      [|exact Hframe].
    destruct Hframe as [Hcount Hst1]. cbn [mbind result_bind].
    specialize (IH st1 Hst1).
    destruct (ultrafast_loop pose_process face_process cap target_samples rest st1)
      as [st'|e]; [|exact IH].
    destruct IH as (Hle & Hmax & Hst'). split; [lia|]. split; [lia|exact Hst'].
Qed.

(** The frame counter after the sampling, and the failures of the sampling. *)
Lemma ultrafast_frame_counter_bounds (cap : capture) :
  match ultrafast_samples pose_process face_process cap with
  | Ok st => frame_count_prop cap ≠ 0 ∧ 0 ≤ frame_count st ≤ 60
  | Raise e =>
      (e = ZeroDivisionError ∧ frame_count_prop cap = 0)
      ∨ (e = IndexError ∧ frame_count_prop cap ≠ 0)
  end.
Proof.
  unfold ultrafast_samples, floordiv.
  destruct (Z.eqb_spec (Z.min 60 (frame_count_prop cap)) 0) as [Hzero|Hpos].
  { cbn. left. split; [reflexivity|lia]. }
  cbn [mbind result_bind].
  assert (Hstart : sampled_within no_samples).
  { unfold sampled_within. cbn. lia. }
  pose proof (ultrafast_loop_keeps cap (Z.min 60 (frame_count_prop cap))
                (range (frame_count_prop cap)
                   (Z.max 1 (frame_count_prop cap / Z.min 60 (frame_count_prop cap))))
                no_samples Hstart) as Hloop.
  destruct (ultrafast_loop pose_process face_process cap _ _ no_samples) as [st|e].
  - destruct Hloop as (Hle & Hmax & _).
    cbn [frame_count no_samples] in Hle, Hmax. split; lia.
  - right. split; [exact Hloop|lia].
Qed.

(** X12. The sampling of [analyze_video_ultrafast] reads at most
    [min(60, total_frames)] frames; it takes a posture and a confidence sample
    together, at most one pair per frame read, and an eye-contact sample at
    most on every third frame read.  It fails only by dividing by a frame
    count of zero or on a landmark list that is too short. *)
Theorem ultrafast_sampling_is_bounded_by_frames_read (cap : capture) :
  match ultrafast_samples pose_process face_process cap with
  | Ok st =>
      0 ≤ frame_count st ≤ 60
      ∧ frame_count st ≤ Z.max 0 (frame_count_prop cap)
      ∧ length (posture_samples st) = length (confidence_samples st)
      ∧ Z.of_nat (length (posture_samples st)) ≤ frame_count st
      ∧ 3 * Z.of_nat (length (eye_contact_samples st)) ≤ frame_count st
  | Raise e =>
      (e = ZeroDivisionError ∧ frame_count_prop cap = 0) ∨ e = IndexError
  end.
Proof.
  unfold ultrafast_samples, floordiv.
  destruct (Z.eqb_spec (Z.min 60 (frame_count_prop cap)) 0) as [Hzero|Hpos].
  { cbn. left. split; [reflexivity|lia]. }
  cbn [mbind result_bind].
  assert (Hstart : sampled_within no_samples).
  { unfold sampled_within. cbn. lia. }
  pose proof (ultrafast_loop_keeps cap (Z.min 60 (frame_count_prop cap))
                (range (frame_count_prop cap)
                   (Z.max 1 (frame_count_prop cap / Z.min 60 (frame_count_prop cap))))
                no_samples Hstart) as Hloop.
  destruct (ultrafast_loop pose_process face_process cap _ _ no_samples) as [st|e].
  - destruct Hloop as (Hle & Hmax & Hsame & Hposture & Heye).
    cbn [frame_count no_samples] in Hle, Hmax.
    split; [lia|]. split; [lia|]. auto.
  - right. exact Hloop.
Qed.

Lemma calculate_smoothed_score_returns (samples : list bool) (baseline variation : Z) :
  30 ≤ baseline ≤ 95 →
  ∃ v, calculate_smoothed_score samples baseline variation = Ok v ∧ between 30 95 v.
Proof.
  intros Hb.
  assert (Hsome : ∃ v, calculate_smoothed_score samples baseline variation = Ok v).
  { destruct samples as [|b rest] eqn:E; [eexists; reflexivity|].
    rewrite calculate_smoothed_score_nonempty by congruence. eexists. reflexivity. }
  destruct Hsome as [v Hv]. exists v. split; [exact Hv|].
  exact (calculate_smoothed_score_between _ _ _ _ Hb Hv).
Qed.

(** X13. [analyze_video_ultrafast] returns [{}] exactly for a capture that
    did not open.  For an opened capture that reports zero frames it raises
    [ZeroDivisionError], and it raises that for no other capture; otherwise
    it fails only on a landmark list that is too short, and the dictionary it
    returns has its three scores between 30 and 95 and [frames_analyzed]
    between 0 and 60. *)
Theorem analyze_video_ultrafast_outcomes (cap : capture) :
  (isOpened cap = true → frame_count_prop cap = 0 →
   analyze_video_ultrafast pose_process face_process cap = Raise ZeroDivisionError)
  ∧ match analyze_video_ultrafast pose_process face_process cap with
    | Ok None => isOpened cap = false
    | Ok (Some r) =>
        isOpened cap = true
        ∧ frame_count_prop cap ≠ 0
        ∧ between 30 95 (posture_score r)
        ∧ between 30 95 (eye_contact_score r)
        ∧ between 30 95 (confidence_score r)
        ∧ ∃ n, frames_analyzed r = Some n ∧ 0 ≤ n ≤ 60
    | Raise e =>
        isOpened cap = true
        ∧ ((e = ZeroDivisionError ∧ frame_count_prop cap = 0)
           ∨ (e = IndexError ∧ frame_count_prop cap ≠ 0))
    end.
Proof.
  unfold analyze_video_ultrafast.
  destruct (isOpened cap); [|split; [discriminate|reflexivity]]. cbn [negb].
  pose proof (ultrafast_frame_counter_bounds cap) as Hsamples.
  destruct (ultrafast_samples pose_process face_process cap) as [st|e].
  2:{ split; [|split; [reflexivity|exact Hsamples]].
      intros _ Hzero. destruct Hsamples as [[-> _]|[_ Hnonzero]];
        [reflexivity|contradiction]. }
  destruct Hsamples as (Hnonzero & Hcount).
  split; [intros _ Hzero; contradiction|].
  cbn [mbind result_bind].
  destruct (calculate_smoothed_score_returns (posture_samples st) 65 5 ltac:(lia))
    as (posture & -> & Hposture).
  destruct (calculate_smoothed_score_returns (eye_contact_samples st) 60 5 ltac:(lia))
    as (eye & -> & Heye).
  destruct (calculate_smoothed_score_returns (confidence_samples st) 65 5 ltac:(lia))
    as (confidence & -> & Hconfidence).
  cbn. split; [reflexivity|]. split; [exact Hnonzero|].
  split; [exact Hposture|]. split; [exact Heye|]. split; [exact Hconfidence|].
  exists (frame_count st). split; [reflexivity|exact Hcount].
Qed.

Lemma one_click_frame_checked (fr : frame) (st : quick_counts) :
  match one_click_frame pose_process face_process fr st with
  | Ok st' => frames_checked st' = frames_checked st + 1
  | Raise e => e = IndexError
  end.
Proof.
  unfold one_click_frame.
  destruct (pose_process fr) as [landmarks|]; [|reflexivity].
  destruct (index landmarks 11) as [l|e] eqn:Hl; [|cbn; exact (index_raises _ _ _ Hl)].
  destruct (index landmarks 12) as [r|e] eqn:Hr; [|cbn; exact (index_raises _ _ _ Hr)].
  cbn. destruct (PrimFloat.ltb _ _); reflexivity.
Qed.

Lemma one_click_loop_checked (cap : capture) (sample_frames : Z) (positions : list Z) :
  ∀ st,
    match one_click_loop pose_process face_process cap sample_frames positions st with
    | Ok st' => frames_checked st ≤ frames_checked st'
    | Raise e => e = IndexError
    end.
Proof.
  induction positions as [|i rest IH]; intros st; cbn [one_click_loop]; [lia|].
  destruct (sample_frames <=? frames_checked st); [lia|].
  destruct (read_at cap i) as [fr|]; [|lia].
  pose proof (one_click_frame_checked fr st) as Hframe.
  destruct (one_click_frame pose_process face_process fr st) as [st1|e];
    [|exact Hframe].
  cbn [mbind result_bind]. specialize (IH st1).
  destruct (one_click_loop pose_process face_process cap sample_frames rest st1);
    [lia|exact IH].
Qed.

(** [range(0, stop, step)] starts at 0 when [stop] is positive, and is empty
    otherwise. *)
Lemma range_first (stop step : Z) :
  1 ≤ step →
  if 0 <? stop then ∃ rest, range stop step = 0 :: rest else range stop step = [].
Proof.
  intros Hstep. unfold range.
  destruct (Z.ltb_spec 0 stop) as [Hpos|Hneg].
  - assert (Hn : 1 ≤ (stop + step - 1) / step).
    { apply Z.div_le_lower_bound; lia. }
    destruct (Z.to_nat ((stop + step - 1) / step)) as [|n] eqn:Hto; [lia|].
    eexists. cbn [seq map]. reflexivity.
  - assert (Hn : (stop + step - 1) / step ≤ 0).
    { apply Z.lt_succ_r. apply Z.div_lt_upper_bound; lia. }
    replace (Z.to_nat ((stop + step - 1) / step)) with 0%nat by lia. reflexivity.
Qed.

(** X14. [one_click_analysis] divides by the number of frames it checked:
    it raises [ZeroDivisionError] exactly when the capture reports no frame
    or its first frame cannot be read (an unreadable or empty video). *)
Theorem one_click_analysis_divides_by_zero_iff_no_frame_is_read (cap : capture) :
  one_click_analysis pose_process face_process cap = Raise ZeroDivisionError
  ↔ frame_count_prop cap ≤ 0 ∨ read_at cap 0 = None.
Proof.
  unfold one_click_analysis, one_click_counts, floordiv.
  set (total := frame_count_prop cap).
  destruct (Z.eqb_spec (Z.min 20 total) 0) as [Hzero|Hnonzero].
  { cbn. split; [intros _; left; lia|reflexivity]. }
  cbn [mbind result_bind].
  set (interval := Z.max 1 (total / Z.min 20 total)).
  pose proof (range_first total interval ltac:(lia)) as Hrange.
  destruct (Z.ltb_spec 0 total) as [Hpos|Hneg].
  - destruct Hrange as [rest ->]. cbn [one_click_loop frames_checked].
    destruct (Z.leb_spec (Z.min 20 total) 0) as [Hle|_]; [lia|].
    destruct (read_at cap 0) as [fr|].
    2:{ cbn. split; [intros _; right; reflexivity|reflexivity]. }
    assert (Hnot : ∀ r : result video_results,
              r ≠ Raise ZeroDivisionError →
              r = Raise ZeroDivisionError ↔ total ≤ 0 ∨ Some fr = None).
    { intros r Hr. split; [intros H; contradiction|].
      intros [H|H]; [lia|discriminate]. }
    apply Hnot.
    pose proof (one_click_frame_checked fr
                  {| posture_count := 0; frontal_face_count := 0; frames_checked := 0 |})
      as Hframe.
    destruct (one_click_frame pose_process face_process fr _) as [st1|e];
      [|cbn; subst e; discriminate].
    cbn [frames_checked] in Hframe. cbn [mbind result_bind].
    pose proof (one_click_loop_checked cap (Z.min 20 total) rest st1) as Hloop.
    destruct (one_click_loop pose_process face_process cap (Z.min 20 total) rest st1)
      as [st|e]; [|cbn; subst e; discriminate].
    cbn [mbind result_bind]. unfold truediv. cbn [is_zero].
    destruct (Z.eqb_spec (frames_checked st) 0) as [Hnone|_]; [lia|].
    cbn [mbind result_bind]. change (2 =? 0) with false. cbn iota.
    cbn [mbind result_bind]. discriminate.
  - rewrite Hrange. cbn. split; [intros _; left; exact Hneg|reflexivity].
Qed.

End Loops.

End VideoFacts.

(* --------------------------------------------------------------------- *)
(** ** routes/auth.py: [register], [login] and [clear_user_data] *)
(* --------------------------------------------------------------------- *)

Module AccountViews.
Import Py Backend Backend.Mongo Backend.AuthRoutes MongoFacts UserAccounts TokenFacts.

(** [str(n)] for an integer: its decimal digits, most significant first. *)
Fixpoint decimal_digits (fuel : nat) (n : N) (acc : str) : str :=
  match fuel with
  | O => acc
  | S fuel =>
      let acc := (48 + n mod 10)%N :: acc in
      if (n / 10 =? 0)%N then acc else decimal_digits fuel (n / 10)%N acc
  end.
Definition str_of_int (z : Z) : str :=
  let digits (n : N) := decimal_digits (S (N.to_nat (N.log2 n))) n [] in
  if z <? 0 then 45%N :: digits (Z.to_N (- z)) else digits (Z.to_N z).

Example str_of_int_example :
  str_of_int 0 = lit "0" ∧ str_of_int 1205 = lit "1205" ∧ str_of_int (-37) = lit "-37".
Proof. repeat split; reflexivity. Qed.

(** [v.strip()] on a field of a JSON body: a string, or a value without
    that method. *)
Definition strip_field (v : value) : Py.result str :=
  match v with
  | VStr s => Ok (strip s)
  | _ => Raise (Exception "AttributeError")
  end.

(** [all(field in data for field in required_fields)] *)
Fixpoint all_in (data : value) (required_fields : list string) : Py.result bool :=
  match required_fields with
  | [] => Ok true
  | field :: rest =>
      match contains_key data field with
      | Ok true => all_in data rest
      | Ok false => Ok false
      | Raise e => Raise e
      end
  end.

Section Views.

Variable lower : str → str.
Variable checkpw : str → value → Py.result bool.
Variable jwt_encode : gmap string value → str.

(** [register()], the view behind POST /api/auth/register; [data] is
    [request.get_json()], [hashed_password] what
    [bcrypt.hashpw(password.encode('utf-8'), bcrypt.gensalt())] gives when
    [create_user] reaches it, [now] the time and [inserted_id] the identifier
    the driver generates. *)
Definition register (data : value) (hashed_password : Py.result (list N)) (now : Z)
    (inserted_id : N) : world → world * response :=
  catching "Registration failed: "
    (complete ← lift (all_in data ["email"; "password"; "full_name"]);
     if negb complete then mret (error_response "Missing required fields" 400)
     else
       email ← lift (getitem data "email" ≫= strip_field);
       password ← lift (getitem data "password");
       full_name ← lift (getitem data "full_name" ≫= strip_field);
       n ← lift (len password);
       if n <? 6
       then mret (error_response "Password must be at least 6 characters" 400)
       else if negb (contains email (lit "@"))
       then mret (error_response "Invalid email format" 400)
       else
         existing ← reads (fun w =>
                      find_one (field_is_str "email" (lower email)) (users w));
         match existing with
         | Some _ => mret (error_response "User already exists" 400)
         | None =>
             hashed ← lift (match password with
                            | VStr _ => hashed_password
                            | _ => Raise (Exception "AttributeError")
                            end);
             created ← reads (fun w =>
                         UserModel.create_user lower email full_name hashed now
                           inserted_id (users w));
             _ ← modify (fun w =>
                    {| fs := fs w; users := created.1; analyses := analyses w |});
             match created.2 with
             | (_, Some (c :: error)) => mret (Json {["error" := VStr (c :: error)]} 400)
             | (Some user, _) =>
                 id ← lift (getitem (VDict user) "_id");
                 mret (Json (<["message" := VStr (lit "User registered successfully")]>
                            (<["token" := VStr (generate_token jwt_encode id now)]>
                            (<["user" := VDict user]> ∅))) 201)
             | (None, _) => raise TypeError
             end
         end).

(** [login()], the view behind POST /api/auth/login. *)
Definition login (data : value) (now : Z) : world → world * response :=
  catching "Login failed: "
    (has_email ← lift (contains_key data "email");
     has_password ← lift (if has_email then contains_key data "password" else Ok false);
     if negb (has_email && has_password)
     then mret (error_response "Email and password required" 400)
     else
       email ← lift (getitem data "email" ≫= strip_field);
       password ← lift (getitem data "password");
       outcome ←
         match password with
         | VStr password =>
             found ← reads (fun w =>
                       authenticate lower checkpw email password (users w));
             lift found
         | _ =>
             (* [password.encode] is reached only for a stored address *)
             user ← reads (fun w =>
                      find_one (field_is_str "email" (lower email)) (users w));
             match user with
             | Some user =>
                 if truthy (VDict user) then raise (Exception "AttributeError")
                 else mret (None, Some (lit "Invalid credentials"))
             | None => mret (None, Some (lit "Invalid credentials"))
             end
         end;
       match outcome with
       | (_, Some (c :: error)) => mret (Json {["error" := VStr (c :: error)]} 401)
       | (Some user, _) =>
           id ← lift (getitem (VDict user) "_id");
           mret (Json (<["message" := VStr (lit "Login successful")]>
                      (<["token" := VStr (generate_token jwt_encode id now)]>
                      (<["user" := VDict user]> ∅))) 200)
       | (None, _) => raise TypeError
       end).

(** [clear_user_data(current_user_id)], the view behind
    DELETE /api/auth/clear-data. *)
Definition clear_user_data (current_user_id : str) : world → world * response :=
  catching "Failed to clear data: "
    (deleted_count ← reads (fun w =>
                       snd (delete_many (field_is_str "user_id" current_user_id)
                              (analyses w)));
     _ ← modify (fun w =>
            {| fs := fs w;
               users := users w;
               analyses :=
                 fst (delete_many (field_is_str "user_id" current_user_id)
                        (analyses w)) |});
     user ← reads (fun w => UserModel.get_user_by_id current_user_id (users w));
     _ ← match user with
         | Some user =>
             if truthy (VDict user) && has_key user "subscription"
             then modify (fun w =>
                    {| fs := fs w;
                       users := update_one (field_is_str "_id" current_user_id)
                                  reset_analyses_used (users w);
                       analyses := analyses w |})
             else mret ()
         | None => mret ()
         end;
     mret (Json (<["message" :=
                     VStr (lit "Successfully cleared " ++ str_of_int deleted_count
                           ++ lit " analysis records")]>
                (<["deleted_count" := VInt deleted_count]> ∅)) 200)).

Lemma getitem_Ok (data : value) (key : string) (v : value) :
  getitem data key = Ok v → ∃ body, data = VDict body ∧ body !! key = Some v.
Proof.
  destruct data; try discriminate. simpl.
  destruct (d !! key) as [x|] eqn:Hx; [|discriminate].
  intros H. injection H as <-. eauto.
Qed.

Lemma strip_field_Ok (v : value) (s : str) :
  strip_field v = Ok s → ∃ raw, v = VStr raw ∧ s = strip raw.
Proof.
  destruct v; try discriminate. intros H. injection H as <-. eauto.
Qed.

(** What [register] has done when it answers 201. *)
Definition registered (data : value) (hashed : list N) (inserted_id : N)
    (w w' : world) : Prop :=
  ∃ body email password full_name stored,
    data = VDict body
    ∧ body !! "email" = Some (VStr email)
    ∧ body !! "password" = Some (VStr password)
    ∧ body !! "full_name" = Some (VStr full_name)
    ∧ (6 ≤ length password)%nat
    ∧ contains (strip email) (lit "@") = true
    ∧ Forall (fun d => field_is_str "email" (lower (strip email)) d = false) (users w)
    ∧ users w' = users w ++ [stored]
    ∧ stored !! "_id" = Some (VObjectId inserted_id)
    ∧ stored !! "email" = Some (VStr (lower (strip email)))
    ∧ stored !! "password" = Some (VBytes hashed)
    ∧ stored !! "full_name" = Some (VStr (strip full_name)).

(** X15. [register] answers 201 only for a body whose three fields are
    strings, with a password of at least six characters, an address that
    contains [@] and, lowered, is not stored yet; it then has appended
    exactly one account, holding the stripped, lowered address and the hash.
    Every other answer leaves the accounts as they were; files and analyses
    are never touched. *)
Theorem register_stores_validated_accounts_only
    (data : value) (hashed_password : Py.result (list N)) (now : Z) (inserted_id : N)
    (w : world) :
  let out := register data hashed_password now inserted_id w in
  fs out.1 = fs w
  ∧ analyses out.1 = analyses w
  ∧ (status_of out.2 = 201 →
     ∃ hashed, hashed_password = Ok hashed ∧ registered data hashed inserted_id w out.1)
  ∧ (status_of out.2 ≠ 201 → users out.1 = users w).
Proof.
  cbn zeta. unfold register, catching.
  unfold mbind, io_bind, lift, reads, modify, mret, io_ret, result_bind.
  assert (Hexit : ∀ r : response,
            status_of r ≠ 201 →
            fs (w, r).1 = fs w ∧ analyses (w, r).1 = analyses w
            ∧ (status_of (w, r).2 = 201 →
               ∃ hashed, hashed_password = Ok hashed
                         ∧ registered data hashed inserted_id w (w, r).1)
            ∧ (status_of (w, r).2 ≠ 201 → users (w, r).1 = users w)).
  { intros r Hr. cbn [fst snd]. split; [reflexivity|]. split; [reflexivity|].
    split; [intros H; contradiction|reflexivity]. }
  destruct (all_in data ["email"; "password"; "full_name"]) as [[|]|e];
    cbn [negb]; [|apply Hexit; discriminate|apply Hexit; discriminate].
  destruct (getitem data "email") as [email_v|e] eqn:Hemail;
    [|apply Hexit; discriminate].
  destruct (strip_field email_v) as [email|e] eqn:Hstrip;
    [|apply Hexit; discriminate].
  destruct (getitem data "password") as [password|e] eqn:Hpassword;
    [|apply Hexit; discriminate].
  destruct (getitem data "full_name") as [name_v|e] eqn:Hname;
    [|apply Hexit; discriminate].
  destruct (strip_field name_v) as [full_name|e] eqn:Hstrip';
    [|apply Hexit; discriminate].
  destruct (len password) as [n|e] eqn:Hlen; [|apply Hexit; discriminate].
  destruct (Z.ltb_spec n 6) as [Hshort|Hlong]; [apply Hexit; discriminate|].
  destruct (contains email (lit "@")) eqn:Hat; cbn [negb];
    [|apply Hexit; discriminate].
  destruct (find_one (field_is_str "email" (lower email)) (users w)) as [found|]
    eqn:Hfind; [apply Hexit; discriminate|].
  destruct password as [| | | |password| | | | |]; try (apply Hexit; discriminate).
  destruct hashed_password as [hashed|e]; [|apply Hexit; discriminate].
  apply find_one_None in Hfind.
  destruct (create_user_stored lower email full_name hashed now inserted_id (users w)
              Hfind)
    as (stored & subscription & -> & Hsid & Hsemail & Hspw & Hsname & _).
  cbn [fst snd]. rewrite (serialize_user_stored _ _ Hsid).
  cbn [getitem]. rewrite lookup_delete_ne by discriminate. rewrite lookup_insert_eq.
  cbn [fst snd status_of fs analyses users].
  split; [reflexivity|]. split; [reflexivity|].
  split; [|intros H; contradiction].
  intros _. exists hashed. split; [reflexivity|].
  apply getitem_Ok in Hemail as (body & -> & Hbemail).
  apply getitem_Ok in Hpassword as (body' & Hbody' & Hbpassword).
  apply getitem_Ok in Hname as (body'' & Hbody'' & Hbname).
  injection Hbody' as <-. injection Hbody'' as <-.
  apply strip_field_Ok in Hstrip as (raw_email & -> & ->).
  apply strip_field_Ok in Hstrip' as (raw_name & -> & ->).
  exists body, raw_email, password, raw_name, stored.
  cbn [len] in Hlen. injection Hlen as <-.
  repeat (split; [first [reflexivity | assumption | lia]|]). assumption.
Qed.

(** X16. [login] never changes the state.  It answers 200 only when a
    stored account has the stripped, lowered address of the body and
    [bcrypt.checkpw] accepts the password against its hash, and the token it
    sends is the one [generate_token] makes for that account's identifier;
    when [authenticate] refuses, the answer is 401, whatever the reason. *)
Theorem login_answers_200_only_for_accepted_credentials
    (data : value) (now : Z) (w : world) :
  let out := login data now w in
  out.1 = w
  ∧ (status_of out.2 = 200 →
     ∃ body email password stored hashed id reply,
       data = VDict body
       ∧ body !! "email" = Some (VStr email)
       ∧ body !! "password" = Some (VStr password)
       ∧ stored ∈ users w
       ∧ stored !! "email" = Some (VStr (lower (strip email)))
       ∧ stored !! "password" = Some hashed
       ∧ checkpw password hashed = Ok true
       ∧ stored !! "_id" = Some id
       ∧ out.2 = Json reply 200
       ∧ reply !! "token"
         = Some (VStr (generate_token jwt_encode (VStr (str_of id)) now)))
  ∧ (∀ email password,
       authenticate lower checkpw (strip email) password (users w)
       = Ok (None, Some (lit "Invalid credentials")) →
       login (VDict (<["email" := VStr email]> {["password" := VStr password]})) now w
       = (w, error_response "Invalid credentials" 401)).
Proof.
  cbn zeta. split; [|split].
  - unfold login, catching.
    unfold mbind, io_bind, lift, reads, modify, mret, io_ret, result_bind, raise.
    destruct (contains_key data "email") as [has_email|e]; [|reflexivity].
    destruct (if has_email then contains_key data "password" else Ok false)
      as [has_password|e]; [|reflexivity].
    destruct (negb (has_email && has_password)); [reflexivity|].
    destruct (getitem data "email") as [email_v|e]; [|reflexivity].
    destruct (strip_field email_v) as [email|e]; [|reflexivity].
    destruct (getitem data "password") as [password|e]; [|reflexivity].
    destruct password as [| | | |password| | | | |];
      try (destruct (find_one (field_is_str "email" (lower email)) (users w)) as [u|];
           [destruct (truthy (VDict u))|]; reflexivity).
    destruct (authenticate lower checkpw email password (users w))
      as [[[user|] [[|c error]|]]|e]; try reflexivity;
      destruct (getitem (VDict user) "_id"); reflexivity.
  - unfold login, catching.
    unfold mbind, io_bind, lift, reads, modify, mret, io_ret, result_bind, raise.
    destruct (contains_key data "email") as [has_email|e]; [|discriminate].
    destruct (if has_email then contains_key data "password" else Ok false)
      as [has_password|e]; [|discriminate].
    destruct (negb (has_email && has_password)); [discriminate|].
    destruct (getitem data "email") as [email_v|e] eqn:Hemail; [|discriminate].
    destruct (strip_field email_v) as [email|e] eqn:Hstrip; [|discriminate].
    destruct (getitem data "password") as [password|e] eqn:Hpassword; [|discriminate].
    destruct password as [| | | |password| | | | |];
      try (destruct (find_one (field_is_str "email" (lower email)) (users w)) as [u|];
           [destruct (truthy (VDict u))|]; discriminate).
    destruct (authenticate lower checkpw email password (users w))
      as [[user error]|e] eqn:Hauth; [|discriminate].
    apply authenticate_returns in Hauth
      as [[-> ->]|(-> & stored & hashed & id & Hin & Hsemail & Hspw & Hcheck & Hsid & ->)];
      [discriminate|].
    cbn [getitem]. rewrite lookup_delete_ne by discriminate. rewrite lookup_insert_eq.
    intros _.
    apply getitem_Ok in Hemail as (body & -> & Hbemail).
    apply getitem_Ok in Hpassword as (body' & Hbody' & Hbpassword).
    injection Hbody' as <-.
    apply strip_field_Ok in Hstrip as (raw_email & -> & ->).
    exists body, raw_email, password, stored, hashed, id. eexists.
    do 8 (split; [first [reflexivity | eassumption]|]).
    cbn [snd]. split; [reflexivity|].
    rewrite lookup_insert_ne by discriminate. apply lookup_insert_eq.
  - intros email password Hauth. unfold login, catching.
    unfold mbind, io_bind, lift, reads, modify, mret, io_ret, result_bind, raise.
    assert (Hhas : ∀ k : string,
              k = "email" ∨ k = "password" →
              contains_key
                (VDict (<["email" := VStr email]> {["password" := VStr password]})) k
              = Ok true).
    { intros k [-> | ->]; vm_compute; reflexivity. }
    rewrite (Hhas "email") by auto. rewrite (Hhas "password") by auto.
    cbn [andb negb getitem]. rewrite lookup_insert_eq.
    rewrite lookup_insert_ne by discriminate. rewrite lookup_singleton_eq.
    cbn [strip_field]. rewrite Hauth. reflexivity.
Qed.

Lemma filter_lengths {A : Type} (f : A → bool) (l : list A) :
  (length (List.filter f l) + length (List.filter (fun x => negb (f x)) l))%nat
  = length l.
Proof.
  induction l as [|x l IH]; [reflexivity|]. simpl.
  destruct (f x); simpl; lia.
Qed.

(** X17. [clear_user_data] answers 200 and removes exactly the analyses
    whose [user_id] is the caller: every other analysis stays, and
    [deleted_count] is the number removed.  Its filter on the accounts
    compares [_id] with the caller's string, so accounts stored under an
    [ObjectId], as [create_user] stores them, are left as they are: the
    usage counter is not reset. *)
Theorem clear_user_data_removes_the_callers_analyses_only
    (current_user_id : str) (w : world) :
  let out := clear_user_data current_user_id w in
  fs out.1 = fs w
  ∧ (∀ d, d ∈ analyses out.1
          ↔ d ∈ analyses w ∧ d !! "user_id" ≠ Some (VStr current_user_id))
  ∧ (∃ reply,
       out.2 = Json reply 200
       ∧ reply !! "deleted_count"
         = Some (VInt (Z.of_nat (length (analyses w))
                       - Z.of_nat (length (analyses out.1)))))
  ∧ (Forall (fun d => ∃ oid, d !! "_id" = Some (VObjectId oid)) (users w) →
     users out.1 = users w).
Proof.
  cbn zeta. unfold clear_user_data, catching.
  unfold mbind, io_bind, lift, reads, modify, mret, io_ret, result_bind.
  cbn [users analyses fs delete_many fst snd].
  set (mine := field_is_str "user_id" current_user_id).
  assert (Hothers : ∀ d, d ∈ List.filter (fun d => negb (mine d)) (analyses w)
                         ↔ d ∈ analyses w ∧ d !! "user_id" ≠ Some (VStr current_user_id)).
  { intros d. rewrite !list_elem_of_In, filter_In, negb_true_iff.
    assert (Hmine : mine d = false ↔ d !! "user_id" ≠ Some (VStr current_user_id)).
    { unfold mine, field_is_str. destruct (d !! "user_id") as [v|].
      - pose proof (is_str_eq v current_user_id) as Heq.
        destruct (is_str v current_user_id); split; intros H; try congruence.
        + exfalso. apply H. f_equal. apply Heq. reflexivity.
        + intros Hv. injection Hv as ->.
          assert (false = true) by (apply Heq; reflexivity). discriminate.
      - split; [discriminate|reflexivity]. }
    rewrite Hmine. reflexivity. }
  assert (Hcount : Z.of_nat (length (List.filter mine (analyses w)))
                   = Z.of_nat (length (analyses w))
                     - Z.of_nat (length (List.filter (fun d => negb (mine d))
                                           (analyses w)))).
  { pose proof (filter_lengths mine (analyses w)). lia. }
  assert (Hsame : Forall (fun d => ∃ oid, d !! "_id" = Some (VObjectId oid)) (users w) →
                  update_one (field_is_str "_id" current_user_id) reset_analyses_used
                    (users w) = users w).
  { intros Hids. apply update_one_no_match.
    eapply Forall_impl; [exact Hids|].
    intros d [oid Hd]. unfold field_is_str. rewrite Hd. reflexivity. }
  destruct (UserModel.get_user_by_id current_user_id (users w)) as [user|].
  - destruct (truthy (VDict user) && has_key user "subscription");
      cbn [fst snd fs analyses users];
      (split; [reflexivity|]); (split; [exact Hothers|]);
      (split; [eexists; split; [reflexivity|];
               rewrite lookup_insert_ne by discriminate;
               rewrite lookup_insert_eq, Hcount; reflexivity|]);
      [exact Hsame|reflexivity].
  - cbn [fst snd fs analyses users].
    split; [reflexivity|]. split; [exact Hothers|].
    split; [|reflexivity].
    eexists. split; [reflexivity|].
    rewrite lookup_insert_ne by discriminate.
    rewrite lookup_insert_eq, Hcount. reflexivity.
Qed.

End Views.

(** A registration, a login and a clearing that go through. *)
Definition ann_body : value :=
  VDict (<["email" := VStr (lit " Ann@X.org ")]>
        (<["password" := VStr (lit "secret")]>
        (<["full_name" := VStr (lit "Ann")]> ∅))).
Definition no_accounts : world :=
  {| fs := {| FileHandler.files := ∅; FileHandler.remove_script := [] |};
     users := []; analyses := [] |}.

Example register_then_login_example :
  status_of (register ascii_lower name_encode ann_body (Ok (lit "secret")) 0 9
               no_accounts).2 = 201
  ∧ status_of
      (login ascii_lower plain_checkpw name_encode ann_body 1
         (register ascii_lower name_encode ann_body (Ok (lit "secret")) 0 9
            no_accounts).1).2 = 200.
Proof. split; vm_compute; reflexivity. Qed.

End AccountViews.

(* --------------------------------------------------------------------- *)
(** ** interview.py and services/interview_service.py: the resume text *)
(* --------------------------------------------------------------------- *)

Module ResumeText.
Import Py.

Section Pdf.

Context {pdf page : Type}.
Variable pdfplumber_open : string → result pdf.
Variable pdf_pages : pdf → result (list page).
Variable extract_text : page → result (option str).

(** The [for page in pdf.pages] loop of [parse_resume]. *)
Fixpoint parse_pages (pages : list page) (text : str) : result str :=
  match pages with
  | [] => Ok text
  | page :: rest =>
      page_text ← extract_text page;
      match page_text with
      | Some (c :: t) => parse_pages rest (text ++ (c :: t) ++ [10%N])
      | Some [] | None => parse_pages rest text
      end
  end.

(** [parse_resume(pdf_path)] *)
Definition parse_resume (pdf_path : string) : option str :=
  match (pdf ← pdfplumber_open pdf_path;
         pages ← pdf_pages pdf;
         parse_pages pages [])
  with
  | Ok text =>
      match strip text with
      | [] => None
      | _ => Some text
      end
  | Raise _ => None
  end.

(** [InterviewService.parse_resume_file(pdf_path)]: the pair
    [(resume_text, error)]. *)
Definition parse_resume_file (pdf_path : string) : option str * option str :=
  match parse_resume pdf_path with
  | Some (c :: resume_text) =>
      if Z.of_nat (length (strip (c :: resume_text))) <? 50
      then (None, Some (lit "Could not extract sufficient text from resume"))
      else (Some (c :: resume_text), None)
  | Some [] | None => (None, Some (lit "Could not extract sufficient text from resume"))
  end.

(** The page texts, each followed by a newline, pages without text
    skipped. *)
Definition lines (texts : list (option str)) : str :=
  concat ((fun t => t ++ [10%N]) <$> filter (fun t => t ≠ []) (omap id texts)).

Lemma parse_pages_lines (pages : list page) (texts : list (option str)) :
  Forall2 (fun p t => extract_text p = Ok t) pages texts →
  ∀ text, parse_pages pages text = Ok (text ++ lines texts).
Proof.
  induction 1 as [|p t ps ts Hp _ IH]; intros text.
  - simpl. unfold lines. simpl. by rewrite app_nil_r.
  - cbn [parse_pages]. rewrite Hp. cbn [mbind result_bind].
    destruct t as [[|c t]|]; rewrite IH.
    + unfold lines. change (omap id (Some [] :: ts)) with (([] : str) :: omap id ts).
      rewrite filter_cons_False; [reflexivity|]. auto.
    + unfold lines. change (omap id (Some (c :: t) :: ts)) with ((c :: t) :: omap id ts).
      rewrite filter_cons_True by discriminate.
      rewrite fmap_cons. cbn [concat]. by rewrite <- !app_assoc.
    + reflexivity.
Qed.

Lemma parse_pages_raises (pages : list page) :
  Exists (fun p => ∃ e, extract_text p = Raise e) pages →
  ∀ text, ∃ e, parse_pages pages text = Raise e.
Proof.
  induction 1 as [p ps [e He]|p ps _ IH]; intros text; cbn [parse_pages].
  - rewrite He. exists e. reflexivity.
  - destruct (extract_text p) as [[[|c t]|]|e]; cbn [mbind result_bind];
      first [apply IH | by exists e].
Qed.

(** X18. [parse_resume_file] hands the interview a resume text only when
    the PDF was read and its text, stripped, has at least fifty characters;
    the text it hands over is the page texts joined by newlines, not
    stripped.  A PDF that cannot be read, and one with less text, both give
    the same error. *)
Theorem parse_resume_file_needs_fifty_characters (pdf_path : string) :
  let insufficient := (None, Some (lit "Could not extract sufficient text from resume")) in
  (∀ doc pages texts,
     pdfplumber_open pdf_path = Ok doc →
     pdf_pages doc = Ok pages →
     Forall2 (fun p t => extract_text p = Ok t) pages texts →
     parse_resume_file pdf_path
     = if Z.of_nat (length (strip (lines texts))) <? 50 then insufficient
       else (Some (lines texts), None))
  ∧ (∀ e, pdfplumber_open pdf_path = Raise e → parse_resume_file pdf_path = insufficient)
  ∧ (∀ doc e,
       pdfplumber_open pdf_path = Ok doc → pdf_pages doc = Raise e →
       parse_resume_file pdf_path = insufficient)
  ∧ (∀ doc pages,
       pdfplumber_open pdf_path = Ok doc → pdf_pages doc = Ok pages →
       Exists (fun p => ∃ e, extract_text p = Raise e) pages →
       parse_resume_file pdf_path = insufficient).
Proof.
  cbn zeta. unfold parse_resume_file, parse_resume. repeat split.
  - intros doc pages texts -> Hpages Hall. cbn [mbind result_bind].
    rewrite Hpages. cbn [mbind result_bind].
    rewrite (parse_pages_lines _ _ Hall). cbn [app].
    destruct (strip (lines texts)) as [|c rest] eqn:Hstrip; [reflexivity|].
    destruct (lines texts) as [|c' text] eqn:Hlines; [discriminate|].
    rewrite Hstrip. reflexivity.
  - intros e ->. reflexivity.
  - intros doc e -> Hpages. cbn [mbind result_bind]. rewrite Hpages. reflexivity.
  - intros doc pages -> Hpages Hraises. cbn [mbind result_bind].
    rewrite Hpages. cbn [mbind result_bind].
    destruct (parse_pages_raises _ Hraises []) as [e ->]. reflexivity.
Qed.

End Pdf.

Example parse_resume_file_example :
  let long := lit "Jane Doe, verification engineer with ten years of Rocq." in
  parse_resume_file (fun _ => Ok [Some long; None; Some (lit "Skills: proofs")])
    (fun doc => Ok doc) (fun page => Ok page) "cv.pdf"
  = (Some (long ++ [10%N] ++ lit "Skills: proofs" ++ [10%N]), None)
  ∧ parse_resume_file (fun _ => Ok [Some (lit "Jane Doe")])
      (fun doc => Ok doc) (fun page : option str => Ok page) "cv.pdf"
    = (None, Some (lit "Could not extract sufficient text from resume")).
Proof. split; vm_compute; reflexivity. Qed.

End ResumeText.

(* --------------------------------------------------------------------- *)
(** ** analysis.py: the action plan of the report *)
(* --------------------------------------------------------------------- *)

Module ActionPlan.
Import Py Analysis.

(** The general best practices [generate_action_plan] appends. *)
Definition general_practices : list str :=
  [lit "Practice 2-minute presentations daily";
   lit "Watch recordings to self-assess and identify improvement areas";
   lit "Get feedback from colleagues or mentors regularly"].

(** The list [actions] of [generate_action_plan] before it is cut;
    [audio_results] is [None] when there is no audio analysis. *)
Definition actions (video_results : video_results) (audio_results : option audio_results)
  : list str :=
  let actions :=
    [if lt (posture_score video_results) (PInt 70)
     then lit "Practice standing straight against a wall daily for 5 minutes"
     else lit "Maintain excellent posture through regular awareness checks"] in
  let actions :=
    actions ++
    [if lt (eye_contact_score video_results) (PInt 65)
     then lit "Record short videos practicing direct eye contact with the camera"
     else lit "Continue strong eye contact practice in various scenarios"] in
  let actions :=
    if lt (confidence_score video_results) (PInt 70)
    then actions ++ [lit "Practice power poses before important speaking engagements"]
    else actions in
  let actions :=
    match audio_results with
    | Some audio_results =>
        let actions :=
          if gt (wpm audio_results) (PInt 160)
          then actions
               ++ [lit "Use a metronome app to practice slower, more deliberate pacing"]
          else if lt (wpm audio_results) (PInt 110)
          then actions
               ++ [lit "Practice reading aloud with energy to increase speaking pace"]
          else actions in
        if 5 <? filler_count audio_results
        then actions
             ++ [lit "Practice speaking with deliberate pauses instead of filler words"]
        else actions
    | None => actions
    end in
  actions ++ general_practices.

(** [generate_action_plan(video_results, audio_results)]: [actions[:5]] *)
Definition generate_action_plan (video_results : video_results)
    (audio_results : option audio_results) : list str :=
  take 5 (actions video_results audio_results).

(** X19. The action plan always has exactly five entries.  The first is
    the posture action, chosen by a posture score below 70 or not, and the
    second the eye-contact action, chosen by an eye-contact score below 65
    or not.  Cutting the list at five only ever drops general best
    practices, never an action chosen from the scores. *)
Theorem generate_action_plan_has_five_actions
    (video_results : video_results) (audio_results : option audio_results) :
  length (generate_action_plan video_results audio_results) = 5%nat
  ∧ (∃ rest,
       generate_action_plan video_results audio_results
       = (if lt (posture_score video_results) (PInt 70)
          then lit "Practice standing straight against a wall daily for 5 minutes"
          else lit "Maintain excellent posture through regular awareness checks")
         :: (if lt (eye_contact_score video_results) (PInt 65)
             then lit "Record short videos practicing direct eye contact with the camera"
             else lit "Continue strong eye contact practice in various scenarios")
         :: rest)
  ∧ ∃ dropped,
      actions video_results audio_results
      = generate_action_plan video_results audio_results ++ dropped
      ∧ dropped ⊆ general_practices.
Proof.
  unfold generate_action_plan, actions, gt.
  assert (Hsub : ∀ l : list str, bool_decide (l ⊆ general_practices) = true →
                                 l ⊆ general_practices).
  { intros l Hl. apply bool_decide_eq_true in Hl. exact Hl. }
  destruct (lt (posture_score video_results) (PInt 70));
    destruct (lt (eye_contact_score video_results) (PInt 65));
    destruct (lt (confidence_score video_results) (PInt 70));
    (destruct audio_results as [audio|];
     [destruct (lt (PInt 160) (wpm audio));
      [|destruct (lt (wpm audio) (PInt 110))];
      destruct (5 <? filler_count audio)|]);
    (split; [reflexivity|]);
    (split;
     [eexists; cbn [take app]; reflexivity
     |eexists; split; [cbn [take app]; reflexivity|];
      apply Hsub; vm_compute; reflexivity]).
Qed.

End ActionPlan.

(* --------------------------------------------------------------------- *)
(** ** utils/file_handler.py and routes/analysis.py: refused uploads *)
(* --------------------------------------------------------------------- *)

Module UploadFacts.
Import Py Backend Backend.Mongo Backend.FileHandler Backend.AnalysisRoutes.

Lemma rfind_from_no_dot (s : str) :
  46%N ∉ s → ∀ i, rfind_from s (lit ".") i = None.
Proof.
  induction s as [|c s IH]; intros Hs i; [reflexivity|].
  apply not_elem_of_cons in Hs as [Hc Hs].
  cbn [rfind_from]. rewrite (IH Hs).
  change (lit ".") with [46%N]. cbn [startswith].
  destruct (N.eqb_spec 46 c) as [Heq|_]; [congruence|reflexivity].
Qed.

Section Uploads.

Variable lower : str → str.
Variable secure_filename : str → str.
Variable UPLOAD_FOLDER : str.
Variable analysis_service_analyze_video : str → io (value * value * value).
Variable create_analysis : str → str → value → value → io doc.
Variable increment_analyses_count : str → io bool.
Variable get_analysis_summary : value → io value.

(** X20. [save_file] checks the extension on the name as uploaded but
    takes it from the name as sanitized: for an allowed upload whose
    sanitized name has no dot left (a name such as [.pdf]), it raises
    [IndexError], and nothing is written. *)
Theorem save_file_raises_when_sanitizing_removes_the_dot
    (file : upload) (subfolder uuid_hex : str) (fs : filesystem) :
  allowed_file lower (filename file) = true →
  46%N ∉ secure_filename (filename file) →
  save_file lower secure_filename UPLOAD_FOLDER file subfolder uuid_hex fs
  = (fs, Raise IndexError).
Proof.
  intros Hallowed Hdot. unfold save_file.
  destruct (filename file) as [|c name] eqn:Hname; [discriminate|].
  rewrite Hallowed. cbn [negb]. unfold after_last_dot.
  rewrite (rfind_from_no_dot _ Hdot). reflexivity.
Qed.

(** X21. [analyze_video] answers 400 and leaves files, accounts and
    analyses as they are, without running any analysis, when the request has
    no [video] file, when the file has an empty name, and when its extension
    is not allowed. *)
Theorem analyze_video_refuses_uploads_without_touching_the_state
    (current_user_id : str) (req : request) (uuid_hex : str) (w : world) :
  let view :=
    analyze_video lower secure_filename UPLOAD_FOLDER analysis_service_analyze_video
      create_analysis increment_analyses_count get_analysis_summary in
  (request_files req !! "video" = None →
   view current_user_id req uuid_hex w = (w, error_response "No video file provided" 400))
  ∧ (∀ video_file,
       request_files req !! "video" = Some video_file →
       filename video_file = [] →
       view current_user_id req uuid_hex w = (w, error_response "No file selected" 400))
  ∧ (∀ video_file,
       request_files req !! "video" = Some video_file →
       filename video_file ≠ [] →
       allowed_file lower (filename video_file) = false →
       view current_user_id req uuid_hex w = (w, error_response "Invalid file type" 400)).
Proof.
  cbn zeta. unfold analyze_video, catching. split; [|split].
  - intros ->. reflexivity.
  - intros video_file -> ->. reflexivity.
  - intros video_file -> Hname Hallowed.
    destruct (filename video_file) as [|c name] eqn:Hfile; [congruence|].
    unfold mbind, io_bind, save_upload, save_file. rewrite Hfile, Hallowed.
    cbn. destruct w. reflexivity.
Qed.

End Uploads.

(** A sanitizer for the witness: it removes the dots that lead a name. *)
Fixpoint without_leading_dots (name : str) : str :=
  match name with
  | c :: rest => if (c =? 46)%N then without_leading_dots rest else name
  | [] => []
  end.

Lemma save_file_raises_witness :
  save_file ascii_lower without_leading_dots (lit "uploads") {| filename := lit ".pdf" |}
    (lit "videos") (lit "77aa") {| files := ∅; remove_script := [] |}
  = ({| files := ∅; remove_script := [] |}, Raise IndexError).
Proof.
  refine (save_file_raises_when_sanitizing_removes_the_dot ascii_lower
            without_leading_dots (lit "uploads") {| filename := lit ".pdf" |}
            (lit "videos") (lit "77aa") {| files := ∅; remove_script := [] |} _ _).
  - vm_compute. reflexivity.
  - vm_compute. intros H. repeat (apply elem_of_cons in H as [H|H]; [discriminate|]).
    by apply elem_of_nil in H.
Defined.

End UploadFacts.

(* --------------------------------------------------------------------- *)
(** ** routes/analysis.py: the owner deletes an analysis *)
(* --------------------------------------------------------------------- *)

Module DeleteViewFacts.
Import Py Backend Backend.Mongo Backend.FileHandler MongoFacts AnalysisModelFacts.

(** X22. When the user who created an analysis asks the delete view to
    remove it, the view answers 200, the record is gone and the collection is
    as it was before the analysis was created; the report path of the
    record is handed to [delete_file], and whatever becomes of the file (it
    stays when it is locked) the record is deleted all the same. *)
Theorem owner_deletes_created_analysis_and_its_report
    (user_id analysis_type : str) (data : value) (report_path : str) (now : Z)
    (inserted_id : N) (w : world) :
  (inserted_id < 16 ^ 24)%N →
  Forall (fun d => field_is_oid "_id" inserted_id d = false) (analyses w) →
  let created :=
    {| fs := fs w;
       users := users w;
       analyses :=
         (AnalysisModel.create_analysis user_id analysis_type data (VStr report_path)
            now inserted_id (analyses w)).1 |} in
  let out := AnalysisRoutes.delete_analysis user_id (to_hex 24 inserted_id) created in
  out.2 = message_response "Analysis deleted successfully" 200
  ∧ analyses out.1 = analyses w
  ∧ users out.1 = users w
  ∧ fs out.1 = (delete_file report_path (fs w)).1.
Proof.
  intros Hid Hfresh. cbn zeta.
  destruct (create_analysis_stored user_id analysis_type data (VStr report_path) now
              inserted_id (analyses w))
    as (stored & -> & Hsid & Huser & Hpath & _).
  cbn [fst]. unfold AnalysisRoutes.delete_analysis, catching. cbn [analyses fs users].
  assert (Hget : AnalysisModel.get_analysis_by_id (to_hex 24 inserted_id)
                   (analyses w ++ [stored])
                 = Some (<["_id" := VStr (to_hex 24 inserted_id)]> stored)).
  { unfold AnalysisModel.get_analysis_by_id. rewrite (ObjectId_to_hex _ Hid).
    rewrite (find_one_last _ _ _ Hfresh).
    unfold field_is_oid. rewrite Hsid. cbn [is_oid]. rewrite N.eqb_refl.
    apply (serialize_analysis_stored _ _ Hsid). }
  assert (Hdelete : AnalysisModel.delete_analysis (to_hex 24 inserted_id) user_id
                      (analyses w ++ [stored])
                    = (analyses w, true)).
  { unfold AnalysisModel.delete_analysis. rewrite (ObjectId_to_hex _ Hid).
    assert (Hnone : Forall (fun d => AnalysisModel.owned_by inserted_id user_id d = false)
                      (analyses w)).
    { eapply Forall_impl; [exact Hfresh|].
      intros d Hd. unfold AnalysisModel.owned_by. by rewrite Hd. }
    rewrite (delete_one_last _ _ _ Hnone).
    unfold AnalysisModel.owned_by, field_is_oid, field_is_str.
    rewrite Hsid, Huser. cbn [is_oid is_str].
    by rewrite N.eqb_refl, bool_decide_eq_true_2. }
  rewrite Hget, Hdelete.
  rewrite !(lookup_insert_ne _ "_id") by discriminate. rewrite Huser, Hpath.
  rewrite (dict_with_key_truthy _ "_id" (VStr (to_hex 24 inserted_id)))
    by apply lookup_insert_eq.
  cbn [is_str andb]. rewrite bool_decide_eq_true_2 by reflexivity.
  destruct report_path as [|c path]; cbn [truthy fst snd fs users analyses];
    repeat split; reflexivity.
Qed.

Lemma owner_deletes_witness :
  (AnalysisRoutes.delete_analysis (lit "u1") (to_hex 24 7)
     {| fs := {| files := {[lit "r.pdf"]}; remove_script := [Locked; Removes] |};
        users := [];
        analyses :=
          (AnalysisModel.create_analysis (lit "u1") (lit "video") VNone
             (VStr (lit "r.pdf")) 0 7 []).1 |}).2
  = message_response "Analysis deleted successfully" 200.
Proof.
  refine (proj1 (owner_deletes_created_analysis_and_its_report (lit "u1") (lit "video")
                   VNone (lit "r.pdf") 0 7
                   {| fs := {| files := {[lit "r.pdf"]};
                               remove_script := [Locked; Removes] |};
                      users := []; analyses := [] |} _ _)).
  - reflexivity.
  - constructor.
Defined.

End DeleteViewFacts.

(* --------------------------------------------------------------------- *)
(** ** routes/auth.py and models/user.py: what a profile update can write *)
(* --------------------------------------------------------------------- *)

Module ProfileUpdateFacts.
Import Py Backend Backend.Mongo Backend.UserModel Backend.AuthRoutes.

Lemma update_one_pointwise (R : doc → doc → Prop) (query : doc → bool)
    (update : doc → doc) (collection : list doc) :
  (∀ d, R d d) → (∀ d, R d (update d)) →
  Forall2 R collection (update_one query update collection).
Proof.
  intros Hrefl Hupdate. induction collection as [|d rest IH]; simpl; [constructor|].
  destruct (query d); constructor; auto.
  clear IH. induction rest; constructor; auto.
Qed.

(** X23. The update [update_profile] passes to [update_user] keeps only the
    [full_name] and [profile] entries of the request body, so whatever else
    the body holds, no stored account has its password, address,
    subscription, identifier or any other field changed: only [full_name],
    [profile] and [updated_at] can differ afterwards, no account is added or
    removed, and what is returned carries no password. *)
Theorem profile_update_writes_allowed_fields_only
    (user_id : str) (data : doc) (edit_profile : value → value) (now : Z)
    (collection : list doc) :
  let updated :=
    update_user user_id (alter edit_profile "profile" (allowed_entries data)) now
      collection in
  Forall2
    (fun before after =>
       ∀ k, k ≠ "full_name" → k ≠ "profile" → k ≠ "updated_at" →
            after !! k = before !! k)
    collection updated.1
  ∧ ∀ user, updated.2 = Some user → user !! "password" = None.
Proof.
  cbn zeta. unfold update_user.
  destruct (ObjectId user_id) as [oid|e] eqn:Hoid; cbn [fst snd].
  - split.
    + apply update_one_pointwise; [reflexivity|].
      intros d k Hname Hprofile Hupdated. unfold set_fields.
      apply lookup_union_r.
      rewrite lookup_insert_ne by congruence.
      rewrite lookup_alter_ne by congruence.
      unfold allowed_entries. apply map_lookup_filter_None. right.
      intros v _ Hin. cbn [fst] in Hin. unfold allowed_fields in Hin.
      apply elem_of_cons in Hin as [->|Hin]; [congruence|].
      apply list_elem_of_singleton in Hin. congruence.
    + intros user. unfold get_user_by_id. rewrite Hoid.
      destruct (find_one _ _) as [found|]; [|discriminate].
      unfold _serialize_user.
      destruct (negb (truthy (VDict found))); [discriminate|].
      destruct (found !! "_id"); [|discriminate].
      intros H. injection H as <-. apply lookup_delete_eq.
  - split; [|discriminate].
    induction collection; constructor; auto.
Qed.

End ProfileUpdateFacts.
